(** * WeChatMsg chat-record export: a shallow embedding and its properties

    The development follows [simple_export.py] and
    [app/export/export_chat_records.py]: the values a [sqlite3] cursor
    hands to Python, the positional message rows, the grouping loop, the
    contact summaries, the document and the write to disk. *)

From Stdlib Require Import ZArith QArith List String Ascii Bool Lia.
From Stdlib Require Import Permutation Sorted.
From Stdlib Require Strings.Byte.
From Stdlib Require Import DecimalString.
Import ListNotations.

Local Open Scope string_scope.
Local Open Scope list_scope.
Local Open Scope Z_scope.

(** ** Python values read from SQLite *)

(** A Python [float] other than NaN, as sign, mantissa and binary exponent:
    [FNum neg m e] is (-1)^neg * m * 2^e.  SQLite stores NaN as NULL, so a
    cursor never yields it. *)
Inductive pyfloat : Type :=
  | FZero (neg : bool)
  | FInf (neg : bool)
  | FNum (neg : bool) (m : positive) (e : Z).

(** The five result types of [sqlite3]: NULL, INTEGER, REAL, TEXT, BLOB.
    A [PStr] holds the text as its sequence of UTF-8 bytes. *)
Inductive pyval : Type :=
  | PNone
  | PInt (z : Z)
  | PFloat (f : pyfloat)
  | PStr (s : string)
  | PBytes (b : list Byte.byte).

(** Python truth value, as tested by [if message[10]:]. *)
Definition truthy (v : pyval) : bool :=
  match v with
  | PNone => false
  | PInt z => negb (z =? 0)
  | PFloat (FZero _) => false
  | PFloat _ => true
  | PStr s => negb (String.eqb s "")
  | PBytes [] => false
  | PBytes (_ :: _) => true
  end.

(** ** Exceptions *)

Inductive exn : Type :=
  | IndexError
  | KeyError
  | TypeError
  | AttributeError
  | ValueError
  | OSError
  | DatabaseError.

Inductive res (A : Type) : Type :=
  | Ok (a : A)
  | Raise (e : exn).
Arguments Ok {A} a.
Arguments Raise {A} e.

Definition rbind {A B : Type} (r : res A) (k : A -> res B) : res B :=
  match r with
  | Ok a => k a
  | Raise e => Raise e
  end.

Notation "x <- r ;; k" := (rbind r (fun x => k))
  (at level 61, r at next level, right associativity).

(** [try: ... except: default]: every exception is absorbed. *)
Definition try_except {A : Type} (r : res A) (default : A) : A :=
  match r with
  | Ok a => a
  | Raise _ => default
  end.

(** ** [bytes.hex] and [bytes.fromhex] *)

Definition hex_digit (n : N) : ascii :=
  match n with
  | 0%N => "0" | 1%N => "1" | 2%N => "2" | 3%N => "3"
  | 4%N => "4" | 5%N => "5" | 6%N => "6" | 7%N => "7"
  | 8%N => "8" | 9%N => "9" | 10%N => "a" | 11%N => "b"
  | 12%N => "c" | 13%N => "d" | 14%N => "e" | _ => "f"
  end%char.

Fixpoint bytes_hex (b : list Byte.byte) : string :=
  match b with
  | [] => ""
  | x :: rest =>
      let n := Byte.to_N x in
      String (hex_digit (n / 16)) (String (hex_digit (n mod 16)) (bytes_hex rest))
  end.

(** Value of one hexadecimal digit; [bytes.fromhex] accepts both cases. *)
Definition unhex_digit (c : ascii) : option N :=
  let n := N_of_ascii c in
  if ((48 <=? n) && (n <=? 57))%N then Some (n - 48)%N
  else if ((97 <=? n) && (n <=? 102))%N then Some (n - 87)%N
  else if ((65 <=? n) && (n <=? 70))%N then Some (n - 55)%N
  else None.

(** ASCII whitespace, skipped by [bytes.fromhex] in front of a byte. *)
Definition is_space (c : ascii) : bool :=
  let n := N_of_ascii c in
  ((n =? 32) || ((9 <=? n) && (n <=? 13)))%N.

Fixpoint bytes_fromhex (s : string) : option (list Byte.byte) :=
  match s with
  | EmptyString => Some []
  | String c rest =>
      if is_space c then bytes_fromhex rest
      else
        match rest with
        | EmptyString => None
        | String d rest' =>
            match unhex_digit c, unhex_digit d, bytes_fromhex rest' with
            | Some hi, Some lo, Some tl =>
                match Byte.of_N (hi * 16 + lo) with
                | Some x => Some (x :: tl)
                | None => None
                end
            | _, _, _ => None
            end
        end
  end.

Definition is_lower_hex (c : ascii) : bool :=
  let n := N_of_ascii c in
  (((48 <=? n) && (n <=? 57)) || ((97 <=? n) && (n <=? 102)))%N.

Fixpoint string_forallb (p : ascii -> bool) (s : string) : bool :=
  match s with
  | EmptyString => true
  | String c rest => p c && string_forallb p rest
  end.

Definition byte_hex_ok (x : Byte.byte) : bool :=
  let hi := hex_digit (Byte.to_N x / 16) in
  let lo := hex_digit (Byte.to_N x mod 16) in
  negb (is_space hi) && is_lower_hex hi && is_lower_hex lo &&
  match unhex_digit hi, unhex_digit lo with
  | Some h, Some l =>
      match Byte.of_N (h * 16 + l) with
      | Some y => Byte.eqb x y
      | None => false
      end
  | _, _ => false
  end.

(** ** [float.hex] *)

(** Decimal digits of a non-negative integer, as [str(n)] prints them. *)
Definition dec_of_N (n : N) : string := NilZero.string_of_uint (N.to_uint n).

(** [k] hexadecimal digits of [z], most significant first. *)
Fixpoint hex_fixed (k : nat) (z : Z) : string :=
  match k with
  | O => ""
  | S k' => String (hex_digit (Z.to_N ((z / 16 ^ Z.of_nat k') mod 16))) (hex_fixed k' z)
  end.

Notation "a +++ b" := (String.append a b) (at level 60, right associativity).

Definition sign_prefix (neg : bool) : string := if neg then "-" else "".

(** The C99 hexadecimal form CPython's [float.hex] produces for a double:
    one leading digit, 13 hexadecimal digits of fraction, and the binary
    exponent printed with its sign.  A double below 2^-1022 is subnormal and
    printed with leading digit 0 and exponent -1022. *)
Definition float_hex (f : pyfloat) : string :=
  match f with
  | FZero neg => sign_prefix neg +++ "0x0.0p+0"
  | FInf neg => sign_prefix neg +++ "inf"
  | FNum neg m e =>
      let n := Z.of_nat (Pos.size_nat m) in
      let ex := e + n - 1 in
      if -1022 <=? ex then
        sign_prefix neg +++ "0x1." +++
        hex_fixed 13 (Z.shiftl (Z.pos m) (53 - n) - 2 ^ 52) +++
        "p" +++ (if ex <? 0 then "-" else "+") +++ dec_of_N (Z.to_N (Z.abs ex))
      else
        sign_prefix neg +++ "0x0." +++
        hex_fixed 13 (Z.shiftl (Z.pos m) (e + 1074)) +++ "p-1022"
  end.

(** [v.hex()]: [bytes] and [float] have the method, the other three types
    raise [AttributeError]. *)
Definition hex_method (v : pyval) : res pyval :=
  match v with
  | PBytes b => Ok (PStr (bytes_hex b))
  | PFloat f => Ok (PStr (float_hex f))
  | PNone | PInt _ | PStr _ => Raise AttributeError
  end.

(** ** Message rows and their JSON form *)

(** A message row is the tuple [fetchall] returns: localId(0), TalkerId(1),
    Type(2), SubType(3), IsSender(4), CreateTime(5), Status(6),
    StrContent(7), StrTime(8), MsgSvrID(9), BytesExtra(10), StrTalker(11),
    Reserved1(12), CompressContent(13). *)
Definition row : Type := list pyval.

(** [message[i]] *)
Definition index (message : row) (i : nat) : res pyval :=
  match nth_error message i with
  | Some v => Ok v
  | None => Raise IndexError
  end.

Record formatted_message : Type := mkFormatted {
  message_id : pyval;
  talker_id : pyval;
  type_ : pyval;
  sub_type : pyval;
  is_sender : bool;
  timestamp : pyval;
  formatted_time : pyval;
  content : pyval;
  msg_svr_id : pyval;
  bytes_extra : pyval;
  talker : pyval;
  reserved1 : pyval;
  compress_content : pyval
}.

(** The guarded conversion of one binary field:
    [x = None; if v: try: x = v.hex() except: x = None]. *)
Definition hex_or_none (v : pyval) : pyval :=
  if truthy v then try_except (hex_method v) PNone else PNone.

(** [_format_message_for_json] of export_chat_records.py, the same function
    as [format_message_for_json] of simple_export.py. *)
Definition format_message_for_json (message : row) : res formatted_message :=
  m10 <- index message 10 ;;
  let bytes_extra := hex_or_none m10 in
  compress_content <-
    (if (13 <? List.length message)%nat
     then (m13 <- index message 13 ;; Ok (hex_or_none m13))
     else Ok PNone) ;;
  m0 <- index message 0 ;;
  m1 <- index message 1 ;;
  m2 <- index message 2 ;;
  m3 <- index message 3 ;;
  m4 <- index message 4 ;;
  m5 <- index message 5 ;;
  m8 <- index message 8 ;;
  m7 <- index message 7 ;;
  m9 <- index message 9 ;;
  m11 <- index message 11 ;;
  m12 <- (if (12 <? List.length message)%nat then index message 12 else Ok PNone) ;;
  Ok {| message_id := m0; talker_id := m1; type_ := m2; sub_type := m3;
        is_sender := truthy m4; timestamp := m5; formatted_time := m8;
        content := m7; msg_svr_id := m9; bytes_extra := bytes_extra;
        talker := m11; reserved1 := m12;
        compress_content := compress_content |}.

(** [[_format_message_for_json(msg) for msg in messages]] *)
Fixpoint format_messages (messages : list row) : res (list formatted_message) :=
  match messages with
  | [] => Ok []
  | msg :: rest =>
      f <- format_message_for_json msg ;;
      fs <- format_messages rest ;;
      Ok (f :: fs)
  end.

(** ** Dictionary keys *)

(** The number a Python [int] or finite [float] denotes. *)
Definition float_value (neg : bool) (m : positive) (e : Z) : Q :=
  let sm := if neg then Z.neg m else Z.pos m in
  if 0 <=? e then inject_Z (sm * 2 ^ e) else Qmake sm (Z.to_pos (2 ^ (- e))).

(** Keys of a [dict] are compared with [==] (and hashed accordingly), so
    [1] and [1.0] are one key, [0.0] and [-0.0] too, while values of
    different kinds never are.  [py_key] sends a value to a normal form on
    which [==] is plain equality. *)
Inductive key : Type :=
  | KNone
  | KNegInf
  | KPosInf
  | KNum (num : Z) (den : positive)
  | KStr (s : string)
  | KBytes (b : list Byte.byte).

Definition key_of_Q (q : Q) : key :=
  let r := Qred q in KNum (Qnum r) (Qden r).

Definition py_key (v : pyval) : key :=
  match v with
  | PNone => KNone
  | PInt z => key_of_Q (inject_Z z)
  | PFloat (FZero _) => key_of_Q (inject_Z 0)
  | PFloat (FInf neg) => if neg then KNegInf else KPosInf
  | PFloat (FNum neg m e) => key_of_Q (float_value neg m e)
  | PStr s => KStr s
  | PBytes b => KBytes b
  end.

Fixpoint bytes_eqb (a b : list Byte.byte) : bool :=
  match a, b with
  | [], [] => true
  | x :: a', y :: b' => Byte.eqb x y && bytes_eqb a' b'
  | _, _ => false
  end.

Definition key_eqb (a b : key) : bool :=
  match a, b with
  | KNone, KNone => true
  | KNegInf, KNegInf => true
  | KPosInf, KPosInf => true
  | KNum n d, KNum n' d' => (n =? n') && (d =? d')%positive
  | KStr s, KStr s' => String.eqb s s'
  | KBytes x, KBytes y => bytes_eqb x y
  | _, _ => false
  end.

(** [a == b] on the values of a row. *)
Definition py_eqb (a b : pyval) : bool := key_eqb (py_key a) (py_key b).

(** ** Dictionaries *)

(** A [dict] keeps its entries in insertion order; assigning to a key that
    is already there keeps the first key object and its position. *)
Definition dict (V : Type) : Type := list (pyval * V).

Fixpoint dict_get {V : Type} (d : dict V) (k : pyval) : option V :=
  match d with
  | [] => None
  | (k', v) :: d' => if py_eqb k' k then Some v else dict_get d' k
  end.

(** [k in d] *)
Definition dict_mem {V : Type} (d : dict V) (k : pyval) : bool :=
  match dict_get d k with
  | Some _ => true
  | None => false
  end.

(** [d[k] = v] *)
Fixpoint dict_set {V : Type} (d : dict V) (k : pyval) (v : V) : dict V :=
  match d with
  | [] => [(k, v)]
  | (k', v') :: d' =>
      if py_eqb k' k then (k', v) :: d' else (k', v') :: dict_set d' k v
  end.

(** [d.keys()] *)
Definition dict_keys {V : Type} (d : dict V) : list pyval := map fst d.

(** ** The grouping loop *)

(** One iteration of
    [talker = message[11]]
    [if talker not in grouped_messages: grouped_messages[talker] = []]
    [grouped_messages[talker].append(message)]. *)
Definition group_step (grouped_messages : dict (list row)) (message : row)
  : res (dict (list row)) :=
  talker <- index message 11 ;;
  let g :=
    if dict_mem grouped_messages talker then grouped_messages
    else dict_set grouped_messages talker [] in
  match dict_get g talker with
  | Some l => Ok (dict_set g talker (l ++ [message]))
  | None => Raise KeyError
  end.

Fixpoint group_loop (grouped_messages : dict (list row)) (all_messages : list row)
  : res (dict (list row)) :=
  match all_messages with
  | [] => Ok grouped_messages
  | message :: rest =>
      g <- group_step grouped_messages message ;;
      group_loop g rest
  end.

(** [grouped_messages = {}] followed by the loop over [all_messages]. *)
Definition group_by_talker (all_messages : list row) : res (dict (list row)) :=
  group_loop [] all_messages.

(** [message[11] == k], false on a row with no such column. *)
Definition talker_is (k : pyval) (message : row) : bool :=
  match nth_error message 11 with
  | Some t => py_eqb k t
  | None => false
  end.

Definition has_talker (message : row) : Prop := (11 < List.length message)%nat.

(** No two entries of a dictionary have equal keys. *)
Inductive keys_distinct {V : Type} : dict V -> Prop :=
  | kd_nil : keys_distinct []
  | kd_cons k v d :
      dict_get d k = None -> keys_distinct d -> keys_distinct ((k, v) :: d).

(** What a key holds after more messages were appended: the list it held
    followed by the new messages of that talker, and no entry at all when
    there is neither. *)
Definition extend_group (old : option (list row)) (new : list row)
  : option (list row) :=
  match old, new with
  | Some l, _ => Some (l ++ new)
  | None, [] => None
  | None, _ :: _ => Some new
  end.

(** ** SQLite comparison and ordering *)

(** A number with the two infinities a REAL may hold. *)
Inductive ext : Type :=
  | NegInf
  | Fin (q : Q)
  | PosInf.

(** The number held by an INTEGER or REAL value. *)
Definition num_value (v : pyval) : option ext :=
  match v with
  | PInt z => Some (Fin (inject_Z z))
  | PFloat (FZero _) => Some (Fin (inject_Z 0))
  | PFloat (FInf neg) => Some (if neg then NegInf else PosInf)
  | PFloat (FNum neg m e) => Some (Fin (float_value neg m e))
  | PNone | PStr _ | PBytes _ => None
  end.

Definition ext_leb (a b : ext) : bool :=
  match a, b with
  | NegInf, _ => true
  | _, PosInf => true
  | Fin p, Fin q => Qle_bool p q
  | _, _ => false
  end.

(** [memcmp] order on byte sequences, a proper prefix first. *)
Fixpoint lex_leb (a b : list N) : bool :=
  match a, b with
  | [], _ => true
  | _ :: _, [] => false
  | x :: a', y :: b' =>
      if (x <? y)%N then true else if (y <? x)%N then false else lex_leb a' b'
  end.

Fixpoint codes_of_string (s : string) : list N :=
  match s with
  | EmptyString => []
  | String c rest => N_of_ascii c :: codes_of_string rest
  end.

(** Storage classes in SQLite's sort order: NULL, then numbers, then TEXT,
    then BLOB. *)
Definition sql_rank (v : pyval) : nat :=
  match v with
  | PNone => 0
  | PInt _ | PFloat _ => 1
  | PStr _ => 2
  | PBytes _ => 3
  end.

(** [a] sorts no later than [b] under [ORDER BY] with the BINARY collation. *)
Definition sql_leb (a b : pyval) : bool :=
  if (sql_rank a <? sql_rank b)%nat then true
  else if (sql_rank b <? sql_rank a)%nat then false
  else
    match a, b with
    | PStr s, PStr s' => lex_leb (codes_of_string s) (codes_of_string s')
    | PBytes x, PBytes y => lex_leb (map Byte.to_N x) (map Byte.to_N y)
    | _, _ =>
        match num_value a, num_value b with
        | Some p, Some q => ext_leb p q
        | _, _ => true
        end
    end.

(** The SQL expression [a < b] used as a condition: a NULL operand makes it
    NULL, which [WHERE] treats as not satisfied. *)
Definition sql_lt (a b : pyval) : bool :=
  match a, b with
  | PNone, _ | _, PNone => false
  | _, _ => negb (sql_leb b a)
  end.

(** [message[5]], the CreateTime of a fetched row. *)
Definition row_time (message : row) : pyval := nth 5 message PNone.

(** One line of the MSG table, with the columns the query reads. *)
Record msg_record : Type := mkMsg {
  localId : pyval;
  TalkerId : pyval;
  Type_ : pyval;
  SubType : pyval;
  IsSender : pyval;
  CreateTime : pyval;
  Status : pyval;
  StrContent : pyval;
  MsgSvrID : pyval;
  BytesExtra : pyval;
  StrTalker : pyval;
  Reserved1 : pyval;
  CompressContent : pyval
}.

Section Query.

(** SQLite's [strftime('%Y-%m-%d %H:%M:%S', t, 'unixepoch', 'localtime')]:
    it depends on the time zone of the machine. *)
Variable sql_strftime : pyval -> pyval.

(** The select list of the query, 14 expressions. *)
Definition select_row (r : msg_record) : row :=
  [localId r; TalkerId r; Type_ r; SubType r; IsSender r; CreateTime r;
   Status r; StrContent r; sql_strftime (CreateTime r); MsgSvrID r;
   BytesExtra r; StrTalker r; Reserved1 r; CompressContent r].

(** [WHERE CreateTime>s AND CreateTime<e], or no condition. *)
Definition where_clause (bounds : option (Z * Z)) (r : msg_record) : bool :=
  match bounds with
  | Some (s, e) => sql_lt (PInt s) (CreateTime r) && sql_lt (CreateTime r) (PInt e)
  | None => true
  end.

Fixpoint insert_by_time (r : msg_record) (sorted : list msg_record)
  : list msg_record :=
  match sorted with
  | [] => [r]
  | r' :: rest =>
      if sql_leb (CreateTime r) (CreateTime r') then r :: sorted
      else r' :: insert_by_time r rest
  end.

(** [order by CreateTime]; rows with the same time stay in table order. *)
Definition order_by_time (rs : list msg_record) : list msg_record :=
  fold_right insert_by_time [] rs.

(** What [cursor.execute(sql); cursor.fetchall()] returns on table [rs]. *)
Definition run_query (bounds : option (Z * Z)) (rs : list msg_record)
  : list row :=
  map select_row (order_by_time (filter (where_clause bounds) rs)).

End Query.

(** ** Contact summaries *)

(** [needle in hay] for two strings. *)
Fixpoint contains (needle hay : string) : bool :=
  if String.prefix needle hay then true
  else
    match hay with
    | EmptyString => false
    | String _ rest => contains needle rest
    end.

(** [hay.endswith(needle)] *)
Fixpoint ends_with (needle hay : string) : bool :=
  if String.eqb needle hay then true
  else
    match hay with
    | EmptyString => false
    | String _ rest => ends_with needle rest
    end.

(** ["@chatroom" in v]: a substring test on a [str], [TypeError] on the
    other types. *)
Definition chatroom_in (v : pyval) : res bool :=
  match v with
  | PStr s => Ok (contains "@chatroom" s)
  | PNone | PInt _ | PFloat _ | PBytes _ => Raise TypeError
  end.

Record contact_summary : Type := mkContact {
  username : pyval;
  alias : pyval;
  contact_type : pyval;
  remark : pyval;
  nickname : pyval;
  is_chatroom : bool
}.

(** The body of [for talker in grouped_messages.keys()]: [contact_info] is
    the looked-up tuple or [None]; an empty tuple is false as well. *)
Definition contact_entry (talker : pyval) (contact_info : option row)
  : res contact_summary :=
  match contact_info with
  | Some ((_ :: _) as info) =>
      c0 <- index info 0 ;;
      c1 <- index info 1 ;;
      c2 <- index info 2 ;;
      c3 <- index info 3 ;;
      c4 <- index info 4 ;;
      room <- chatroom_in c0 ;;
      Ok {| username := c0; alias := c1; contact_type := c2; remark := c3;
            nickname := c4; is_chatroom := room |}
  | Some [] | None =>
      room <- chatroom_in talker ;;
      Ok {| username := talker; alias := PStr ""; contact_type := PInt (-1);
            remark := PStr ""; nickname := talker; is_chatroom := room |}
  end.

(** ** The export document *)

Record document : Type := mkDocument {
  export_time : string;
  time_range_start : string;
  time_range_end : string;
  contacts : dict contact_summary;
  messages : dict (list formatted_message)
}.

(** [for talker, messages in grouped_messages.items():
       formatted_data["messages"][talker] = [...]] *)
Fixpoint messages_loop (items : dict (list row))
    (acc : dict (list formatted_message)) : res (dict (list formatted_message)) :=
  match items with
  | [] => Ok acc
  | (talker, msgs) :: rest =>
      fm <- format_messages msgs ;;
      messages_loop rest (dict_set acc talker fm)
  end.

(** [json.dump] raises [TypeError] on a [bytes] value and on a [bytes] key;
    [None], numbers and strings are written. *)
Definition json_value_ok (v : pyval) : bool :=
  match v with
  | PBytes _ => false
  | _ => true
  end.

Definition json_contact_ok (c : contact_summary) : bool :=
  json_value_ok (username c) && json_value_ok (alias c) &&
  json_value_ok (contact_type c) && json_value_ok (remark c) &&
  json_value_ok (nickname c).

Definition json_message_ok (f : formatted_message) : bool :=
  json_value_ok (message_id f) && json_value_ok (talker_id f) &&
  json_value_ok (type_ f) && json_value_ok (sub_type f) &&
  json_value_ok (timestamp f) && json_value_ok (formatted_time f) &&
  json_value_ok (content f) && json_value_ok (msg_svr_id f) &&
  json_value_ok (bytes_extra f) && json_value_ok (talker f) &&
  json_value_ok (reserved1 f) && json_value_ok (compress_content f).

Definition json_serializable (d : document) : bool :=
  forallb (fun kv => json_value_ok (fst kv) && json_contact_ok (snd kv)) (contacts d) &&
  forallb (fun kv => json_value_ok (fst kv) && forallb json_message_ok (snd kv))
    (messages d).

(** ** Time ranges *)

(** A naive [datetime] object. *)
Record datetime : Type := mkDatetime {
  year : Z; month : Z; day : Z;
  hour : Z; minute : Z; second : Z; microsecond : Z
}.

(** One side of a time range: a timestamp, a string or a [datetime]. *)
Inductive timeval : Type :=
  | TInt (z : Z)
  | TStr (s : string)
  | TDatetime (d : datetime).

Definition time_range : Type := option (timeval * timeval).

(** ** The machine the export runs on *)

(** What the program asks of Python's [datetime] and [os] and of SQLite, and
    which the machine decides: the clock and the local time zone, the
    working directory, and whether a directory can be made or a file opened
    and written. *)
Record host : Type := mkHost {
  h_cwd : string;
  h_now : datetime;
  (** [datetime.strptime(data, format)], [None] for [ValueError] *)
  h_strptime : string -> string -> option datetime;
  (** [int(d.timestamp())] *)
  h_timestamp : datetime -> res Z;
  (** [datetime.fromtimestamp(t)] *)
  h_fromtimestamp : Z -> res datetime;
  (** [d.strftime(format)] *)
  h_strftime : datetime -> string -> string;
  h_sql_strftime : pyval -> pyval;
  h_mkdir_fails : string -> bool;
  h_open_fails : string -> bool;
  h_write_fails : string -> bool
}.

(** [convert_to_timestamp] of simple_export.py. *)
Definition parse_time (h : host) (t : timeval) : res timeval :=
  match t with
  | TStr s =>
      match h_strptime h s "%Y-%m-%d %H:%M:%S" with
      | Some d => Ok (TDatetime d)
      | None =>
          match h_strptime h s "%Y-%m-%d" with
          | Some d => Ok (TDatetime d)
          | None => Raise ValueError
          end
      end
  | TInt _ | TDatetime _ => Ok t
  end.

Definition to_epoch (h : host) (t : timeval) : res timeval :=
  match t with
  | TDatetime d => z <- h_timestamp h d ;; Ok (TInt z)
  | TInt _ | TStr _ => Ok t
  end.

Definition convert_to_timestamp (h : host) (range : timeval * timeval)
  : res (timeval * timeval) :=
  let '(start_time, end_time) := range in
  start_time <- parse_time h start_time ;;
  end_time <- parse_time h end_time ;;
  start_time <- to_epoch h start_time ;;
  end_time <- to_epoch h end_time ;;
  Ok (start_time, end_time).

(** ** Files, output and the state of the run *)

Inductive file_content : Type :=
  (** a decrypted MSG.db with its MSG table in table order *)
  | MsgDb (table : list msg_record)
  (** a MicroMsg.db, seen as the first joined Contact row of a username *)
  | ContactDb (find : pyval -> option row)
  (** the complete JSON text of a document *)
  | Json (d : document)
  (** an incomplete beginning of the JSON text of a document *)
  | JsonTruncated (d : document)
  | OtherData.

Inductive node : Type :=
  | Dir
  | File (c : file_content).

Inductive report : Type :=
  | NoRecordsFound
  | DatabaseMissing (path : string)
  | QueryFailed
  | ContactLookupFailed
  | ExportedTo (path : string)
  | ExportFailed.

(** A line on standard output or a record handed to the logger. *)
Inductive event : Type :=
  | Print (r : report)
  | LogWarning (r : report)
  | LogInfo (r : report)
  | LogError (r : report).

Record world : Type := mkWorld {
  fs : string -> option node;
  out : list event
}.

(** A computation that may change the world and may raise. *)
Definition M (A : Type) : Type := world -> res A * world.

Definition ret {A : Type} (a : A) : M A := fun w => (Ok a, w).

Definition mbind {A B : Type} (c : M A) (k : A -> M B) : M B :=
  fun w =>
    match c w with
    | (Ok a, w') => k a w'
    | (Raise e, w') => (Raise e, w')
    end.

Notation "x <~ c ;; k" := (mbind c (fun x => k))
  (at level 61, c at next level, right associativity).
Notation "c ;;; k" := (mbind c (fun _ => k))
  (at level 61, right associativity).

Definition lift {A : Type} (r : res A) : M A := fun w => (r, w).

(** [try: body except Exception: handler] *)
Definition try_catch {A : Type} (body : M A) (handler : M A) : M A :=
  fun w =>
    match body w with
    | (Ok a, w') => (Ok a, w')
    | (Raise _, w') => handler w'
    end.

Definition emit (e : event) : M unit :=
  fun w => (Ok tt, {| fs := fs w; out := out w ++ [e] |}).

(** [os.path.exists(path)] *)
Definition path_exists (path : string) : M bool :=
  fun w => (Ok (match fs w path with Some _ => true | None => false end), w).

Definition fs_put (path : string) (n : node) (w : world) : world :=
  {| fs := fun p => if String.eqb p path then Some n else fs w p; out := out w |}.

(** [os.makedirs(path)] *)
Definition makedirs (h : host) (path : string) : M unit :=
  fun w =>
    if h_mkdir_fails h path then (Raise OSError, w)
    else (Ok tt, fs_put path Dir w).

(** [os.path.join(a, b)] on a POSIX system. *)
Definition path_join (a b : string) : string :=
  if String.prefix "/" b then b
  else if String.eqb a "" || ends_with "/" a then a +++ b
  else a +++ "/" +++ b.

(** [with open(path, 'w', encoding='utf-8') as f:
       json.dump(d, f, ensure_ascii=False, indent=2)].
    Opening creates or empties the file; [json.dump] writes the text piece
    by piece, so when it stops on a value it cannot encode, or when a write
    fails, the file keeps what was written so far. *)
Definition write_json (h : host) (path : string) (d : document) : M unit :=
  fun w =>
    match fs w path with
    | Some Dir => (Raise OSError, w)
    | _ =>
        if h_open_fails h path then (Raise OSError, w)
        else if negb (json_serializable d)
        then (Raise TypeError, fs_put path (File (JsonTruncated d)) w)
        else if h_write_fails h path
        then (Raise OSError, fs_put path (File (JsonTruncated d)) w)
        else (Ok tt, fs_put path (File (Json d)) w)
    end.

(** ** simple_export.py: the two database readers *)

(** [str(start_time)] and [str(end_time)] spliced into the SQL text; both
    are integers once [convert_to_timestamp] has returned. *)
Definition sql_bounds (range : timeval * timeval) : res (Z * Z) :=
  match range with
  | (TInt s, TInt e) => Ok (s, e)
  | _ => Raise DatabaseError
  end.

(** [sqlite3.connect(db_path)], [execute], [fetchall], [close]. *)
Definition fetch_messages (h : host) (db_path : string) (bounds : option (Z * Z))
  : M (list row) :=
  fun w =>
    match fs w db_path with
    | Some (File (MsgDb table)) => (Ok (run_query (h_sql_strftime h) bounds table), w)
    | _ => (Raise DatabaseError, w)
    end.

Definition get_all_messages (h : host) (db_path : string) (tr : time_range)
  : M (list row) :=
  there <~ path_exists db_path ;;
  if negb there then
    emit (Print (DatabaseMissing db_path)) ;;; ret []
  else
    range <~ lift (match tr with
                   | Some r => (c <- convert_to_timestamp h r ;; Ok (Some c))
                   | None => Ok None
                   end) ;;
    try_catch
      (bounds <~ lift (match range with
                       | Some c => (b <- sql_bounds c ;; Ok (Some b))
                       | None => Ok None
                       end) ;;
       fetch_messages h db_path bounds)
      (emit (Print QueryFailed) ;;; ret []).

(** [cursor.execute(sql, [username]); cursor.fetchone()], with or without
    the ContactLabel join. *)
Definition fetch_contact (db_path : string) (user : pyval) : M (option row) :=
  fun w =>
    match fs w db_path with
    | Some (File (ContactDb find)) => (Ok (find user), w)
    | _ => (Raise DatabaseError, w)
    end.

Definition get_contact_info (db_path : string) (user : pyval) : M (option row) :=
  there <~ path_exists db_path ;;
  if negb there then ret None
  else
    try_catch (fetch_contact db_path user)
      (emit (Print ContactLookupFailed) ;;; ret None).

(** ** The steps shared by the two exporters *)

(** [for talker in grouped_messages.keys(): contacts_info[talker] = ...] *)
Fixpoint contacts_loop (lookup : pyval -> M (option row)) (talkers : list pyval)
    (contacts_info : dict contact_summary) : M (dict contact_summary) :=
  match talkers with
  | [] => ret contacts_info
  | talker :: rest =>
      contact_info <~ lookup talker ;;
      entry <~ lift (contact_entry talker contact_info) ;;
      contacts_loop lookup rest (dict_set contacts_info talker entry)
  end.

Section Assemble.

Variable h : host.
(** the [convert_to_timestamp] in scope of the exporter *)
Variable convert : timeval * timeval -> res (timeval * timeval).

(** [datetime.fromtimestamp(t)]: [TypeError] unless [t] is a number. *)
Definition fromtimestamp (t : timeval) : res datetime :=
  match t with
  | TInt z => h_fromtimestamp h z
  | TStr _ | TDatetime _ => Raise TypeError
  end.

(** [datetime.fromtimestamp(convert_to_timestamp(time_range)[i])
      .strftime(format) if time_range else "all"] *)
Definition describe_bound (tr : time_range) (pick_end : bool) (format : string)
  : res string :=
  match tr with
  | None => Ok "all"
  | Some r =>
      c <- convert r ;;
      d <- fromtimestamp (if pick_end then snd c else fst c) ;;
      Ok (h_strftime h d format)
  end.

(** The dictionary literal [formatted_data] and the loop filling its
    ["messages"]. *)
Definition build_document (tr : time_range)
    (grouped_messages : dict (list row)) (contacts_info : dict contact_summary)
  : res document :=
  let now := h_strftime h (h_now h) "%Y-%m-%d %H:%M:%S" in
  start <- describe_bound tr false "%Y-%m-%d %H:%M:%S" ;;
  stop <- describe_bound tr true "%Y-%m-%d %H:%M:%S" ;;
  formatted <- messages_loop grouped_messages [] ;;
  Ok {| export_time := now; time_range_start := start; time_range_end := stop;
        contacts := contacts_info; messages := formatted |}.

(** The file name [f"wechat_records_{start_time}_to_{end_time}.json"]. *)
Definition records_file_name (start_time end_time : string) : string :=
  "wechat_records_" +++ start_time +++ "_to_" +++ end_time +++ ".json".

(** The block under [if not output_path:]. *)
Definition default_output_path (tr : time_range) : M string :=
  names <~ lift (match tr with
                 | None => Ok ("all", "all")
                 | Some r =>
                     c <- convert r ;;
                     ds <- fromtimestamp (fst c) ;;
                     de <- fromtimestamp (snd c) ;;
                     Ok (h_strftime h ds "%Y%m%d", h_strftime h de "%Y%m%d")
                 end) ;;
  let output_dir := path_join (h_cwd h) "exports" in
  there <~ path_exists output_dir ;;
  (if negb there then makedirs h output_dir else ret tt) ;;;
  ret (path_join output_dir (records_file_name (fst names) (snd names))).

(** [output_path] as given, or the default when it is [None] or empty. *)
Definition resolve_output_path (tr : time_range) (output_path : option string)
  : M string :=
  match output_path with
  | Some p => if String.eqb p "" then default_output_path tr else ret p
  | None => default_output_path tr
  end.

(** The [try] block at the end; [done] and [failed] are the two reports,
    printed by one exporter and logged by the other. *)
Definition write_document (done : string -> event) (failed : event)
    (output_path : string) (d : document) : M string :=
  try_catch
    (write_json h output_path d ;;;
     emit (done output_path) ;;;
     ret output_path)
    (emit failed ;;; ret "").

End Assemble.

(** ** simple_export.py: [export_chat_records] *)

Definition export_chat_records (h : host) (db_path contact_db_path : string)
    (tr : time_range) (output_path : option string) : M string :=
  all_messages <~ get_all_messages h db_path tr ;;
  match all_messages with
  | [] => emit (Print NoRecordsFound) ;;; ret ""
  | _ :: _ =>
      grouped_messages <~ lift (group_by_talker all_messages) ;;
      contacts_info <~
        contacts_loop (get_contact_info contact_db_path)
          (dict_keys grouped_messages) [] ;;
      formatted_data <~
        lift (build_document h (convert_to_timestamp h) tr
                grouped_messages contacts_info) ;;
      path <~ resolve_output_path h (convert_to_timestamp h) tr output_path ;;
      write_document h (fun p => Print (ExportedTo p)) (Print ExportFailed)
        path formatted_data
  end.

(** ** app/export/export_chat_records.py *)

(** The database layer [app.DataBase], which the exporter imports:
    [msg_db.get_messages_all], [micro_msg_db.get_contact_by_username] and
    [convert_to_timestamp] of [app.DataBase.msg]. *)
Record database_layer : Type := mkLayer {
  get_messages_all : time_range -> res (list row);
  get_contact_by_username : pyval -> res (option row);
  db_convert_to_timestamp : timeval * timeval -> res (timeval * timeval)
}.

Definition get_all_chat_records_by_time (db : database_layer) (tr : time_range)
  : res (dict (list row)) :=
  all_messages <- get_messages_all db tr ;;
  match all_messages with
  | [] => Ok []
  | _ :: _ => group_by_talker all_messages
  end.

Definition export_chat_records_to_json (h : host) (db : database_layer)
    (tr : time_range) (output_path : option string) : M string :=
  grouped_messages <~ lift (get_all_chat_records_by_time db tr) ;;
  match grouped_messages with
  | [] => emit (LogWarning NoRecordsFound) ;;; ret ""
  | _ :: _ =>
      contacts_info <~
        contacts_loop (fun talker => lift (get_contact_by_username db talker))
          (dict_keys grouped_messages) [] ;;
      formatted_data <~
        lift (build_document h (db_convert_to_timestamp db) tr
                grouped_messages contacts_info) ;;
      path <~ resolve_output_path h (db_convert_to_timestamp db) tr output_path ;;
      write_document h (fun p => LogInfo (ExportedTo p)) (LogError ExportFailed)
        path formatted_data
  end.

(** The statements of [export_chat_records_to_json] in front of its [try]
    block: [None] when there is nothing to export, otherwise the path and the
    document that the [try] block is entered with. *)
Definition before_write (h : host) (db : database_layer)
    (tr : time_range) (output_path : option string)
  : M (option (string * document)) :=
  grouped_messages <~ lift (get_all_chat_records_by_time db tr) ;;
  match grouped_messages with
  | [] => ret None
  | _ :: _ =>
      contacts_info <~
        contacts_loop (fun talker => lift (get_contact_by_username db talker))
          (dict_keys grouped_messages) [] ;;
      formatted_data <~
        lift (build_document h (db_convert_to_timestamp db) tr
                grouped_messages contacts_info) ;;
      path <~ resolve_output_path h (db_convert_to_timestamp db) tr output_path ;;
      ret (Some (path, formatted_data))
  end.

(** ** Sample data *)

(** A well-formed 14-column row of the MSG query. *)
Definition sample_row (id : Z) (who : string) : row :=
  [PInt id; PInt 1; PInt 1; PInt 0; PInt 0; PInt (1700000000 + id); PInt 0;
   PStr "hi"; PStr "2023-11-14 22:13:20"; PInt 7; PBytes []; PStr who;
   PInt 0; PNone].

(** A machine whose local time zone is UTC.  Its [strptime] reads the
    zero-padded spellings "YYYY-MM-DD" and "YYYY-MM-DD HH:MM:SS"; that is all
    the samples below give it. *)
Definition days_from_civil (y m d : Z) : Z :=
  let y' := if m <=? 2 then y - 1 else y in
  let era := y' / 400 in
  let yoe := y' - era * 400 in
  let doy := (153 * (if 2 <? m then m - 3 else m + 9) + 2) / 5 + d - 1 in
  let doe := yoe * 365 + yoe / 4 - yoe / 100 + doy in
  era * 146097 + doe - 719468.

Definition civil_from_days (z : Z) : Z * Z * Z :=
  let z' := z + 719468 in
  let era := z' / 146097 in
  let doe := z' - era * 146097 in
  let yoe := (doe - doe / 1460 + doe / 36524 - doe / 146096) / 365 in
  let doy := doe - (365 * yoe + yoe / 4 - yoe / 100) in
  let mp := (5 * doy + 2) / 153 in
  let d := doy - (153 * mp + 2) / 5 + 1 in
  let m := if mp <? 10 then mp + 3 else mp - 9 in
  let y := yoe + era * 400 in
  (if m <=? 2 then y + 1 else y, m, d).

Definition pad (width : nat) (z : Z) : string :=
  let s := dec_of_N (Z.to_N z) in
  String.concat "" (repeat "0" (width - String.length s)) +++ s.

Definition utc_strftime (d : datetime) (format : string) : string :=
  let date sep := pad 4 (year d) +++ sep +++ pad 2 (month d) +++ sep +++ pad 2 (day d) in
  if String.eqb format "%Y%m%d" then date ""
  else if String.eqb format "%Y-%m-%d" then date "-"
  else date "-" +++ " " +++ pad 2 (hour d) +++ ":" +++ pad 2 (minute d)
       +++ ":" +++ pad 2 (second d).

Definition utc_fromtimestamp (t : Z) : res datetime :=
  let '(y, m, d) := civil_from_days (t / 86400) in
  let s := t mod 86400 in
  if (1 <=? y) && (y <=? 9999)
  then Ok (mkDatetime y m d (s / 3600) (s mod 3600 / 60) (s mod 60) 0)
  else Raise ValueError.

Definition utc_timestamp (d : datetime) : res Z :=
  let secs := days_from_civil (year d) (month d) (day d) * 86400
              + hour d * 3600 + minute d * 60 + second d in
  Ok (if (secs <? 0) && (0 <? microsecond d) then secs + 1 else secs).

Fixpoint digits_value (acc : Z) (s : string) : option Z :=
  match s with
  | EmptyString => Some acc
  | String c rest =>
      let n := Z.of_N (N_of_ascii c) in
      if (48 <=? n) && (n <=? 57) then digits_value (acc * 10 + (n - 48)) rest
      else None
  end.

Definition field (s : string) (pos len : nat) : option Z :=
  digits_value 0 (String.substring pos len s).

Definition days_in_month (y m : Z) : Z :=
  days_from_civil (if m =? 12 then y + 1 else y) (if m =? 12 then 1 else m + 1) 1
  - days_from_civil y m 1.

Definition strict_strptime (data format : string) : option datetime :=
  let date_ok :=
    String.eqb (String.substring 4 1 data) "-" &&
    String.eqb (String.substring 7 1 data) "-" in
  match field data 0 4, field data 5 2, field data 8 2 with
  | Some y, Some m, Some d =>
      if negb (date_ok && (1 <=? y) && (1 <=? m) && (m <=? 12) && (1 <=? d)
               && (d <=? days_in_month y m)) then None
      else if String.eqb format "%Y-%m-%d" then
        if (String.length data =? 10)%nat then Some (mkDatetime y m d 0 0 0 0)
        else None
      else if String.eqb format "%Y-%m-%d %H:%M:%S" then
        match field data 11 2, field data 14 2, field data 17 2 with
        | Some hh, Some mm, Some ss =>
            if (String.length data =? 19)%nat &&
               String.eqb (String.substring 10 1 data) " " &&
               String.eqb (String.substring 13 1 data) ":" &&
               String.eqb (String.substring 16 1 data) ":" &&
               (hh <? 24) && (mm <? 60) && (ss <? 60)
            then Some (mkDatetime y m d hh mm ss 0)
            else None
        | _, _, _ => None
        end
      else None
  | _, _, _ => None
  end.

(** SQLite's [strftime('%Y-%m-%d %H:%M:%S', t, 'unixepoch', 'localtime')] on
    this machine, for the INTEGER and NULL times the samples hold. *)
Definition utc_sql_strftime (v : pyval) : pyval :=
  match v with
  | PInt t =>
      match utc_fromtimestamp t with
      | Ok d => PStr (utc_strftime d "%Y-%m-%d %H:%M:%S")
      | Raise _ => PNone
      end
  | _ => PNone
  end.

(** The sample machine: working directory [/home/user], every directory can
    be made and every file opened and written. *)
Definition utc_host : host :=
  {| h_cwd := "/home/user";
     h_now := mkDatetime 2025 3 15 12 0 0 0;
     h_strptime := strict_strptime;
     h_timestamp := utc_timestamp;
     h_fromtimestamp := utc_fromtimestamp;
     h_strftime := utc_strftime;
     h_sql_strftime := utc_sql_strftime;
     h_mkdir_fails := fun _ => false;
     h_open_fails := fun _ => false;
     h_write_fails := fun _ => false |}.

(** The same machine with a disk on which every write fails. *)
Definition full_disk_host : host :=
  {| h_cwd := "/home/user";
     h_now := mkDatetime 2025 3 15 12 0 0 0;
     h_strptime := strict_strptime;
     h_timestamp := utc_timestamp;
     h_fromtimestamp := utc_fromtimestamp;
     h_strftime := utc_strftime;
     h_sql_strftime := utc_sql_strftime;
     h_mkdir_fails := fun _ => false;
     h_open_fails := fun _ => false;
     h_write_fails := fun _ => true |}.

(** A row with both binary columns filled. *)
Definition blob_row : row :=
  [PInt 1; PInt 1; PInt 1; PInt 0; PInt 1; PInt 1700000001; PInt 0;
   PStr "hi"; PStr "2023-11-14 22:13:21"; PInt 7;
   PBytes [Byte.x0a; Byte.xff]; PStr "alice"; PInt 0; PBytes [Byte.x00; Byte.xc3]].

(** A row whose BytesExtra column holds the REAL 1.5. *)
Definition real_row : row :=
  [PInt 1; PInt 1; PInt 1; PInt 0; PInt 1; PInt 1700000001; PInt 0;
   PStr "hi"; PStr "2023-11-14 22:13:21"; PInt 7;
   PFloat (FNum false 3 (-1)); PStr "alice"; PInt 0; PNone].

(** A MSG table with messages at times 100, 200, 150, 300 and one NULL
    time, and the world holding it as [MSG.db]. *)
Definition sample_msg (id t : pyval) (who : string) : msg_record :=
  {| localId := id; TalkerId := PInt 1; Type_ := PInt 1; SubType := PInt 0;
     IsSender := PInt 0; CreateTime := t; Status := PInt 0;
     StrContent := PStr "hi"; MsgSvrID := PInt 7; BytesExtra := PNone;
     StrTalker := PStr who; Reserved1 := PInt 0; CompressContent := PNone |}.

Definition sample_table : list msg_record :=
  [sample_msg (PInt 1) (PInt 100) "alice";
   sample_msg (PInt 2) (PInt 200) "alice";
   sample_msg (PInt 3) (PInt 150) "g@chatroom";
   sample_msg (PInt 4) (PInt 300) "alice";
   sample_msg (PInt 5) PNone "alice"].

Definition sample_world : world :=
  {| fs := fun p => if String.eqb p "MSG.db" then Some (File (MsgDb sample_table))
                    else if String.eqb p "/home/user" then Some Dir
                    else None;
     out := [] |}.

(** A database layer with three messages of "alice" and one of
    "g@chatroom", and a contact row for "alice" only. *)
Definition sample_layer : database_layer :=
  {| get_messages_all := fun _ =>
       Ok [sample_row 1 "alice"; sample_row 2 "g@chatroom";
           sample_row 3 "alice"; sample_row 4 "alice"];
     get_contact_by_username := fun user =>
       Ok (if py_eqb user (PStr "alice")
           then Some [PStr "alice"; PStr "al"; PInt 3; PStr "Ali"; PStr "Alice";
                      PStr "A"; PStr "A"; PStr ""; PStr ""; PNone; PStr "None"]
           else None);
     db_convert_to_timestamp := convert_to_timestamp utc_host |}.

(** A database layer whose query matches nothing. *)
Definition empty_layer : database_layer :=
  {| get_messages_all := fun _ => Ok [];
     get_contact_by_username := fun _ => Ok None;
     db_convert_to_timestamp := convert_to_timestamp utc_host |}.

(** A database layer with one message whose content column is a BLOB, which
    [json.dump] cannot encode. *)
Definition blob_content_layer : database_layer :=
  {| get_messages_all := fun _ =>
       Ok [[PInt 1; PInt 1; PInt 1; PInt 0; PInt 1; PInt 1700000001; PInt 0;
            PBytes [Byte.x68; Byte.x69]; PStr "2023-11-14 22:13:21"; PInt 7;
            PNone; PStr "alice"; PInt 0; PNone]];
     get_contact_by_username := fun _ => Ok None;
     db_convert_to_timestamp := convert_to_timestamp utc_host |}.


(** ** export_records.py: the command line *)

(** The arguments after [parser.parse_args()]: [--start], [--end],
    [--output] (each [None] when not given) and [--debug]. *)
Record cli_args : Type := mkArgs {
  arg_start : option string;
  arg_end : option string;
  arg_output : option string;
  arg_debug : bool
}.

(** The lines [main] and [parse_date] print. *)
Inductive console_line : Type :=
  | InvalidDateFormat (date_str : string)
  | InitializingDatabase
  | ExportingRecords
  | ExportSucceeded (path : string)
  | ExportFailedSeeLog
  | ErrorDuringExport
  | TracebackText.

(** How [main] ends: by returning, or by [sys.exit(code)]. *)
Inductive exit_status : Type :=
  | Returned
  | Exited (code : Z).

(** The truth value of an optional string argument: [None] and the empty
    string are false. *)
Definition given (a : option string) : bool :=
  match a with
  | Some s => negb (String.eqb s "")
  | None => false
  end.

(** [parse_date]: the [datetime] parsed with the long format, else with the
    date-only format; [None] stands for the last [except] branch, which
    prints the invalid-format line and calls [sys.exit(1)]. *)
Definition parse_date (h : host) (date_str : string) : option datetime :=
  match h_strptime h date_str "%Y-%m-%d %H:%M:%S" with
  | Some d => Some d
  | None => h_strptime h date_str "%Y-%m-%d"
  end.

(** The block of [main] that builds [time_range]; [inr s] when
    [parse_date] gave up on the string [s]. *)
Definition cli_time_range (h : host) (args : cli_args) : time_range + string :=
  if given (arg_start args) || given (arg_end args) then
    let start_time :=
      match arg_start args with
      | Some s =>
          if given (arg_start args)
          then match parse_date h s with Some d => inl d | None => inr s end
          else inl (mkDatetime 1970 1 1 0 0 0 0)
      | None => inl (mkDatetime 1970 1 1 0 0 0 0)
      end in
    match start_time with
    | inr s => inr s
    | inl ds =>
        let end_time :=
          match arg_end args with
          | Some s =>
              if given (arg_end args)
              then match parse_date h s with Some d => inl d | None => inr s end
              else inl (h_now h)
          | None => inl (h_now h)
          end in
        match end_time with
        | inr s => inr s
        | inl de => inl (Some (TDatetime ds, TDatetime de))
        end
    end
  else inl None.

(** [main] of export_records.py.  [init_db] is [app.DataBase.init_db], which
    the script imports.  The result is how [main] ends, what it printed, and
    the world it leaves. *)
Definition main (h : host) (db : database_layer) (init_db : M unit)
    (args : cli_args) (w : world) : exit_status * list console_line * world :=
  match cli_time_range h args with
  | inr s => (Exited 1, [InvalidDateFormat s], w)
  | inl tr =>
      let trace := if arg_debug args then [TracebackText] else [] in
      match init_db w with
      | (Raise _, w1) =>
          (Exited 1, [InitializingDatabase; ErrorDuringExport] ++ trace, w1)
      | (Ok _, w1) =>
          match export_chat_records_to_json h db tr (arg_output args) w1 with
          | (Raise _, w2) =>
              (Exited 1,
               [InitializingDatabase; ExportingRecords; ErrorDuringExport] ++ trace,
               w2)
          | (Ok output_path, w2) =>
              (Returned,
               [InitializingDatabase; ExportingRecords;
                if String.eqb output_path "" then ExportFailedSeeLog
                else ExportSucceeded output_path],
               w2)
          end
      end
  end.

(** ** Data the exporter can write *)

(** Column [i] of a row holds nothing [json.dump] refuses; a column the row
    does not have counts as fine. *)
Definition column_ok (m : row) (i : nat) : bool :=
  match nth_error m i with
  | Some v => json_value_ok v
  | None => true
  end.

(** A row the exporter gets through: it has the twelve columns the formatter
    indexes, its talker is text, and the columns that go into the document
    unchanged (all but IsSender, Status and the two binary ones) hold no
    BLOB. *)
Definition exportable (m : row) : bool :=
  (11 <? List.length m)%nat &&
  match nth_error m 11 with
  | Some (PStr _) => true
  | _ => false
  end &&
  forallb (column_ok m) [0; 1; 2; 3; 5; 7; 8; 9; 12]%nat.

(** A contact lookup result the exporter gets through: nothing found, or a
    row of at least five columns with a text UserName and no BLOB in the
    other four. *)
Definition contact_row_ok (info : option row) : bool :=
  match info with
  | None | Some [] => true
  | Some (c0 :: c1 :: c2 :: c3 :: c4 :: _) =>
      match c0 with
      | PStr _ => true
      | _ => false
      end &&
      json_value_ok c1 && json_value_ok c2 && json_value_ok c3 && json_value_ok c4
  | Some _ => false
  end.

(** A time range both of whose bounds the database layer turns into
    timestamps that [datetime.fromtimestamp] accepts. *)
Definition range_ok (h : host) (convert : timeval * timeval -> res (timeval * timeval))
    (tr : time_range) : Prop :=
  match tr with
  | None => True
  | Some r =>
      exists s e ds de,
        convert r = Ok (TInt s, TInt e) /\
        h_fromtimestamp h s = Ok ds /\ h_fromtimestamp h e = Ok de
  end.

(** * Properties *)

Lemma byte_hex_ok_all (x : Byte.byte) : byte_hex_ok x = true.
Proof. destruct x; vm_compute; reflexivity. Qed.

Lemma byte_hex_digits (x : Byte.byte) :
  let n := Byte.to_N x in
  is_space (hex_digit (n / 16)) = false /\
  is_lower_hex (hex_digit (n / 16)) = true /\
  is_lower_hex (hex_digit (n mod 16)) = true /\
  (exists hi lo,
     unhex_digit (hex_digit (n / 16)) = Some hi /\
     unhex_digit (hex_digit (n mod 16)) = Some lo /\
     Byte.of_N (hi * 16 + lo) = Some x).
Proof.
  intros n. pose proof (byte_hex_ok_all x) as H. unfold byte_hex_ok in H.
  fold n in H.
  apply andb_prop in H as [H H4]. apply andb_prop in H as [H H3].
  apply andb_prop in H as [H1 H2]. apply negb_true_iff in H1.
  repeat split; try assumption.
  destruct (unhex_digit (hex_digit (n / 16))) as [h|]; [|discriminate].
  destruct (unhex_digit (hex_digit (n mod 16))) as [l|]; [|discriminate].
  exists h, l. repeat split.
  destruct (Byte.of_N (h * 16 + l)) as [y|]; [|discriminate].
  apply Byte.byte_dec_bl in H4. congruence.
Qed.

Lemma bytes_hex_roundtrip (b : list Byte.byte) :
  bytes_fromhex (bytes_hex b) = Some b.
Proof.
  induction b as [|x rest IH]; [reflexivity|].
  destruct (byte_hex_digits x) as (Hsp & _ & _ & hi & lo & Hhi & Hlo & Hx).
  cbn [bytes_hex bytes_fromhex].
  rewrite Hsp, Hhi, Hlo, IH, Hx. reflexivity.
Qed.

Lemma bytes_hex_lowercase (b : list Byte.byte) :
  string_forallb is_lower_hex (bytes_hex b) = true.
Proof.
  induction b as [|x rest IH]; [reflexivity|].
  destruct (byte_hex_digits x) as (_ & H1 & H2 & _).
  cbn [bytes_hex string_forallb]. rewrite H1, H2, IH. reflexivity.
Qed.

Lemma bytes_hex_nonempty (b : list Byte.byte) :
  b <> [] -> bytes_hex b <> "".
Proof. destruct b; [congruence | discriminate]. Qed.

Example float_hex_1_5 : float_hex (FNum false 3 (-1)) = "0x1.8000000000000p+0".
Proof. reflexivity. Qed.

Example float_hex_minus_10 : float_hex (FNum true 5 1) = "-0x1.4000000000000p+3".
Proof. reflexivity. Qed.

Example float_hex_min_subnormal :
  float_hex (FNum false 1 (-1074)) = "0x0.0000000000001p-1022".
Proof. reflexivity. Qed.

Example py_eqb_int_float : py_eqb (PInt 6) (PFloat (FNum false 3 1)) = true.
Proof. reflexivity. Qed.

Example py_eqb_str_bytes : py_eqb (PStr "") (PBytes []) = false.
Proof. reflexivity. Qed.

Lemma bytes_eqb_eq (a b : list Byte.byte) : bytes_eqb a b = true <-> a = b.
Proof.
  revert b; induction a as [|x a IH]; intros [|y b]; cbn; split;
    try congruence; try discriminate.
  - intros H. apply andb_prop in H as [H1 H2].
    apply Byte.byte_dec_bl in H1. apply IH in H2. congruence.
  - intros H. injection H as -> ->. apply andb_true_intro. split.
    + apply Byte.byte_dec_lb. reflexivity.
    + apply IH. reflexivity.
Qed.

Lemma key_eqb_eq (a b : key) : key_eqb a b = true <-> a = b.
Proof.
  destruct a, b; cbn; split; try congruence; try discriminate.
  - intros H. apply andb_prop in H as [H1 H2].
    apply Z.eqb_eq in H1. apply Pos.eqb_eq in H2. congruence.
  - intros H. injection H as -> ->.
    rewrite Z.eqb_refl, Pos.eqb_refl. reflexivity.
  - intros H. apply String.eqb_eq in H. congruence.
  - intros H. injection H as ->. apply String.eqb_refl.
  - intros H. apply bytes_eqb_eq in H. congruence.
  - intros H. injection H as ->. apply bytes_eqb_eq. reflexivity.
Qed.

Lemma py_eqb_refl (a : pyval) : py_eqb a a = true.
Proof. apply key_eqb_eq. reflexivity. Qed.

Lemma py_eqb_sym (a b : pyval) : py_eqb a b = py_eqb b a.
Proof.
  unfold py_eqb. destruct (key_eqb (py_key a) (py_key b)) eqn:E.
  - apply key_eqb_eq in E. symmetry. apply key_eqb_eq. congruence.
  - destruct (key_eqb (py_key b) (py_key a)) eqn:E'; [|reflexivity].
    apply key_eqb_eq in E'. symmetry in E'. apply key_eqb_eq in E'. congruence.
Qed.

Lemma py_eqb_trans (a b c : pyval) :
  py_eqb a b = true -> py_eqb b c = true -> py_eqb a c = true.
Proof.
  unfold py_eqb. rewrite !key_eqb_eq. congruence.
Qed.

(** Between two strings [==] is equality of the strings. *)
Lemma py_eqb_str (k : pyval) (s : string) :
  py_eqb k (PStr s) = true -> k = PStr s.
Proof.
  unfold py_eqb. rewrite key_eqb_eq.
  destruct k as [| z | [neg|neg|neg m e] | s' | b]; cbn; try discriminate.
  - destruct neg; discriminate.
  - congruence.
Qed.

Example group_sample :
  group_by_talker
    [ [PInt 1;PNone;PNone;PNone;PNone;PNone;PNone;PNone;PNone;PNone;PNone;PStr "a"];
      [PInt 2;PNone;PNone;PNone;PNone;PNone;PNone;PNone;PNone;PNone;PNone;PStr "b"];
      [PInt 3;PNone;PNone;PNone;PNone;PNone;PNone;PNone;PNone;PNone;PNone;PStr "a"] ]
  = Ok
    [ (PStr "a",
       [ [PInt 1;PNone;PNone;PNone;PNone;PNone;PNone;PNone;PNone;PNone;PNone;PStr "a"];
         [PInt 3;PNone;PNone;PNone;PNone;PNone;PNone;PNone;PNone;PNone;PNone;PStr "a"] ]);
      (PStr "b",
       [ [PInt 2;PNone;PNone;PNone;PNone;PNone;PNone;PNone;PNone;PNone;PNone;PStr "b"] ]) ].
Proof. reflexivity. Qed.


(** ** Dictionaries *)

Lemma dict_get_set {V : Type} (d : dict V) (k k' : pyval) (v : V) :
  dict_get (dict_set d k v) k' = if py_eqb k k' then Some v else dict_get d k'.
Proof.
  induction d as [|[k0 v0] d IH]; cbn.
  - destruct (py_eqb k k'); reflexivity.
  - destruct (py_eqb k0 k) eqn:E0; cbn.
    + destruct (py_eqb k0 k') eqn:E1.
      * rewrite (py_eqb_trans k k0 k'); [reflexivity | | exact E1].
        rewrite py_eqb_sym. exact E0.
      * destruct (py_eqb k k') eqn:E2; [|reflexivity].
        rewrite (py_eqb_trans k0 k k' E0 E2) in E1. discriminate.
    + destruct (py_eqb k0 k') eqn:E1.
      * destruct (py_eqb k k') eqn:E2; [|reflexivity].
        rewrite py_eqb_sym in E2.
        rewrite (py_eqb_trans k0 k' k E1 E2) in E0. discriminate.
      * exact IH.
Qed.

Lemma dict_get_eqb {V : Type} (d : dict V) (k k' : pyval) :
  py_eqb k k' = true -> dict_get d k = dict_get d k'.
Proof.
  intros E. induction d as [|[k0 v0] d IH]; cbn; [reflexivity|].
  destruct (py_eqb k0 k) eqn:E0.
  - rewrite (py_eqb_trans k0 k k' E0 E). reflexivity.
  - destruct (py_eqb k0 k') eqn:E1; [|exact IH].
    rewrite py_eqb_sym in E.
    rewrite (py_eqb_trans k0 k' k E1 E) in E0. discriminate.
Qed.

Lemma dict_get_In {V : Type} (d : dict V) (k : pyval) (v : V) :
  dict_get d k = Some v -> exists k0, In (k0, v) d /\ py_eqb k0 k = true.
Proof.
  induction d as [|[k0 v0] d IH]; cbn; [discriminate|].
  destruct (py_eqb k0 k) eqn:E.
  - intros H. injection H as ->. exists k0. split; [left; reflexivity | exact E].
  - intros H. destruct (IH H) as (k1 & Hin & Hk). exists k1. split; [right|]; assumption.
Qed.

Lemma keys_distinct_get {V : Type} (d : dict V) (k : pyval) (v : V) :
  keys_distinct d -> In (k, v) d -> dict_get d k = Some v.
Proof.
  induction 1 as [|k0 v0 d Hnone Hd IH]; cbn; [contradiction|].
  intros [H|H].
  - injection H as -> ->. rewrite py_eqb_refl. reflexivity.
  - destruct (py_eqb k0 k) eqn:E; [|exact (IH H)].
    rewrite (dict_get_eqb d k0 k E), (IH H) in Hnone. discriminate.
Qed.

Lemma keys_distinct_set {V : Type} (d : dict V) (k : pyval) (v : V) :
  keys_distinct d -> keys_distinct (dict_set d k v).
Proof.
  induction 1 as [|k0 v0 d Hnone Hd IH]; cbn.
  - constructor; [reflexivity | constructor].
  - destruct (py_eqb k0 k) eqn:E.
    + constructor; assumption.
    + constructor; [|exact IH].
      rewrite dict_get_set. rewrite py_eqb_sym, E. exact Hnone.
Qed.

Lemma dict_keys_set_new {V : Type} (d : dict V) (k : pyval) (v : V) :
  dict_get d k = None -> dict_set d k v = d ++ [(k, v)].
Proof.
  induction d as [|[k0 v0] d IH]; cbn; [reflexivity|].
  destruct (py_eqb k0 k); [discriminate|].
  intros H. rewrite (IH H). reflexivity.
Qed.

Lemma concat_set_old (d : dict (list row)) (k : pyval) (l x : list row) :
  dict_get d k = Some l ->
  Permutation (List.concat (map snd (dict_set d k (l ++ x)))) (List.concat (map snd d) ++ x).
Proof.
  induction d as [|[k0 v0] d IH]; cbn; [discriminate|].
  destruct (py_eqb k0 k); cbn.
  - intros H. injection H as ->. rewrite <- !app_assoc.
    apply Permutation_app_head. apply Permutation_app_comm.
  - intros H. rewrite <- app_assoc. apply Permutation_app_head. exact (IH H).
Qed.

(** ** The grouping loop *)

Lemma group_step_ok (g : dict (list row)) (m : row) :
  has_talker m ->
  exists t g',
    nth_error m 11 = Some t /\
    group_step g m = Ok g' /\
    (forall k, dict_get g' k =
       if py_eqb t k
       then Some (match dict_get g k with Some l => l | None => [] end ++ [m])
       else dict_get g k) /\
    (keys_distinct g -> keys_distinct g') /\
    Permutation (List.concat (map snd g')) (List.concat (map snd g) ++ [m]).
Proof.
  intros Hlen. unfold has_talker in Hlen.
  destruct (nth_error m 11) as [t|] eqn:Ht;
    [|apply nth_error_None in Ht; lia].
  exists t. unfold group_step, index. rewrite Ht. cbn [rbind].
  unfold dict_mem. destruct (dict_get g t) as [l|] eqn:Hg.
  - rewrite Hg. eexists. split; [reflexivity|]. split; [reflexivity|].
    split; [|split].
    + intros k. rewrite dict_get_set. destruct (py_eqb t k) eqn:E; [|reflexivity].
      rewrite <- (dict_get_eqb g t k E), Hg. reflexivity.
    + apply keys_distinct_set.
    + apply concat_set_old. exact Hg.
  - rewrite dict_get_set, py_eqb_refl.
    eexists. split; [reflexivity|]. split; [reflexivity|]. split; [|split].
    + intros k. rewrite !dict_get_set. destruct (py_eqb t k) eqn:E; [|reflexivity].
      rewrite <- (dict_get_eqb g t k E), Hg. reflexivity.
    + intros H. apply keys_distinct_set, keys_distinct_set, H.
    + eapply Permutation_trans.
      * apply concat_set_old. rewrite dict_get_set, py_eqb_refl. reflexivity.
      * rewrite (dict_keys_set_new g t [] Hg), map_app, concat_app. cbn.
        rewrite app_nil_r. apply Permutation_refl.
Qed.

Lemma group_loop_ok (msgs : list row) :
  Forall has_talker msgs ->
  forall g, exists g',
    group_loop g msgs = Ok g' /\
    (forall k, dict_get g' k = extend_group (dict_get g k) (filter (talker_is k) msgs)) /\
    (keys_distinct g -> keys_distinct g') /\
    Permutation (List.concat (map snd g')) (List.concat (map snd g) ++ msgs).
Proof.
  induction 1 as [|m rest Hm Hrest IH]; intros g.
  - exists g. cbn. split; [reflexivity|]. split; [|split].
    + intros k. destruct (dict_get g k); cbn; [rewrite app_nil_r|]; reflexivity.
    + tauto.
    + rewrite app_nil_r. apply Permutation_refl.
  - destruct (group_step_ok g m Hm) as (t & g1 & Ht & Hstep & Hget & Hkd & Hperm).
    destruct (IH g1) as (g' & Hloop & Hget' & Hkd' & Hperm').
    exists g'. cbn [group_loop]. rewrite Hstep. cbn [rbind].
    split; [exact Hloop|]. split; [|split].
    + intros k. rewrite Hget', Hget. cbn [filter]. unfold talker_is at 2.
      rewrite Ht, (py_eqb_sym k t).
      destruct (py_eqb t k); [|reflexivity].
      destruct (dict_get g k) as [l|]; cbn; [rewrite <- app_assoc|]; reflexivity.
    + tauto.
    + eapply Permutation_trans; [exact Hperm'|].
      replace (m :: rest) with ([m] ++ rest) by reflexivity.
      rewrite app_assoc. apply Permutation_app_tail. exact Hperm.
Qed.

(** C2: the grouping loop of [get_all_chat_records_by_time] and of
    [export_chat_records], run on messages that all have a talker column,
    returns a dictionary whose groups together are a rearrangement of the
    input (nothing lost, nothing twice), whose keys are pairwise different,
    whose group under key [k] is exactly the input messages with talker [k]
    in their input order, and in which every message sits under a key equal
    to its own talker field (the very same string when the talker is a
    string). *)
Theorem grouping_is_partition (msgs : list row) :
  Forall has_talker msgs ->
  exists g,
    group_by_talker msgs = Ok g /\
    Permutation (List.concat (map snd g)) msgs /\
    keys_distinct g /\
    (forall k ms, In (k, ms) g -> ms = filter (talker_is k) msgs /\ ms <> []) /\
    (forall k ms m, In (k, ms) g -> In m ms ->
       exists t, nth_error m 11 = Some t /\ py_eqb k t = true /\
                 (forall s, t = PStr s -> k = t)) /\
    (forall m t, In m msgs -> nth_error m 11 = Some t ->
       exists k ms, In (k, ms) g /\ py_eqb k t = true /\ In m ms).
Proof.
  intros Hall.
  destruct (group_loop_ok msgs Hall []) as (g & Hloop & Hget & Hkd & Hperm).
  assert (Hgroups : forall k ms, In (k, ms) g ->
            ms = filter (talker_is k) msgs /\ ms <> []).
  { intros k ms Hin.
    pose proof (keys_distinct_get g k ms (Hkd kd_nil) Hin) as Hk.
    rewrite Hget in Hk. cbn in Hk.
    destruct (filter (talker_is k) msgs) as [|x f]; [discriminate|].
    injection Hk as <-. split; [reflexivity | discriminate]. }
  exists g. split; [exact Hloop|]. split; [exact Hperm|].
  split; [exact (Hkd kd_nil)|]. split; [exact Hgroups|]. split.
  - intros k ms m Hin Hm.
    destruct (Hgroups k ms Hin) as [-> _].
    apply filter_In in Hm as [_ Hm]. unfold talker_is in Hm.
    destruct (nth_error m 11) as [t|]; [|discriminate].
    exists t. split; [reflexivity|]. split; [exact Hm|].
    intros s ->. apply py_eqb_str. exact Hm.
  - intros m t Hin Ht.
    assert (Hf : In m (filter (talker_is t) msgs)).
    { apply filter_In. split; [exact Hin|].
      unfold talker_is. rewrite Ht. apply py_eqb_refl. }
    pose proof (Hget t) as Hk. cbn in Hk.
    destruct (filter (talker_is t) msgs) as [|x f] eqn:Ef; [contradiction|].
    destruct (dict_get_In g t _ Hk) as (k0 & Hin0 & Hk0).
    exists k0, (x :: f). repeat split; assumption.
Qed.

Lemma grouping_is_partition_witness :
  Forall has_talker [sample_row 1 "alice"; sample_row 2 "g@chatroom"; sample_row 3 "alice"] /\
  exists g,
    group_by_talker [sample_row 1 "alice"; sample_row 2 "g@chatroom"; sample_row 3 "alice"] = Ok g /\
    Permutation (List.concat (map snd g))
      [sample_row 1 "alice"; sample_row 2 "g@chatroom"; sample_row 3 "alice"].
Proof.
  assert (H : Forall has_talker
                [sample_row 1 "alice"; sample_row 2 "g@chatroom"; sample_row 3 "alice"]).
  { repeat constructor; unfold has_talker; cbn; lia. }
  split; [exact H|].
  destruct (grouping_is_partition _ H) as (g & Hg & Hp & _).
  exists g. split; assumption.
Defined.

(** ** The sample machine *)

Example utc_epoch : utc_fromtimestamp 1672531200 = Ok (mkDatetime 2023 1 1 0 0 0 0).
Proof. reflexivity. Qed.

Example utc_parse_date :
  convert_to_timestamp utc_host (TStr "2023-01-01", TStr "2023-01-31 08:30:00")
  = Ok (TInt 1672531200, TInt 1675153800).
Proof. reflexivity. Qed.

Example utc_format : utc_strftime (mkDatetime 2023 1 31 8 30 0 0) "%Y%m%d" = "20230131".
Proof. reflexivity. Qed.

(** ** Time ranges *)

(** C10: a time range whose two sides are integers is returned unchanged by
    [convert_to_timestamp], on every machine. *)
Theorem convert_to_timestamp_fixed_point (h : host) (s e : Z) :
  convert_to_timestamp h (TInt s, TInt e) = Ok (TInt s, TInt e).
Proof. reflexivity. Qed.

(** Whatever it is given, [convert_to_timestamp] returns integers or raises. *)
Lemma convert_to_timestamp_ints (h : host) (r c : timeval * timeval) :
  convert_to_timestamp h r = Ok c -> exists s e, c = (TInt s, TInt e).
Proof.
  destruct r as [a b]. unfold convert_to_timestamp.
  destruct (parse_time h a) as [a'|] eqn:Ea; [|discriminate].
  destruct (parse_time h b) as [b'|] eqn:Eb; [|discriminate]. cbn.
  assert (Ha : forall t t', parse_time h t = Ok t' -> forall u, t' <> TStr u).
  { intros t t' H u. destruct t; cbn in H.
    - injection H as <-. discriminate.
    - destruct (h_strptime h s "%Y-%m-%d %H:%M:%S");
        [injection H as <-; discriminate|].
      destruct (h_strptime h s "%Y-%m-%d"); [injection H as <-|]; discriminate.
    - injection H as <-. discriminate. }
  pose proof (Ha _ _ Ea) as Ha'. pose proof (Ha _ _ Eb) as Hb'.
  destruct a' as [za|sa|da]; [|exfalso; exact (Ha' sa eq_refl)|];
  destruct b' as [zb|sb|db]; try (exfalso; exact (Hb' sb eq_refl)); cbn.
  - intros H. injection H as <-. eauto.
  - destruct (h_timestamp h db); cbn; [|discriminate].
    intros H. injection H as <-. eauto.
  - destruct (h_timestamp h da); cbn; [|discriminate].
    intros H. injection H as <-. eauto.
  - destruct (h_timestamp h da); cbn; [|discriminate].
    destruct (h_timestamp h db); cbn; [|discriminate].
    intros H. injection H as <-. eauto.
Qed.

(** ** Binary fields of a message *)

Lemma format_message_fields (m : row) :
  has_talker m ->
  exists f,
    format_message_for_json m = Ok f /\
    bytes_extra f = match nth_error m 10 with
                    | Some v => hex_or_none v
                    | None => PNone
                    end /\
    compress_content f = match nth_error m 13 with
                         | Some v => hex_or_none v
                         | None => PNone
                         end /\
    talker f = nth 11 m PNone.
Proof.
  unfold has_talker. intros H.
  do 12 (destruct m as [|? m]; [cbn in H; lia|]). clear H.
  destruct m as [|v12 [|v13 m]]; eexists; (split; [reflexivity|]);
    repeat split; reflexivity.
Qed.

(** C5, as the code has it: on a row with a talker column the formatter
    returns a record and raises nothing; a non-empty [bytes] payload becomes
    its lowercase hexadecimal text, which [bytes.fromhex] turns back into
    the same bytes; NULL, a missing trailing column and an empty payload
    become [None], never an empty string; a payload that is text or an
    integer becomes [None] too. *)
Theorem binary_fields_rendering (m : row) :
  has_talker m ->
  exists f,
    format_message_for_json m = Ok f /\
    (forall b, nth_error m 10 = Some (PBytes b) -> b <> [] ->
       bytes_extra f = PStr (bytes_hex b) /\
       string_forallb is_lower_hex (bytes_hex b) = true /\
       bytes_fromhex (bytes_hex b) = Some b /\ bytes_hex b <> "") /\
    (forall b, nth_error m 13 = Some (PBytes b) -> b <> [] ->
       compress_content f = PStr (bytes_hex b) /\
       string_forallb is_lower_hex (bytes_hex b) = true /\
       bytes_fromhex (bytes_hex b) = Some b /\ bytes_hex b <> "") /\
    (nth_error m 10 = Some PNone \/ nth_error m 10 = Some (PBytes []) ->
       bytes_extra f = PNone) /\
    (nth_error m 13 = None \/ nth_error m 13 = Some PNone \/
     nth_error m 13 = Some (PBytes []) -> compress_content f = PNone) /\
    (forall v, nth_error m 10 = Some v ->
       (exists s, v = PStr s) \/ (exists z, v = PInt z) -> bytes_extra f = PNone) /\
    (forall v, nth_error m 13 = Some v ->
       (exists s, v = PStr s) \/ (exists z, v = PInt z) -> compress_content f = PNone).
Proof.
  intros H. destruct (format_message_fields m H) as (f & Hf & H10 & H13 & _).
  exists f. split; [exact Hf|]. rewrite H10, H13.
  assert (Hhex : forall b, b <> [] -> hex_or_none (PBytes b) = PStr (bytes_hex b)).
  { intros [|x b] Hb; [congruence | reflexivity]. }
  assert (Hnot : forall v, (exists s, v = PStr s) \/ (exists z, v = PInt z) ->
                           hex_or_none v = PNone).
  { intros v [[s ->]|[z ->]]; unfold hex_or_none; cbn.
    - destruct (negb (String.eqb s "")); reflexivity.
    - destruct (negb (z =? 0)); reflexivity. }
  repeat split.
  - rewrite H0. apply Hhex. assumption.
  - apply bytes_hex_lowercase.
  - apply bytes_hex_roundtrip.
  - apply bytes_hex_nonempty. assumption.
  - rewrite H0. apply Hhex. assumption.
  - apply bytes_hex_lowercase.
  - apply bytes_hex_roundtrip.
  - apply bytes_hex_nonempty. assumption.
  - intros [-> | ->]; reflexivity.
  - intros [-> | [-> | ->]]; reflexivity.
  - intros v -> Hv. apply Hnot. exact Hv.
  - intros v -> Hv. apply Hnot. exact Hv.
Qed.

Lemma binary_fields_rendering_witness :
  has_talker blob_row /\
  exists f,
    format_message_for_json blob_row = Ok f /\
    bytes_extra f = PStr "0aff" /\ compress_content f = PStr "00c3".
Proof.
  assert (H : has_talker blob_row) by (unfold has_talker; cbn; lia).
  split; [exact H|].
  destruct (binary_fields_rendering blob_row H) as (f & Hf & H10 & H13 & _).
  exists f. split; [exact Hf|]. split.
  - apply (H10 [Byte.x0a; Byte.xff]); [reflexivity | discriminate].
  - apply (H13 [Byte.x00; Byte.xc3]); [reflexivity | discriminate].
Defined.

(** C5 as it is worded fails on a payload that is present and is not bytes
    but a REAL: [float] has a [hex] method of its own, so the field is
    rendered with it and is not absent. *)
Lemma real_payload_is_rendered :
  nth_error real_row 10 = Some (PFloat (FNum false 3 (-1))) /\
  exists f,
    format_message_for_json real_row = Ok f /\
    bytes_extra f = PStr "0x1.8000000000000p+0" /\
    bytes_extra f <> PNone.
Proof.
  split; [reflexivity|]. eexists. split; [reflexivity|].
  split; [reflexivity | discriminate].
Qed.

(** ** Contact summaries *)

Lemma prefix_refl (s : string) : String.prefix s s = true.
Proof.
  induction s as [|c s IH]; cbn; [reflexivity|].
  destruct (ascii_dec c c); [exact IH | congruence].
Qed.

(** An identifier that ends with the marker contains it. *)
Lemma ends_with_contains (needle hay : string) :
  ends_with needle hay = true -> contains needle hay = true.
Proof.
  induction hay as [|c hay IH]; cbn [ends_with contains].
  - destruct (String.eqb needle "") eqn:E; [|discriminate].
    apply String.eqb_eq in E. subst needle. reflexivity.
  - destruct (String.eqb needle (String c hay)) eqn:E.
    + apply String.eqb_eq in E. rewrite E, prefix_refl. reflexivity.
    + intros H. rewrite (IH H). destruct (String.prefix needle (String c hay)); reflexivity.
Qed.

(** C4, as the code has it: when the lookup of a string identifier returns
    nothing (or an empty tuple), the summary written for it has type -1,
    empty alias and remark, the identifier as username and as nickname, and
    a chat-room flag that is true exactly when the identifier contains
    "@chatroom", which every identifier ending in "@chatroom" does. *)
Theorem fallback_contact_summary (s : string) :
  contact_entry (PStr s) None =
    Ok {| username := PStr s; alias := PStr ""; contact_type := PInt (-1);
          remark := PStr ""; nickname := PStr s;
          is_chatroom := contains "@chatroom" s |} /\
  contact_entry (PStr s) (Some []) = contact_entry (PStr s) None /\
  (ends_with "@chatroom" s = true -> contains "@chatroom" s = true).
Proof.
  split; [reflexivity|]. split; [reflexivity|]. apply ends_with_contains.
Qed.

(** C4 as it is worded, with the flag read as a test of the suffix, fails:
    the identifier below does not end with "@chatroom" and is flagged. *)
Lemma chatroom_flag_is_not_a_suffix_test :
  ends_with "@chatroom" "1234@chatroom.bak" = false /\
  exists c,
    contact_entry (PStr "1234@chatroom.bak") None = Ok c /\
    is_chatroom c = true.
Proof.
  split; [reflexivity|]. eexists. split; reflexivity.
Qed.

(** ** SQLite ordering *)

Lemma lex_leb_total (a b : list N) : lex_leb a b = false -> lex_leb b a = true.
Proof.
  revert b; induction a as [|x a IH]; intros [|y b]; cbn; try congruence.
  destruct (N.ltb_spec x y), (N.ltb_spec y x); try congruence; try lia.
  apply IH.
Qed.

Lemma lex_leb_trans (a b c : list N) :
  lex_leb a b = true -> lex_leb b c = true -> lex_leb a c = true.
Proof.
  revert b c; induction a as [|x a IH]; intros [|y b] [|z c]; cbn;
    try congruence.
  destruct (N.ltb_spec x y), (N.ltb_spec y x), (N.ltb_spec y z),
    (N.ltb_spec z y), (N.ltb_spec x z), (N.ltb_spec z x);
    try congruence; try lia.
  apply IH.
Qed.

Lemma ext_leb_total (a b : ext) : ext_leb a b = false -> ext_leb b a = true.
Proof.
  destruct a as [|p|], b as [|q|]; cbn; try congruence.
  intros H. apply Qle_bool_iff. apply Qlt_le_weak. apply Qnot_le_lt.
  intros Hle. apply Qle_bool_iff in Hle. congruence.
Qed.

Lemma ext_leb_trans (a b c : ext) :
  ext_leb a b = true -> ext_leb b c = true -> ext_leb a c = true.
Proof.
  destruct a as [|p|], b as [|q|], c as [|r|]; cbn; try congruence.
  rewrite !Qle_bool_iff. apply Qle_trans.
Qed.

Lemma num_value_rank (v : pyval) :
  sql_rank v = 1%nat -> exists x, num_value v = Some x.
Proof.
  destruct v as [|z|[neg|neg|neg m e]|s|b]; cbn; try discriminate; eauto.
Qed.

Ltac numbers :=
  repeat match goal with
         | |- context [num_value ?x] =>
             let p := fresh "p" in
             destruct (num_value_rank x eq_refl) as [p ->]
         end.

Lemma sql_leb_total (a b : pyval) : sql_leb a b = false -> sql_leb b a = true.
Proof.
  unfold sql_leb.
  destruct (Nat.ltb_spec (sql_rank a) (sql_rank b)); [discriminate|].
  destruct (Nat.ltb_spec (sql_rank b) (sql_rank a)); [reflexivity|].
  destruct a as [|za|fa|sa|ba], b as [|zb|fb|sb|bb]; cbn [sql_rank] in *;
    try lia; try discriminate; try apply lex_leb_total.
  all: numbers; apply ext_leb_total.
Qed.

Lemma sql_leb_trans (a b c : pyval) :
  sql_leb a b = true -> sql_leb b c = true -> sql_leb a c = true.
Proof.
  unfold sql_leb.
  destruct (Nat.ltb_spec (sql_rank a) (sql_rank b)) as [Hab|Hab].
  - intros _.
    destruct (Nat.ltb_spec (sql_rank b) (sql_rank c)) as [Hbc|Hbc].
    + intros _. destruct (Nat.ltb_spec (sql_rank a) (sql_rank c)); [reflexivity|lia].
    + destruct (Nat.ltb_spec (sql_rank c) (sql_rank b)); [discriminate|].
      intros _. destruct (Nat.ltb_spec (sql_rank a) (sql_rank c)); [reflexivity|lia].
  - destruct (Nat.ltb_spec (sql_rank b) (sql_rank a)) as [Hba|Hba]; [discriminate|].
    destruct (Nat.ltb_spec (sql_rank b) (sql_rank c)) as [Hbc|Hbc].
    + intros _ _. destruct (Nat.ltb_spec (sql_rank a) (sql_rank c)); [reflexivity|lia].
    + destruct (Nat.ltb_spec (sql_rank c) (sql_rank b)) as [Hcb|Hcb]; [discriminate|].
      destruct (Nat.ltb_spec (sql_rank a) (sql_rank c)); [lia|].
      destruct (Nat.ltb_spec (sql_rank c) (sql_rank a)); [lia|].
      destruct a as [|za|fa|sa|ba], b as [|zb|fb|sb|bb], c as [|zc|fc|sc|bc];
        cbn [sql_rank] in *; try lia; try reflexivity; try apply lex_leb_trans.
      all: numbers; apply ext_leb_trans.
Qed.

Lemma sql_leb_int (a b : Z) : sql_leb (PInt a) (PInt b) = true <-> a <= b.
Proof.
  unfold sql_leb. cbn. rewrite Qle_bool_iff, <- Zle_Qle. reflexivity.
Qed.

(** ** The message query *)

Section QueryFacts.

Variable sql_strftime : pyval -> pyval.

Let by_time (r r' : msg_record) : Prop :=
  sql_leb (CreateTime r) (CreateTime r') = true.

Lemma In_insert_by_time (x r : msg_record) (l : list msg_record) :
  In x (insert_by_time r l) <-> x = r \/ In x l.
Proof.
  induction l as [|y l IH]; cbn.
  - intuition congruence.
  - destruct (sql_leb (CreateTime r) (CreateTime y)); cbn; rewrite ?IH;
      intuition congruence.
Qed.

Lemma In_order_by_time (x : msg_record) (l : list msg_record) :
  In x (order_by_time l) <-> In x l.
Proof.
  induction l as [|y l IH]; cbn; [tauto|].
  fold (order_by_time l). rewrite In_insert_by_time, IH. intuition congruence.
Qed.

Lemma insert_by_time_sorted (r : msg_record) (l : list msg_record) :
  StronglySorted by_time l -> StronglySorted by_time (insert_by_time r l).
Proof.
  induction 1 as [|y l Hl IH Hy]; cbn.
  - constructor; constructor.
  - destruct (sql_leb (CreateTime r) (CreateTime y)) eqn:E.
    + constructor; [constructor; assumption|].
      constructor; [exact E|].
      apply Forall_forall. intros z Hz.
      rewrite Forall_forall in Hy.
      exact (sql_leb_trans _ _ _ E (Hy z Hz)).
    + constructor; [exact IH|].
      apply Forall_forall. intros z Hz. apply In_insert_by_time in Hz as [->|Hz].
      * apply sql_leb_total. exact E.
      * rewrite Forall_forall in Hy. exact (Hy z Hz).
Qed.

Lemma order_by_time_sorted (l : list msg_record) :
  StronglySorted by_time (order_by_time l).
Proof.
  induction l as [|r l IH]; cbn; [constructor|].
  apply insert_by_time_sorted. exact IH.
Qed.

Lemma select_rows_sorted (l : list msg_record) :
  StronglySorted by_time l ->
  StronglySorted (fun m m' => sql_leb (row_time m) (row_time m') = true)
    (map (select_row sql_strftime) l).
Proof.
  induction 1 as [|r l Hl IH Hr]; cbn [map]; constructor; [exact IH|].
  rewrite Forall_forall in *. intros m Hm.
  apply in_map_iff in Hm as (r' & <- & Hr'). exact (Hr r' Hr').
Qed.

(** A value that passes [CreateTime>s AND CreateTime<e] is a number
    strictly between the two bounds. *)
Lemma between_bounds (s e : Z) (ct : pyval) :
  sql_lt (PInt s) ct && sql_lt ct (PInt e) = true ->
  exists q, num_value ct = Some (Fin q) /\
            (inject_Z s < q)%Q /\ (q < inject_Z e)%Q /\
            (forall t, ct = PInt t -> s < t < e).
Proof.
  intros H. apply andb_prop in H as [Hs He].
  assert (Hlt : forall p q, Qle_bool p q = false -> (q < p)%Q).
  { intros p q Hpq. apply Qnot_le_lt. intros Hle.
    apply Qle_bool_iff in Hle. congruence. }
  destruct ct as [|t|[neg|neg|neg m x]|str|b]; cbn in Hs, He; try discriminate.
  - apply negb_true_iff in Hs, He. apply Hlt in Hs, He.
    exists (inject_Z t). split; [reflexivity|]. split; [exact Hs|].
    split; [exact He|]. intros t' Ht'. injection Ht' as <-.
    rewrite !Zlt_Qlt. split; assumption.
  - apply negb_true_iff in Hs, He. apply Hlt in Hs, He.
    exists (inject_Z 0). split; [reflexivity|]. split; [exact Hs|].
    split; [exact He|]. discriminate.
  - destruct neg; discriminate.
  - apply negb_true_iff in Hs, He. apply Hlt in Hs, He.
    eexists. split; [reflexivity|]. split; [exact Hs|].
    split; [exact He|]. discriminate.
Qed.

Lemma run_query_bounded (s e : Z) (table : list msg_record) :
  Forall (fun m => exists ct q,
            nth_error m 5 = Some ct /\ num_value ct = Some (Fin q) /\
            (inject_Z s < q)%Q /\ (q < inject_Z e)%Q /\
            (forall t, ct = PInt t -> s < t < e))
    (run_query sql_strftime (Some (s, e)) table).
Proof.
  apply Forall_forall. intros m Hm. unfold run_query in Hm.
  apply in_map_iff in Hm as (r & <- & Hr).
  apply In_order_by_time, filter_In in Hr as [_ Hr]. cbn in Hr.
  destruct (between_bounds s e _ Hr) as (q & Hq).
  exists (CreateTime r), q. split; [reflexivity | exact Hq].
Qed.

Lemma run_query_sorted (bounds : option (Z * Z)) (table : list msg_record) :
  StronglySorted (fun m m' => sql_leb (row_time m) (row_time m') = true)
    (run_query sql_strftime bounds table).
Proof. apply select_rows_sorted, order_by_time_sorted. Qed.

(** Every fetched row has the 14 columns of the select list. *)
Lemma run_query_width (bounds : option (Z * Z)) (table : list msg_record) :
  Forall (fun m => List.length m = 14%nat) (run_query sql_strftime bounds table).
Proof.
  apply Forall_forall. intros m Hm. apply in_map_iff in Hm as (r & <- & _).
  reflexivity.
Qed.

(** Nothing that satisfies the condition is dropped. *)
Lemma run_query_complete (s e t : Z) (table : list msg_record) (r : msg_record) :
  In r table -> CreateTime r = PInt t -> s < t < e ->
  In (select_row sql_strftime r) (run_query sql_strftime (Some (s, e)) table).
Proof.
  intros Hin Ht [Hs He]. unfold run_query. apply in_map.
  apply In_order_by_time, filter_In. split; [exact Hin|].
  cbn. rewrite Ht. cbn.
  assert (Hlt : forall a b, a < b -> Qle_bool (inject_Z b) (inject_Z a) = false).
  { intros a b Hab. destruct (Qle_bool (inject_Z b) (inject_Z a)) eqn:E;
      [|reflexivity].
    apply Qle_bool_iff in E. rewrite <- Zle_Qle in E. lia. }
  rewrite (Hlt s t Hs), (Hlt t e He). reflexivity.
Qed.

End QueryFacts.

(** C1: with a time range of two integers [s] and [e], [get_all_messages]
    returns (it never raises, and it leaves the files as they are), every
    row it returns has a CreateTime that is a number strictly greater than
    [s] and strictly smaller than [e] (an integer [t] with [s < t < e] when
    it is an integer), so a message at either bound is left out, and the
    rows come in ascending order of CreateTime. *)
Theorem time_filtered_query (h : host) (db_path : string) (s e : Z) (w : world) :
  exists rows w',
    get_all_messages h db_path (Some (TInt s, TInt e)) w = (Ok rows, w') /\
    fs w' = fs w /\
    Forall (fun m => exists ct q,
              nth_error m 5 = Some ct /\ num_value ct = Some (Fin q) /\
              (inject_Z s < q)%Q /\ (q < inject_Z e)%Q /\
              (forall t, ct = PInt t -> s < t < e)) rows /\
    StronglySorted (fun m m' => sql_leb (row_time m) (row_time m') = true) rows.
Proof.
  unfold get_all_messages, mbind, path_exists, try_catch, lift, fetch_messages.
  destruct (fs w db_path) as [[|[table| | | |]]|] eqn:E; cbn; rewrite ?E; cbn;
    try (do 2 eexists; split; [reflexivity|]; split; [reflexivity|];
         split; constructor).
  do 2 eexists. split; [reflexivity|]. split; [reflexivity|]. split.
  - apply run_query_bounded.
  - apply run_query_sorted.
Qed.

(** On the sample table the query between 100 and 300 returns the messages
    at 150 and 200, in that order: the ones at 100 and at 300 are left out. *)
Example time_filtered_query_sample :
  fst (get_all_messages utc_host "MSG.db" (Some (TInt 100, TInt 300)) sample_world)
  = Ok [select_row utc_sql_strftime (sample_msg (PInt 3) (PInt 150) "g@chatroom");
        select_row utc_sql_strftime (sample_msg (PInt 2) (PInt 200) "alice")].
Proof. vm_compute. reflexivity. Qed.

(** ** The exporters: nothing to export *)

(** C7: when the query of [export_chat_records_to_json] yields no message,
    the exporter returns the empty path, raises nothing, leaves every file
    as it was and logs the one warning that no records were found. *)
Theorem empty_query_writes_nothing (h : host) (db : database_layer)
    (tr : time_range) (output_path : option string) (w : world) :
  get_messages_all db tr = Ok [] ->
  export_chat_records_to_json h db tr output_path w
  = (Ok "", {| fs := fs w; out := out w ++ [LogWarning NoRecordsFound] |}).
Proof.
  intros H. unfold export_chat_records_to_json, get_all_chat_records_by_time,
    mbind, lift. rewrite H. reflexivity.
Qed.

Lemma empty_query_writes_nothing_witness :
  get_messages_all empty_layer None = Ok [] /\
  export_chat_records_to_json utc_host empty_layer None None sample_world
  = (Ok "", {| fs := fs sample_world; out := [LogWarning NoRecordsFound] |}).
Proof.
  split; [reflexivity|].
  exact (empty_query_writes_nothing utc_host empty_layer None None sample_world eq_refl).
Defined.

(** C6, as the code has it: when the message database file is missing,
    [get_all_messages] prints that and returns no rows, and
    [export_chat_records] goes on as for an empty result: it prints that no
    records were found and returns the empty path; nothing is raised and no
    file is written. *)
Theorem missing_database_is_empty_result (h : host)
    (db_path contact_db_path : string) (tr : time_range)
    (output_path : option string) (w : world) :
  fs w db_path = None ->
  export_chat_records h db_path contact_db_path tr output_path w
  = (Ok "", {| fs := fs w;
               out := out w ++ [Print (DatabaseMissing db_path);
                                Print NoRecordsFound] |}).
Proof.
  intros H. unfold export_chat_records, get_all_messages, mbind, path_exists,
    emit, ret. rewrite H. cbn. rewrite <- app_assoc. reflexivity.
Qed.

Lemma missing_database_is_empty_result_witness :
  fs sample_world "gone.db" = None /\
  export_chat_records utc_host "gone.db" "MicroMsg.db" None None sample_world
  = (Ok "", {| fs := fs sample_world;
               out := [Print (DatabaseMissing "gone.db"); Print NoRecordsFound] |}).
Proof.
  split; [reflexivity|].
  exact (missing_database_is_empty_result utc_host "gone.db" "MicroMsg.db"
           None None sample_world eq_refl).
Defined.

(** C6 as it is worded fails: with the database file missing the exporter
    raises nothing; it returns the empty path, the value it also returns
    when the table has no message in the range. *)
Lemma missing_database_is_not_an_error :
  fs sample_world "gone.db" = None /\
  fst (export_chat_records utc_host "gone.db" "MicroMsg.db" None None sample_world)
  = Ok "" /\
  (forall e,
     fst (export_chat_records utc_host "gone.db" "MicroMsg.db" None None sample_world)
     <> Raise e) /\
  fst (export_chat_records utc_host "MSG.db" "MicroMsg.db"
         (Some (TInt 500, TInt 600)) None sample_world)
  = Ok "".
Proof.
  split; [reflexivity|]. split; [reflexivity|]. split; [discriminate|].
  vm_compute. reflexivity.
Qed.

(** ** The exporters: the write *)

Lemma contacts_loop_pure (find : pyval -> res (option row)) (ks : list pyval) :
  forall acc w r w',
    contacts_loop (fun talker => lift (find talker)) ks acc w = (r, w') -> w' = w.
Proof.
  induction ks as [|k ks IH]; intros acc w r w'; cbn [contacts_loop].
  - unfold ret. congruence.
  - unfold mbind, lift. destruct (find k) as [info|]; [|congruence].
    destruct (contact_entry k info); [|congruence]. apply IH.
Qed.

Lemma default_output_path_out (h : host)
    (convert : timeval * timeval -> res (timeval * timeval))
    (tr : time_range) (w : world) (r : res string) (w' : world) :
  default_output_path h convert tr w = (r, w') -> out w' = out w.
Proof.
  unfold default_output_path, mbind, lift, path_exists, makedirs, ret.
  set (dir := path_join (h_cwd h) "exports").
  destruct (match tr with None => _ | Some _ => _ end); [|congruence].
  destruct (fs w dir); cbn [negb]; cbv beta iota.
  - congruence.
  - destruct (h_mkdir_fails h dir); cbv beta iota;
      intros H; inversion H; reflexivity.
Qed.

Lemma resolve_output_path_out (h : host)
    (convert : timeval * timeval -> res (timeval * timeval))
    (tr : time_range) (op : option string) (w : world) (r : res string) (w' : world) :
  resolve_output_path h convert tr op w = (r, w') -> out w' = out w.
Proof.
  unfold resolve_output_path. destruct op as [p|].
  - destruct (String.eqb p ""); [apply default_output_path_out|].
    unfold ret. congruence.
  - apply default_output_path_out.
Qed.

(** The statements in front of the [try] block report nothing. *)
Lemma before_write_out (h : host) (db : database_layer) (tr : time_range)
    (op : option string) (w : world) (r : res (option (string * document)))
    (w' : world) :
  before_write h db tr op w = (r, w') -> out w' = out w.
Proof.
  unfold before_write, mbind, lift, ret.
  destruct (get_all_chat_records_by_time db tr) as [[|kv g]|]; try congruence.
  destruct (contacts_loop _ _ _ w) as [[c|] w1] eqn:Ec;
    pose proof (contacts_loop_pure _ _ _ _ _ _ Ec) as ->; [|congruence].
  destruct (build_document _ _ _ _ _); [|congruence].
  destruct (resolve_output_path _ _ _ _ w) as [[p|] w2] eqn:Ep;
    pose proof (resolve_output_path_out _ _ _ _ _ _ _ Ep) as Hout;
    intros H; injection H as _ <-; exact Hout.
Qed.

(** The exporter is its first part followed by the [try] block. *)
Lemma export_to_json_split (h : host) (db : database_layer) (tr : time_range)
    (op : option string) (w : world) :
  export_chat_records_to_json h db tr op w =
  match before_write h db tr op w with
  | (Ok None, w1) =>
      (Ok "", {| fs := fs w1; out := out w1 ++ [LogWarning NoRecordsFound] |})
  | (Ok (Some (path, d)), w1) =>
      write_document h (fun p => LogInfo (ExportedTo p)) (LogError ExportFailed)
        path d w1
  | (Raise e, w1) => (Raise e, w1)
  end.
Proof.
  unfold export_chat_records_to_json, before_write, mbind, lift, ret.
  destruct (get_all_chat_records_by_time db tr) as [[|kv g]|]; try reflexivity.
  destruct (contacts_loop _ _ _ w) as [[c|] w1]; [|reflexivity].
  destruct (build_document _ _ _ _ _); [|reflexivity].
  destruct (resolve_output_path _ _ _ _ w1) as [[p|] w2]; reflexivity.
Qed.

Lemma write_json_raises (h : host) (path : string) (d : document)
    (w : world) (e : exn) (w' : world) :
  write_json h path d w = (Raise e, w') ->
  out w' = out w /\
  (fs w' path = fs w path \/ fs w' path = Some (File (JsonTruncated d))) /\
  (forall p, p <> path -> fs w' p = fs w p).
Proof.
  unfold write_json.
  assert (Hput : forall n p, p <> path -> fs (fs_put path n w) p = fs w p).
  { intros n p Hp. cbn. destruct (String.eqb_spec p path); congruence. }
  assert (Hat : forall n, fs (fs_put path n w) path = Some n).
  { intros n. cbn. rewrite String.eqb_refl. reflexivity. }
  destruct (fs w path) as [[|c]|] eqn:E;
    destruct (h_open_fails h path);
    destruct (json_serializable d);
    destruct (h_write_fails h path); cbn;
    intros H; try discriminate; inversion H; subst;
    (split; [reflexivity|]); (split; [|now auto]);
    rewrite ?Hat; auto.
Qed.

Lemma write_json_returns (h : host) (path : string) (d : document)
    (w : world) (w' : world) :
  write_json h path d w = (Ok tt, w') ->
  out w' = out w /\ fs w' path = Some (File (Json d)) /\
  json_serializable d = true /\
  (forall p, p <> path -> fs w' p = fs w p).
Proof.
  unfold write_json.
  assert (Hput : forall n p, p <> path -> fs (fs_put path n w) p = fs w p).
  { intros n p Hp. cbn. destruct (String.eqb_spec p path); congruence. }
  assert (Hat : forall n, fs (fs_put path n w) path = Some n).
  { intros n. cbn. rewrite String.eqb_refl. reflexivity. }
  destruct (fs w path) as [[|c]|];
    destruct (h_open_fails h path);
    destruct (json_serializable d);
    destruct (h_write_fails h path); cbn;
    intros H; try discriminate; injection H as <-; auto.
Qed.

(** C8, as the code has it: when [export_chat_records_to_json] has reached
    its [try] block and the write raises (the file cannot be opened, a value
    cannot be encoded, or a write fails), the exporter raises nothing and
    returns the empty path; it logs one error and nothing else, and leaves
    the world as that single attempt left it: nothing is written a second
    time and every other file is untouched.  The target itself is either
    untouched (it could not be opened) or left on disk with the beginning of
    the text: the write is not atomic and the incomplete file is not
    removed. *)
Theorem write_failure_is_absorbed (h : host) (db : database_layer)
    (tr : time_range) (output_path : option string) (w w1 w2 : world)
    (path : string) (d : document) (e : exn) :
  before_write h db tr output_path w = (Ok (Some (path, d)), w1) ->
  write_json h path d w1 = (Raise e, w2) ->
  export_chat_records_to_json h db tr output_path w
  = (Ok "", {| fs := fs w2; out := out w ++ [LogError ExportFailed] |}) /\
  (fs w2 path = fs w1 path \/ fs w2 path = Some (File (JsonTruncated d))) /\
  (forall p, p <> path -> fs w2 p = fs w1 p).
Proof.
  intros Hbefore Hwrite.
  destruct (write_json_raises h path d w1 e w2 Hwrite) as (Hout & Hat & Hrest).
  split; [|split; assumption].
  rewrite export_to_json_split, Hbefore.
  unfold write_document, try_catch, mbind, emit, ret. rewrite Hwrite.
  rewrite Hout, (before_write_out _ _ _ _ _ _ _ Hbefore). reflexivity.
Qed.

Lemma write_failure_is_absorbed_witness :
  export_chat_records_to_json full_disk_host sample_layer None None sample_world
  = (Ok "",
     {| fs := fs (snd (export_chat_records_to_json full_disk_host sample_layer
                         None None sample_world));
        out := [LogError ExportFailed] |}).
Proof.
  pose (run := before_write full_disk_host sample_layer None None sample_world).
  pose (plan := match fst run with Ok (Some p) => p | _ => ("", mkDocument "" "" "" [] []) end).
  pose (attempt := write_json full_disk_host (fst plan) (snd plan) (snd run)).
  destruct (write_failure_is_absorbed full_disk_host sample_layer None None
              sample_world (snd run) (snd attempt) (fst plan) (snd plan) OSError)
    as (H & _).
  - vm_compute. reflexivity.
  - vm_compute. reflexivity.
  - rewrite H. vm_compute. reflexivity.
Defined.

(** C8 as it is worded fails in its last part.  A message whose content is
    a BLOB makes [json.dump] stop with [TypeError] after the file was opened
    and begun: the exporter returns the empty path and the file, which was
    not there before, stays behind with an incomplete text.  The same
    happens when the disk refuses a write. *)
Lemma failed_write_leaves_partial_file :
  fs sample_world "/home/user/exports/wechat_records_all_to_all.json" = None /\
  fst (export_chat_records_to_json utc_host blob_content_layer None None sample_world)
  = Ok "" /\
  (exists d,
     fs (snd (export_chat_records_to_json utc_host blob_content_layer None None
                sample_world))
       "/home/user/exports/wechat_records_all_to_all.json"
     = Some (File (JsonTruncated d))) /\
  fst (export_chat_records_to_json full_disk_host sample_layer None None sample_world)
  = Ok "" /\
  (exists d,
     fs (snd (export_chat_records_to_json full_disk_host sample_layer None None
                sample_world))
       "/home/user/exports/wechat_records_all_to_all.json"
     = Some (File (JsonTruncated d))).
Proof.
  split; [reflexivity|]. split; [vm_compute; reflexivity|].
  split; [eexists; vm_compute; reflexivity|].
  split; [vm_compute; reflexivity|].
  eexists; vm_compute; reflexivity.
Qed.

(** ** The keys of the document *)

Lemma dict_get_None_In {V : Type} (d : dict V) (q k : pyval) (v : V) :
  dict_get d q = None -> In (k, v) d -> py_eqb k q = false.
Proof.
  induction d as [|[k0 v0] d IH]; cbn; [contradiction|].
  destruct (py_eqb k0 q) eqn:E; [discriminate|].
  intros H [Hin|Hin]; [congruence | exact (IH H Hin)].
Qed.

Lemma keys_distinct_app_get {V : Type} (a b : dict V) (k : pyval) (v : V) :
  keys_distinct (a ++ (k, v) :: b) -> dict_get a k = None.
Proof.
  induction a as [|[k0 v0] a IH]; cbn; [reflexivity|].
  intros H. inversion H as [|k1 v1 d1 Hnone Hd]; subst.
  rewrite py_eqb_sym.
  rewrite (dict_get_None_In _ k0 k v Hnone) by (apply in_elt).
  exact (IH Hd).
Qed.

Lemma dict_get_None_keys {V W : Type} (a : dict V) (b : dict W) (k : pyval) :
  dict_keys a = dict_keys b -> dict_get a k = None -> dict_get b k = None.
Proof.
  revert b; induction a as [|[k0 v0] a IH]; intros [|[k1 v1] b]; cbn;
    try discriminate; [reflexivity|].
  intros H. injection H as <- H.
  destruct (py_eqb k0 k); [discriminate|]. apply IH. exact H.
Qed.

Lemma keys_distinct_same_keys {V W : Type} (a : dict V) (b : dict W) :
  dict_keys a = dict_keys b -> keys_distinct a -> keys_distinct b.
Proof.
  intros H Ha. revert b H.
  induction Ha as [|k v a Hnone Ha IH]; intros [|[k1 v1] b]; cbn;
    try discriminate; [constructor|].
  intros H. injection H as <- H. constructor.
  - exact (dict_get_None_keys a b k H Hnone).
  - exact (IH b H).
Qed.

Lemma dict_keys_app {V : Type} (a b : dict V) :
  dict_keys (a ++ b) = dict_keys a ++ dict_keys b.
Proof. apply map_app. Qed.

Lemma contacts_loop_keys (lookup : pyval -> M (option row))
    (todo : dict (list row)) :
  forall (done : dict (list row)) (acc : dict contact_summary)
         (w : world) (c : dict contact_summary) (w' : world),
    keys_distinct (done ++ todo) ->
    dict_keys acc = dict_keys done ->
    contacts_loop lookup (dict_keys todo) acc w = (Ok c, w') ->
    dict_keys c = dict_keys (done ++ todo).
Proof.
  induction todo as [|[k v] todo IH]; intros done acc w c w' Hkd Hacc; cbn.
  - unfold ret. intros H. injection H as <- _. rewrite app_nil_r. exact Hacc.
  - unfold mbind at 1. destruct (lookup k w) as [[info|] w1]; [|discriminate].
    unfold mbind at 1, lift. destruct (contact_entry k info) as [entry|]; [|discriminate].
    intros H.
    replace (done ++ (k, v) :: todo) with ((done ++ [(k, v)]) ++ todo) in *
      by (rewrite <- app_assoc; reflexivity).
    eapply (IH (done ++ [(k, v)])); [exact Hkd | | exact H].
    rewrite <- app_assoc in Hkd. cbn in Hkd.
    pose proof (keys_distinct_app_get _ _ _ _ Hkd) as Hnone.
    rewrite (dict_keys_set_new acc k entry
               (dict_get_None_keys done acc k (eq_sym Hacc) Hnone)).
    rewrite !dict_keys_app, Hacc. reflexivity.
Qed.

Lemma messages_loop_keys (todo : dict (list row)) :
  forall (done : dict (list row)) (acc m : dict (list formatted_message)),
    keys_distinct (done ++ todo) ->
    dict_keys acc = dict_keys done ->
    messages_loop todo acc = Ok m ->
    dict_keys m = dict_keys (done ++ todo).
Proof.
  induction todo as [|[k v] todo IH]; intros done acc m Hkd Hacc; cbn.
  - intros H. injection H as <-. rewrite app_nil_r. exact Hacc.
  - destruct (format_messages v) as [fm|]; [|discriminate]. cbn. intros H.
    replace (done ++ (k, v) :: todo) with ((done ++ [(k, v)]) ++ todo) in *
      by (rewrite <- app_assoc; reflexivity).
    eapply (IH (done ++ [(k, v)])); [exact Hkd | | exact H].
    rewrite <- app_assoc in Hkd. cbn in Hkd.
    pose proof (keys_distinct_app_get _ _ _ _ Hkd) as Hnone.
    rewrite (dict_keys_set_new acc k fm
               (dict_get_None_keys done acc k (eq_sym Hacc) Hnone)).
    rewrite !dict_keys_app, Hacc. reflexivity.
Qed.

Lemma group_loop_has_talker (msgs : list row) :
  forall g g', group_loop g msgs = Ok g' -> Forall has_talker msgs.
Proof.
  induction msgs as [|m msgs IH]; intros g g'; cbn; [constructor|].
  destruct (group_step g m) as [g1|] eqn:E; [|discriminate]. cbn.
  intros H. constructor; [|exact (IH _ _ H)].
  unfold group_step, index in E.
  destruct (nth_error m 11) eqn:En; [|discriminate].
  unfold has_talker. apply nth_error_Some. congruence.
Qed.

Lemma grouping_keys_distinct_aux (msgs : list row) :
  Forall has_talker msgs ->
  exists g, group_loop [] msgs = Ok g /\ keys_distinct g.
Proof.
  intros Hall.
  destruct (group_loop_ok msgs Hall []) as (g & Hloop & _ & Hkd & _).
  exists g. split; [exact Hloop | exact (Hkd kd_nil)].
Qed.

Lemma group_by_talker_distinct (msgs : list row) (g : dict (list row)) :
  group_by_talker msgs = Ok g -> keys_distinct g.
Proof.
  intros H. pose proof (group_loop_has_talker msgs [] g H) as Hall.
  destruct (grouping_keys_distinct_aux msgs Hall) as (g' & Hg' & Hkd).
  unfold group_by_talker in H. congruence.
Qed.

(** What a run of the first part that reaches the [try] block went through. *)
Lemma before_write_steps (h : host) (db : database_layer) (tr : time_range)
    (op : option string) (w w1 : world) (path : string) (d : document) :
  before_write h db tr op w = (Ok (Some (path, d)), w1) ->
  exists g,
    get_all_chat_records_by_time db tr = Ok g /\
    g <> [] /\ keys_distinct g /\
    contacts_loop (fun talker => lift (get_contact_by_username db talker))
      (dict_keys g) [] w = (Ok (contacts d), w) /\
    messages_loop g [] = Ok (messages d) /\
    describe_bound h (db_convert_to_timestamp db) tr false "%Y-%m-%d %H:%M:%S"
      = Ok (time_range_start d) /\
    describe_bound h (db_convert_to_timestamp db) tr true "%Y-%m-%d %H:%M:%S"
      = Ok (time_range_end d) /\
    resolve_output_path h (db_convert_to_timestamp db) tr op w = (Ok path, w1).
Proof.
  unfold before_write, mbind, lift, ret.
  destruct (get_all_chat_records_by_time db tr) as [g|] eqn:Eg; [|discriminate].
  destruct g as [|kv g]; [discriminate|].
  destruct (contacts_loop _ _ _ w) as [[c|] w0] eqn:Ec; [|discriminate].
  pose proof (contacts_loop_pure _ _ _ _ _ _ Ec) as ->.
  destruct (build_document _ _ _ _ _) as [doc|] eqn:Ed; [|discriminate].
  destruct (resolve_output_path _ _ _ _ w) as [[p|] w2] eqn:Ep; [|discriminate].
  intros H. injection H as <- <- <-.
  unfold build_document in Ed.
  destruct (describe_bound _ _ tr false _) as [start|]; [|discriminate].
  destruct (describe_bound _ _ tr true _) as [stop|]; [|discriminate].
  cbn [rbind] in Ed.
  destruct (messages_loop (kv :: g) []) as [fm|] eqn:Em; [|discriminate].
  cbn [rbind] in Ed. injection Ed as <-. cbn [contacts messages time_range_start time_range_end].
  exists (kv :: g). repeat split; try assumption; try reflexivity; try discriminate.
  unfold get_all_chat_records_by_time in Eg.
  destruct (get_messages_all db tr) as [[|m msgs]|]; try discriminate.
  exact (group_by_talker_distinct _ _ Eg).
Qed.

(** A run of the exporter that returns a path went through the first part
    and a write that did not raise. *)
Lemma export_to_json_returns_path (h : host) (db : database_layer)
    (tr : time_range) (op : option string) (w w' : world) (p : string) :
  export_chat_records_to_json h db tr op w = (Ok p, w') ->
  p <> "" ->
  exists d w1 w2,
    before_write h db tr op w = (Ok (Some (p, d)), w1) /\
    write_json h p d w1 = (Ok tt, w2) /\
    fs w' = fs w2 /\
    out w' = out w ++ [LogInfo (ExportedTo p)].
Proof.
  rewrite export_to_json_split.
  destruct (before_write h db tr op w) as [[[[path d]|]|] w1] eqn:Eb.
  - unfold write_document, try_catch, mbind, emit, ret.
    destruct (write_json h path d w1) as [[[]|] w2] eqn:Ew.
    + intros H Hp. injection H as <- <-. exists d, w1, w2.
      destruct (write_json_returns _ _ _ _ _ Ew) as (Hout & _).
      repeat split; try assumption. cbn.
      rewrite Hout, (before_write_out _ _ _ _ _ _ _ Eb). reflexivity.
    + intros H Hp. injection H as <- _. congruence.
  - intros H Hp. injection H as <- _. congruence.
  - discriminate.
Qed.

(** C3: when [export_chat_records_to_json] returns a path, the file at that
    path holds the document, and in it ["contacts"] and ["messages"] have
    the same keys in the same order, namely the talkers of the grouped
    messages, each once: every conversation of ["messages"] has exactly one
    contact entry and the other way round, whatever the contact lookups
    returned. *)
Theorem contacts_and_messages_have_same_keys (h : host) (db : database_layer)
    (tr : time_range) (op : option string) (w w' : world) (p : string) :
  export_chat_records_to_json h db tr op w = (Ok p, w') ->
  p <> "" ->
  exists d g,
    fs w' p = Some (File (Json d)) /\
    get_all_chat_records_by_time db tr = Ok g /\
    dict_keys (contacts d) = dict_keys g /\
    dict_keys (messages d) = dict_keys g /\
    keys_distinct (contacts d) /\
    keys_distinct (messages d) /\
    (forall k, dict_mem (contacts d) k = dict_mem (messages d) k).
Proof.
  intros Hrun Hp.
  destruct (export_to_json_returns_path _ _ _ _ _ _ _ Hrun Hp)
    as (d & w1 & w2 & Hb & Hw & Hfs & _).
  destruct (before_write_steps _ _ _ _ _ _ _ _ Hb)
    as (g & Hg & _ & Hkd & Hc & Hm & _).
  destruct (write_json_returns _ _ _ _ _ Hw) as (_ & Hfile & _).
  pose proof (contacts_loop_keys _ g [] [] w _ w Hkd eq_refl Hc) as Hck.
  pose proof (messages_loop_keys g [] [] _ Hkd eq_refl Hm) as Hmk.
  cbn [app] in Hck, Hmk.
  exists d, g. rewrite Hfs. repeat split; try assumption.
  - exact (keys_distinct_same_keys g _ (eq_sym Hck) Hkd).
  - exact (keys_distinct_same_keys g _ (eq_sym Hmk) Hkd).
  - intros k. unfold dict_mem.
    destruct (dict_get (contacts d) k) eqn:E1, (dict_get (messages d) k) eqn:E2;
      try reflexivity.
    + rewrite (dict_get_None_keys (messages d) (contacts d) k) in E1;
        [discriminate | congruence | exact E2].
    + rewrite (dict_get_None_keys (contacts d) (messages d) k) in E2;
        [discriminate | congruence | exact E1].
Qed.

Lemma contacts_and_messages_have_same_keys_witness :
  exists d g,
    fs (snd (export_chat_records_to_json utc_host sample_layer None None sample_world))
       "/home/user/exports/wechat_records_all_to_all.json"
    = Some (File (Json d)) /\
    get_all_chat_records_by_time sample_layer None = Ok g /\
    dict_keys (contacts d) = dict_keys g /\
    dict_keys (messages d) = dict_keys g.
Proof.
  destruct (contacts_and_messages_have_same_keys utc_host sample_layer None None
              sample_world
              (snd (export_chat_records_to_json utc_host sample_layer None None
                      sample_world))
              "/home/user/exports/wechat_records_all_to_all.json")
    as (d & g & H1 & H2 & H3 & H4 & _).
  - vm_compute. reflexivity.
  - discriminate.
  - exists d, g. repeat split; assumption.
Defined.

(** ** The default output path *)

Lemma length_append (a b : string) :
  String.length (a +++ b) = (String.length a + String.length b)%nat.
Proof. induction a as [|c a IH]; cbn; [reflexivity | rewrite IH; reflexivity]. Qed.

Lemma path_join_differs (a b : string) :
  String.prefix "/" b = false -> b <> "" -> path_join a b <> a.
Proof.
  intros Hrel Hb Heq. unfold path_join in Heq. rewrite Hrel in Heq.
  assert (Hlen : (0 < String.length b)%nat).
  { destruct b; [congruence | cbn; lia]. }
  apply (f_equal String.length) in Heq.
  destruct (String.eqb a "" || ends_with "/" a);
    rewrite ?length_append in Heq; cbn in Heq; lia.
Qed.

Lemma fromtimestamp_int (h : host) (t : timeval) (d : datetime) :
  fromtimestamp h t = Ok d -> exists z, t = TInt z /\ h_fromtimestamp h z = Ok d.
Proof. destruct t; cbn; try discriminate. eauto. Qed.

Lemma default_output_path_returns (h : host)
    (convert : timeval * timeval -> res (timeval * timeval))
    (tr : time_range) (w w' : world) (p : string) :
  default_output_path h convert tr w = (Ok p, w') ->
  exists a b,
    p = path_join (path_join (h_cwd h) "exports")
          ("wechat_records_" +++ a +++ "_to_" +++ b +++ ".json") /\
    match tr with
    | None => a = "all" /\ b = "all"
    | Some r =>
        exists s e ds de,
          convert r = Ok (TInt s, TInt e) /\
          h_fromtimestamp h s = Ok ds /\ h_fromtimestamp h e = Ok de /\
          a = h_strftime h ds "%Y%m%d" /\ b = h_strftime h de "%Y%m%d"
    end /\
    (fs w (path_join (h_cwd h) "exports") = None ->
     h_mkdir_fails h (path_join (h_cwd h) "exports") = false /\
     fs w' (path_join (h_cwd h) "exports") = Some Dir) /\
    (fs w (path_join (h_cwd h) "exports") <> None -> w' = w) /\
    (forall q, q <> path_join (h_cwd h) "exports" -> fs w' q = fs w q).
Proof.
  unfold default_output_path, mbind, lift, path_exists, makedirs, ret.
  set (dir := path_join (h_cwd h) "exports").
  destruct (match tr with None => _ | Some _ => _ end) as [[a b]|] eqn:En;
    [|discriminate].
  assert (Hnames : match tr with
                   | None => a = "all" /\ b = "all"
                   | Some r =>
                       exists s e ds de,
                         convert r = Ok (TInt s, TInt e) /\
                         h_fromtimestamp h s = Ok ds /\ h_fromtimestamp h e = Ok de /\
                         a = h_strftime h ds "%Y%m%d" /\ b = h_strftime h de "%Y%m%d"
                   end).
  { destruct tr as [r|].
    - destruct (convert r) as [[t1 t2]|]; [|discriminate]. cbn in En.
      destruct (fromtimestamp h t1) as [ds|] eqn:E1; [|discriminate].
      destruct (fromtimestamp h t2) as [de|] eqn:E2; [|discriminate].
      cbn in En. injection En as <- <-.
      apply fromtimestamp_int in E1 as (s & -> & E1).
      apply fromtimestamp_int in E2 as (e & -> & E2).
      exists s, e, ds, de. repeat split; assumption.
    - injection En as <- <-. split; reflexivity. }
  clear En. cbn [fst snd].
  destruct (fs w dir) as [n|] eqn:Edir; cbn [negb]; cbv beta iota.
  - intros H. injection H as <- <-. exists a, b.
    split; [reflexivity|]. split; [exact Hnames|].
    split; [discriminate|]. split; [reflexivity|]. reflexivity.
  - destruct (h_mkdir_fails h dir) eqn:Emk; [discriminate|].
    intros H. injection H as <- <-. exists a, b.
    split; [reflexivity|]. split; [exact Hnames|].
    split; [|split].
    + intros _. split; [reflexivity|]. unfold fs_put. cbn [fs].
      rewrite String.eqb_refl. reflexivity.
    + congruence.
    + intros q Hq. unfold fs_put. cbn [fs].
      destruct (String.eqb_spec q dir); [contradiction | reflexivity].
Qed.

(** C9: when [export_chat_records_to_json] returns a path, the file there
    holds the document; with the time range omitted its [time_range] has
    "all" as start and as end; with no output path given (or an empty one)
    the path is [<cwd>/exports/wechat_records_<start>_to_<end>.json], where
    the two segments are "all" when the time range is omitted and otherwise
    the two bounds formatted with "%Y%m%d"; the directory [<cwd>/exports]
    is there afterwards, made by the exporter if it was missing. *)
Theorem omitted_time_range_and_default_path (h : host) (db : database_layer)
    (tr : time_range) (op : option string) (w w' : world) (p : string) :
  export_chat_records_to_json h db tr op w = (Ok p, w') ->
  p <> "" ->
  exists d,
    fs w' p = Some (File (Json d)) /\
    (tr = None -> time_range_start d = "all" /\ time_range_end d = "all") /\
    (op = None \/ op = Some "" ->
     exists a b,
       p = path_join (path_join (h_cwd h) "exports")
             ("wechat_records_" +++ a +++ "_to_" +++ b +++ ".json") /\
       match tr with
       | None => a = "all" /\ b = "all"
       | Some r =>
           exists s e ds de,
             db_convert_to_timestamp db r = Ok (TInt s, TInt e) /\
             h_fromtimestamp h s = Ok ds /\ h_fromtimestamp h e = Ok de /\
             a = h_strftime h ds "%Y%m%d" /\ b = h_strftime h de "%Y%m%d"
       end /\
       (fs w (path_join (h_cwd h) "exports") = None ->
        fs w' (path_join (h_cwd h) "exports") = Some Dir) /\
       fs w' (path_join (h_cwd h) "exports") <> None).
Proof.
  intros Hrun Hp.
  destruct (export_to_json_returns_path _ _ _ _ _ _ _ Hrun Hp)
    as (d & w1 & w2 & Hb & Hw & Hfs & _).
  destruct (before_write_steps _ _ _ _ _ _ _ _ Hb)
    as (g & _ & _ & _ & _ & _ & Hstart & Hstop & Hpath).
  destruct (write_json_returns _ _ _ _ _ Hw) as (_ & Hfile & _ & Hrest).
  exists d. rewrite Hfs. split; [exact Hfile|]. split.
  - intros ->. cbn in Hstart, Hstop. split; congruence.
  - intros Hop.
    assert (Hdef : default_output_path h (db_convert_to_timestamp db) tr w
                   = (Ok p, w1)).
    { destruct Hop as [-> | ->]; exact Hpath. }
    destruct (default_output_path_returns _ _ _ _ _ _ Hdef)
      as (a & b & Hpab & Hnames & Hnew & Hold & _).
    exists a, b. split; [exact Hpab|]. split; [exact Hnames|].
    set (dir := path_join (h_cwd h) "exports") in *.
    assert (Hneq : dir <> p).
    { rewrite Hpab. intros Heq. symmetry in Heq. revert Heq.
      apply path_join_differs; [reflexivity | discriminate]. }
    rewrite (Hrest dir Hneq). split.
    + intros Hnone. apply Hnew. exact Hnone.
    + destruct (fs w dir) eqn:Edir.
      * rewrite Hold by discriminate. rewrite Edir. discriminate.
      * destruct (Hnew eq_refl) as [_ ->]. discriminate.
Qed.

Lemma omitted_time_range_and_default_path_witness :
  exists d,
    fs (snd (export_chat_records_to_json utc_host sample_layer None None sample_world))
       "/home/user/exports/wechat_records_all_to_all.json"
    = Some (File (Json d)) /\
    time_range_start d = "all" /\ time_range_end d = "all" /\
    fs sample_world "/home/user/exports" = None /\
    fs (snd (export_chat_records_to_json utc_host sample_layer None None sample_world))
       "/home/user/exports"
    = Some Dir.
Proof.
  destruct (omitted_time_range_and_default_path utc_host sample_layer None None
              sample_world
              (snd (export_chat_records_to_json utc_host sample_layer None None
                      sample_world))
              "/home/user/exports/wechat_records_all_to_all.json")
    as (d & H1 & H2 & H3).
  - vm_compute. reflexivity.
  - discriminate.
  - exists d. destruct (H2 eq_refl) as [Hs He].
    destruct (H3 (or_introl eq_refl)) as (a & b & _ & _ & Hdir & _).
    split; [exact H1|]. split; [exact Hs|]. split; [exact He|].
    split; [reflexivity|]. apply Hdir. reflexivity.
Defined.

(** With the range 2023-01-01 to 2023-01-31 given as strings, on the sample
    machine, the file is named after the two days. *)
Example export_january :
  fst (export_chat_records_to_json utc_host sample_layer
         (Some (TStr "2023-01-01", TStr "2023-01-31")) None sample_world)
  = Ok "/home/user/exports/wechat_records_20230101_to_20230131.json".
Proof. vm_compute. reflexivity. Qed.

(** The exporter of simple_export.py on the sample world, whose contact
    database is missing: every conversation gets the fallback summary and
    the document goes to the default path. *)
Example export_chat_records_sample :
  fst (export_chat_records utc_host "MSG.db" "MicroMsg.db" None None sample_world)
  = Ok "/home/user/exports/wechat_records_all_to_all.json".
Proof. vm_compute. reflexivity. Qed.


(** * Further properties of the code *)

(** ** Formatting one message *)

Lemma format_message_short (m : row) :
  ~ has_talker m -> format_message_for_json m = Raise IndexError.
Proof.
  unfold has_talker. intros H.
  do 12 (destruct m as [|? m]; [reflexivity|]).
  exfalso. apply H. cbn. lia.
Qed.

Lemma hex_or_none_kind (v : pyval) :
  hex_or_none v = PNone \/ exists s, hex_or_none v = PStr s.
Proof.
  unfold hex_or_none. destruct (truthy v); [|left; reflexivity].
  destruct v as [|z|f|s|b]; cbn; eauto.
Qed.

(** X1: [format_message_for_json] returns exactly on the rows that have a
    talker column (12 columns or more) and raises [IndexError] on every
    shorter row.  When it returns, eleven fields are the columns 0-3, 5, 7-9,
    11 and 12 of the row as they are ([reserved1] is [None] on a row of 12
    columns) and [is_sender] is the truth value of column 4. *)
Theorem format_message_returns_iff (m : row) :
  (has_talker m ->
   exists f,
     format_message_for_json m = Ok f /\
     message_id f = nth 0 m PNone /\ talker_id f = nth 1 m PNone /\
     type_ f = nth 2 m PNone /\ sub_type f = nth 3 m PNone /\
     is_sender f = truthy (nth 4 m PNone) /\ timestamp f = nth 5 m PNone /\
     content f = nth 7 m PNone /\ formatted_time f = nth 8 m PNone /\
     msg_svr_id f = nth 9 m PNone /\ talker f = nth 11 m PNone /\
     reserved1 f = nth 12 m PNone) /\
  (~ has_talker m -> format_message_for_json m = Raise IndexError).
Proof.
  split; [|apply format_message_short].
  unfold has_talker. intros H.
  do 12 (destruct m as [|? m]; [cbn in H; lia|]). clear H.
  destruct m as [|v12 [|v13 m]]; eexists; (split; [reflexivity|]);
    repeat split; reflexivity.
Qed.

Lemma format_message_returns_iff_witness :
  has_talker blob_row /\
  exists f,
    format_message_for_json blob_row = Ok f /\
    message_id f = PInt 1 /\ talker f = PStr "alice" /\ is_sender f = true.
Proof.
  assert (H : has_talker blob_row) by (unfold has_talker; cbn; lia).
  split; [exact H|].
  destruct (proj1 (format_message_returns_iff blob_row) H)
    as (f & Hf & H0 & _ & _ & _ & H4 & _ & _ & _ & _ & H11 & _).
  exists f. repeat split; assumption.
Defined.

(** X2: Whatever the two binary columns hold, the fields made from them are
    [None] or a string, never [bytes]: they cannot make [json.dump] fail. *)
Theorem binary_fields_are_json_values (m : row) (f : formatted_message) :
  format_message_for_json m = Ok f ->
  (bytes_extra f = PNone \/ exists s, bytes_extra f = PStr s) /\
  (compress_content f = PNone \/ exists s, compress_content f = PStr s) /\
  json_value_ok (bytes_extra f) = true /\
  json_value_ok (compress_content f) = true.
Proof.
  intros Hf.
  assert (Hlen : has_talker m).
  { destruct (Nat.lt_ge_cases 11 (List.length m)) as [H|H]; [exact H|].
    rewrite format_message_short in Hf; [discriminate|].
    unfold has_talker. lia. }
  destruct (format_message_fields m Hlen) as (f' & Hf' & H10 & H13 & _).
  assert (f' = f) by congruence. subst f'.
  assert (Hkind : forall o : option pyval,
            let x := match o with Some v => hex_or_none v | None => PNone end in
            (x = PNone \/ exists s, x = PStr s) /\ json_value_ok x = true).
  { intros [v|]; cbn; [|split; [left|]; reflexivity].
    destruct (hex_or_none_kind v) as [-> | [s ->]]; split; eauto. }
  rewrite H10, H13.
  destruct (Hkind (nth_error m 10)) as [A B].
  destruct (Hkind (nth_error m 13)) as [C D].
  repeat split; assumption.
Qed.

Lemma binary_fields_are_json_values_witness :
  exists f,
    format_message_for_json real_row = Ok f /\
    json_value_ok (bytes_extra f) = true /\
    json_value_ok (compress_content f) = true.
Proof.
  eexists. split; [reflexivity|].
  destruct (binary_fields_are_json_values real_row _ eq_refl) as (_ & _ & A & B).
  split; assumption.
Defined.

(** ** The grouping loop: its only failure *)

Lemma group_step_raises (g : dict (list row)) (m : row) (e : exn) :
  group_step g m = Raise e -> e = IndexError /\ ~ has_talker m.
Proof.
  unfold group_step, index, has_talker.
  destruct (nth_error m 11) as [t|] eqn:Et; cbn [rbind].
  - destruct (dict_mem g t) eqn:Em.
    + unfold dict_mem in Em. destruct (dict_get g t); discriminate.
    + rewrite dict_get_set, py_eqb_refl. discriminate.
  - intros H. injection H as <-. apply nth_error_None in Et.
    split; [reflexivity | lia].
Qed.

Lemma group_loop_raises (msgs : list row) :
  forall g e, group_loop g msgs = Raise e ->
              e = IndexError /\ Exists (fun m => ~ has_talker m) msgs.
Proof.
  induction msgs as [|m msgs IH]; intros g e; cbn; [discriminate|].
  destruct (group_step g m) as [g1|e1] eqn:E; cbn.
  - intros H. destruct (IH _ _ H) as [-> Hex]. split; [reflexivity|].
    apply Exists_cons_tl. exact Hex.
  - intros H. injection H as <-.
    destruct (group_step_raises _ _ _ E) as [-> Hm]. split; [reflexivity|].
    apply Exists_cons_hd. exact Hm.
Qed.

(** X3: The grouping loop raises only [IndexError], never [KeyError], and it
    does so exactly when some message has no column 11; the messages before
    the short one do not save the run. *)
Theorem grouping_fails_only_on_short_rows (msgs : list row) :
  (forall e, group_by_talker msgs = Raise e ->
             e = IndexError /\ Exists (fun m => ~ has_talker m) msgs) /\
  (Exists (fun m => ~ has_talker m) msgs -> group_by_talker msgs = Raise IndexError).
Proof.
  split; [intros e; apply group_loop_raises|].
  intros Hex. destruct (group_by_talker msgs) as [g|e] eqn:E.
  - exfalso. pose proof (group_loop_has_talker msgs [] g E) as Hall.
    apply Exists_exists in Hex as (m & Hin & Hm).
    rewrite Forall_forall in Hall. exact (Hm (Hall m Hin)).
  - destruct (group_loop_raises msgs [] e E) as [-> _]. reflexivity.
Qed.

Lemma grouping_fails_only_on_short_rows_witness :
  Exists (fun m => ~ has_talker m) [sample_row 1 "alice"; [PInt 2; PStr "x"]] /\
  group_by_talker [sample_row 1 "alice"; [PInt 2; PStr "x"]] = Raise IndexError.
Proof.
  assert (H : Exists (fun m => ~ has_talker m)
                [sample_row 1 "alice"; [PInt 2; PStr "x"]]).
  { apply Exists_cons_tl, Exists_cons_hd. unfold has_talker. cbn. lia. }
  split; [exact H|].
  exact (proj2 (grouping_fails_only_on_short_rows _) H).
Defined.

(** ** Time ranges: what [convert_to_timestamp] returns and when it raises *)

(** X4: Whatever mix of integers, strings and [datetime] objects it is given,
    when [convert_to_timestamp] returns, both sides are integers, and
    converting its result again changes nothing. *)
Theorem convert_to_timestamp_normalizes (h : host) (r c : timeval * timeval) :
  convert_to_timestamp h r = Ok c ->
  (exists s e, c = (TInt s, TInt e)) /\ convert_to_timestamp h c = Ok c.
Proof.
  intros H. destruct (convert_to_timestamp_ints h r c H) as (s & e & ->).
  split; [eauto | reflexivity].
Qed.

Lemma convert_to_timestamp_normalizes_witness :
  convert_to_timestamp utc_host (TStr "2023-01-01", TDatetime (mkDatetime 2023 1 31 0 0 0 0))
  = Ok (TInt 1672531200, TInt 1675123200) /\
  convert_to_timestamp utc_host (TInt 1672531200, TInt 1675123200)
  = Ok (TInt 1672531200, TInt 1675123200).
Proof.
  split; [reflexivity|].
  exact (proj2 (convert_to_timestamp_normalizes utc_host
                  (TStr "2023-01-01", TDatetime (mkDatetime 2023 1 31 0 0 0 0))
                  _ eq_refl)).
Defined.

Lemma parse_time_raises (h : host) (t : timeval) (e : exn) :
  parse_time h t = Raise e -> e = ValueError.
Proof.
  destruct t as [z|s|d]; cbn; try discriminate.
  destruct (h_strptime h s "%Y-%m-%d %H:%M:%S"); [discriminate|].
  destruct (h_strptime h s "%Y-%m-%d"); [discriminate|]. congruence.
Qed.

(** X5: A string that neither "%Y-%m-%d %H:%M:%S" nor "%Y-%m-%d" parses makes
    [convert_to_timestamp] raise [ValueError], on whichever side it stands
    and whatever the other side is: both strings are parsed before any
    timestamp is computed. *)
Theorem unparseable_date_raises_ValueError (h : host) (s : string) (other : timeval) :
  h_strptime h s "%Y-%m-%d %H:%M:%S" = None ->
  h_strptime h s "%Y-%m-%d" = None ->
  convert_to_timestamp h (TStr s, other) = Raise ValueError /\
  convert_to_timestamp h (other, TStr s) = Raise ValueError.
Proof.
  intros H1 H2.
  assert (Hs : parse_time h (TStr s) = Raise ValueError).
  { cbn. rewrite H1, H2. reflexivity. }
  split; unfold convert_to_timestamp.
  - rewrite Hs. reflexivity.
  - destruct (parse_time h other) as [t|e] eqn:E; cbn [rbind].
    + rewrite Hs. reflexivity.
    + rewrite (parse_time_raises h other e E). reflexivity.
Qed.

Lemma unparseable_date_raises_ValueError_witness :
  convert_to_timestamp utc_host (TStr "yesterday", TInt 5) = Raise ValueError /\
  convert_to_timestamp utc_host (TInt 5, TStr "yesterday") = Raise ValueError.
Proof.
  exact (unparseable_date_raises_ValueError utc_host "yesterday" (TInt 5)
           eq_refl eq_refl).
Defined.

(** ** The message query of simple_export.py *)

Section MoreQueryFacts.

Variable sql_strftime : pyval -> pyval.




Lemma where_clause_empty_range (s e : Z) (r : msg_record) :
  e <= s -> where_clause (Some (s, e)) r = false.
Proof.
  intros Hes. cbn. destruct (_ && _) eqn:E; [|reflexivity].
  destruct (between_bounds s e _ E) as (q & _ & Hs & He & _).
  exfalso. apply (Qlt_irrefl q).
  eapply Qlt_le_trans; [exact He|].
  eapply Qle_trans; [|apply Qlt_le_weak; exact Hs].
  rewrite <- Zle_Qle. exact Hes.
Qed.

Lemma run_query_empty_range (s e : Z) (table : list msg_record) :
  e <= s -> run_query sql_strftime (Some (s, e)) table = [].
Proof.
  intros Hes. unfold run_query.
  replace (filter (where_clause (Some (s, e))) table) with (@nil msg_record);
    [reflexivity|].
  induction table as [|r table IH]; [reflexivity|].
  cbn [filter]. rewrite (where_clause_empty_range s e r Hes). exact IH.
Qed.

End MoreQueryFacts.

(** [get_all_messages] on a path that exists, step by step. *)
Lemma get_all_messages_present (h : host) (db_path : string) (tr : time_range)
    (w : world) (n : node) :
  fs w db_path = Some n ->
  get_all_messages h db_path tr w =
  match (match tr with
         | Some r => (c <- convert_to_timestamp h r ;; Ok (Some c))
         | None => Ok None
         end) with
  | Raise e => (Raise e, w)
  | Ok range =>
      match (match range with
             | Some c => (b <- sql_bounds c ;; Ok (Some b))
             | None => Ok None
             end), n with
      | Ok bounds, File (MsgDb table) =>
          (Ok (run_query (h_sql_strftime h) bounds table), w)
      | _, _ => (Ok [], {| fs := fs w; out := out w ++ [Print QueryFailed] |})
      end
  end.
Proof.
  intros Hn.
  unfold get_all_messages, mbind, path_exists, try_catch, lift, fetch_messages,
    emit, ret.
  rewrite Hn. cbn [negb].
  destruct (match tr with Some _ => _ | None => _ end) as [range|e];
    [|reflexivity].
  destruct (match range with Some _ => _ | None => _ end) as [bounds|e];
    [|destruct n as [|[]]; reflexivity].
  rewrite Hn. destruct n as [|[]]; reflexivity.
Qed.



(** X7: A range whose end is not after its start matches nothing: the query
    returns no row, and that is not an error. *)
Theorem empty_range_returns_nothing (h : host) (db_path : string) (s e : Z)
    (w : world) :
  e <= s ->
  fst (get_all_messages h db_path (Some (TInt s, TInt e)) w) = Ok [].
Proof.
  intros Hes. destruct (fs w db_path) as [n|] eqn:Hn.
  - rewrite (get_all_messages_present h db_path _ w n Hn). cbn.
    destruct n as [|[table| | | |]]; try reflexivity.
    cbn. rewrite run_query_empty_range by exact Hes. reflexivity.
  - unfold get_all_messages, mbind, path_exists. rewrite Hn. reflexivity.
Qed.

Lemma empty_range_returns_nothing_witness :
  fst (get_all_messages utc_host "MSG.db" (Some (TInt 300, TInt 100)) sample_world)
  = Ok [].
Proof.
  apply (empty_range_returns_nothing utc_host "MSG.db" 300 100 sample_world). lia.
Defined.

(** X8: A path that exists but is not a readable MSG database (a directory, a
    file of another kind) gives no row and one printed query error; the
    exception of SQLite does not leave [get_all_messages]. *)
Theorem unreadable_database_gives_no_rows (h : host) (db_path : string)
    (tr : time_range) (w : world) (n : node) :
  fs w db_path = Some n ->
  (forall table, n <> File (MsgDb table)) ->
  match tr with
  | None => True
  | Some r => exists c, convert_to_timestamp h r = Ok c
  end ->
  get_all_messages h db_path tr w
  = (Ok [], {| fs := fs w; out := out w ++ [Print QueryFailed] |}).
Proof.
  intros Hn Hnot Htr. rewrite (get_all_messages_present h db_path tr w n Hn).
  destruct tr as [r|].
  - destruct Htr as [c Hc]. rewrite Hc. cbn [rbind].
    destruct (sql_bounds c); cbn [rbind];
      destruct n as [|[table| | | |]]; try reflexivity;
      exfalso; exact (Hnot table eq_refl).
  - destruct n as [|[table| | | |]]; try reflexivity.
    exfalso; exact (Hnot table eq_refl).
Qed.

Lemma unreadable_database_gives_no_rows_witness :
  get_all_messages utc_host "/home/user" None sample_world
  = (Ok [], {| fs := fs sample_world; out := [Print QueryFailed] |}).
Proof.
  apply (unreadable_database_gives_no_rows utc_host "/home/user" None
           sample_world Dir); [reflexivity | discriminate | exact I].
Defined.

(** X9: The file is looked for before the range is read: with a date string
    that cannot be parsed, [get_all_messages] raises [ValueError] when the
    database file exists, and returns no row (printing that the file is
    missing) when it does not. *)
Theorem bad_date_matters_only_if_database_exists (h : host) (db_path : string)
    (s : string) (other : timeval) (w : world) :
  h_strptime h s "%Y-%m-%d %H:%M:%S" = None ->
  h_strptime h s "%Y-%m-%d" = None ->
  (fs w db_path = None ->
   get_all_messages h db_path (Some (TStr s, other)) w
   = (Ok [], {| fs := fs w; out := out w ++ [Print (DatabaseMissing db_path)] |})) /\
  (fs w db_path <> None ->
   get_all_messages h db_path (Some (TStr s, other)) w = (Raise ValueError, w)).
Proof.
  intros H1 H2. split.
  - intros Hn. unfold get_all_messages, mbind, path_exists. rewrite Hn. reflexivity.
  - intros Hn. destruct (fs w db_path) as [n|] eqn:E; [|congruence].
    rewrite (get_all_messages_present h db_path _ w n E).
    assert (Hc : convert_to_timestamp h (TStr s, other) = Raise ValueError).
    { unfold convert_to_timestamp. cbn. rewrite H1, H2. reflexivity. }
    rewrite Hc. reflexivity.
Qed.

Lemma bad_date_matters_only_if_database_exists_witness :
  get_all_messages utc_host "gone.db" (Some (TStr "soon", TInt 5)) sample_world
  = (Ok [], {| fs := fs sample_world; out := [Print (DatabaseMissing "gone.db")] |}) /\
  get_all_messages utc_host "MSG.db" (Some (TStr "soon", TInt 5)) sample_world
  = (Raise ValueError, sample_world).
Proof.
  destruct (bad_date_matters_only_if_database_exists utc_host "gone.db" "soon"
              (TInt 5) sample_world eq_refl eq_refl) as [A _].
  destruct (bad_date_matters_only_if_database_exists utc_host "MSG.db" "soon"
              (TInt 5) sample_world eq_refl eq_refl) as [_ B].
  split; [apply A; reflexivity | apply B; discriminate].
Defined.

Lemma format_messages_ok (l : list row) :
  Forall has_talker l ->
  exists fl, format_messages l = Ok fl /\
             Forall2 (fun m f => format_message_for_json m = Ok f) l fl.
Proof.
  induction 1 as [|m l Hm Hl IH]; cbn.
  - exists []. split; [reflexivity | constructor].
  - destruct (format_message_fields m Hm) as (f & Hf & _).
    destruct IH as (fl & Hfl & Hall).
    exists (f :: fl). rewrite Hf, Hfl. split; [reflexivity|].
    constructor; assumption.
Qed.

Lemma get_all_messages_frame (h : host) (db_path : string) (tr : time_range)
    (w : world) (r : res (list row)) (w' : world) :
  get_all_messages h db_path tr w = (r, w') ->
  fs w' = fs w /\
  forall rows, r = Ok rows -> Forall (fun m => List.length m = 14%nat) rows.
Proof.
  destruct (fs w db_path) as [n|] eqn:Hn.
  - rewrite (get_all_messages_present h db_path tr w n Hn).
    destruct (match tr with Some _ => _ | None => _ end) as [range|e].
    + destruct (match range with Some _ => _ | None => _ end) as [bounds|e];
        destruct n as [|[table| | | |]]; intros H; injection H as <- <-;
        (split; [reflexivity|]); intros rows Hr; injection Hr as <-;
        try constructor; apply run_query_width.
    + intros H. injection H as <- <-. split; [reflexivity | discriminate].
  - unfold get_all_messages, mbind, path_exists, emit, ret. rewrite Hn. cbn.
    intros H. injection H as <- <-. split; [reflexivity|].
    intros rows Hr. injection Hr as <-. constructor.
Qed.

(** X10: The rows [get_all_messages] returns always have the 14 columns of the
    select list, so the two steps that index them cannot raise: grouping
    returns, and formatting returns one record per row, in order.  The query
    itself changes no file. *)
Theorem fetched_rows_are_safe_to_process (h : host) (db_path : string)
    (tr : time_range) (w w' : world) (rows : list row) :
  get_all_messages h db_path tr w = (Ok rows, w') ->
  fs w' = fs w /\
  Forall (fun m => List.length m = 14%nat) rows /\
  (exists g, group_by_talker rows = Ok g) /\
  (exists fl, format_messages rows = Ok fl /\
              Forall2 (fun m f => format_message_for_json m = Ok f) rows fl).
Proof.
  intros H. destruct (get_all_messages_frame _ _ _ _ _ _ H) as [Hfs Hw].
  specialize (Hw rows eq_refl).
  assert (Hall : Forall has_talker rows).
  { eapply Forall_impl; [|exact Hw]. intros m Hm. unfold has_talker.
    cbv beta in Hm. rewrite Hm. lia. }
  split; [exact Hfs|]. split; [exact Hw|]. split.
  - destruct (group_loop_ok rows Hall []) as (g & Hg & _). exists g. exact Hg.
  - apply format_messages_ok. exact Hall.
Qed.

Lemma fetched_rows_are_safe_to_process_witness :
  exists g,
    group_by_talker
      (match fst (get_all_messages utc_host "MSG.db" None sample_world) with
       | Ok rows => rows
       | Raise _ => []
       end) = Ok g.
Proof.
  destruct (fetched_rows_are_safe_to_process utc_host "MSG.db" None sample_world
              sample_world
              (match fst (get_all_messages utc_host "MSG.db" None sample_world) with
               | Ok rows => rows
               | Raise _ => []
               end))
    as (_ & _ & Hg & _).
  - vm_compute. reflexivity.
  - exact Hg.
Defined.

(** ** The contact lookup of simple_export.py *)


(** ** Contact entries of the document *)

Lemma contacts_loop_entries (lookup : pyval -> M (option row))
    (I : world -> Prop) (P : pyval -> contact_summary -> Prop) :
  (forall k w r w', I w -> lookup k w = (r, w') -> I w') ->
  (forall k w info w' c,
     I w -> lookup k w = (Ok info, w') -> contact_entry k info = Ok c -> P k c) ->
  forall (todo done : dict (list row)) (acc : dict contact_summary)
         (w : world) (c : dict contact_summary) (w' : world),
    keys_distinct (done ++ todo) ->
    dict_keys acc = dict_keys done ->
    I w ->
    (forall k e, In (k, e) acc -> P k e) ->
    contacts_loop lookup (dict_keys todo) acc w = (Ok c, w') ->
    I w' /\ forall k e, In (k, e) c -> P k e.
Proof.
  intros HI HP. induction todo as [|[k v] todo IH];
    intros done acc w c w' Hkd Hacc Hw Hin; cbn.
  - unfold ret. intros H. injection H as <- <-. split; assumption.
  - unfold mbind at 1. destruct (lookup k w) as [[info|] w1] eqn:El; [|discriminate].
    unfold mbind at 1, lift.
    destruct (contact_entry k info) as [entry|] eqn:Ee; [|discriminate].
    intros H.
    replace (done ++ (k, v) :: todo) with ((done ++ [(k, v)]) ++ todo) in Hkd
      by (rewrite <- app_assoc; reflexivity).
    assert (Hnone : dict_get acc k = None).
    { apply (dict_get_None_keys done acc k (eq_sym Hacc)).
      rewrite <- app_assoc in Hkd. cbn in Hkd.
      exact (keys_distinct_app_get _ _ _ _ Hkd). }
    rewrite (dict_keys_set_new acc k entry Hnone) in H.
    eapply (IH (done ++ [(k, v)])); [exact Hkd | | | | exact H].
    + rewrite !dict_keys_app, Hacc. reflexivity.
    + exact (HI _ _ _ _ Hw El).
    + intros k' e' Hin'. apply in_app_or in Hin' as [Hin'|[Heq|[]]].
      * exact (Hin _ _ Hin').
      * injection Heq as <- <-. exact (HP _ _ _ _ _ Hw El Ee).
Qed.

(** X12: In the document [export_chat_records_to_json] writes, the contact entry
    under each conversation identifier is the one built from the lookup of
    that very identifier: the five columns of the row found, or the fallback
    made from the identifier when nothing was found. *)
Theorem contact_entries_come_from_their_own_lookup (h : host) (db : database_layer)
    (tr : time_range) (op : option string) (w w' : world) (p : string) :
  export_chat_records_to_json h db tr op w = (Ok p, w') ->
  p <> "" ->
  exists d,
    fs w' p = Some (File (Json d)) /\
    forall k c, In (k, c) (contacts d) ->
      exists info,
        get_contact_by_username db k = Ok info /\ contact_entry k info = Ok c.
Proof.
  intros Hrun Hp.
  destruct (export_to_json_returns_path _ _ _ _ _ _ _ Hrun Hp)
    as (d & w1 & w2 & Hb & Hw & Hfs & _).
  destruct (before_write_steps _ _ _ _ _ _ _ _ Hb)
    as (g & _ & _ & Hkd & Hc & _).
  destruct (write_json_returns _ _ _ _ _ Hw) as (_ & Hfile & _).
  exists d. rewrite Hfs. split; [exact Hfile|].
  refine (proj2 (contacts_loop_entries _ (fun _ => True)
                   (fun k c => exists info,
                      get_contact_by_username db k = Ok info /\
                      contact_entry k info = Ok c)
                   _ _ g [] [] w _ w Hkd eq_refl I _ Hc)).
  - intros; exact I.
  - intros k w0 info w0' c _ Hl He. unfold lift in Hl.
    injection Hl as Hl _. exists info. split; assumption.
  - intros k e [].
Qed.

Lemma contact_entries_come_from_their_own_lookup_witness :
  exists d,
    fs (snd (export_chat_records_to_json utc_host sample_layer None None sample_world))
       "/home/user/exports/wechat_records_all_to_all.json"
    = Some (File (Json d)) /\
    forall k c, In (k, c) (contacts d) ->
      exists info,
        get_contact_by_username sample_layer k = Ok info /\
        contact_entry k info = Ok c.
Proof.
  apply (contact_entries_come_from_their_own_lookup utc_host sample_layer None None
           sample_world
           (snd (export_chat_records_to_json utc_host sample_layer None None
                   sample_world))
           "/home/user/exports/wechat_records_all_to_all.json").
  - vm_compute. reflexivity.
  - discriminate.
Defined.

(** ** The exporter of simple_export.py *)

Lemma write_document_returns_path (h : host) (done : string -> event)
    (failed : event) (path : string) (d : document) (w w' : world) (p : string) :
  write_document h done failed path d w = (Ok p, w') ->
  p <> "" ->
  exists w2,
    p = path /\ write_json h path d w = (Ok tt, w2) /\
    fs w' = fs w2 /\ out w' = out w ++ [done path].
Proof.
  unfold write_document, try_catch, mbind, emit, ret.
  destruct (write_json h path d w) as [[[]|] w2] eqn:Ew.
  - intros H Hp. injection H as <- <-. exists w2.
    destruct (write_json_returns _ _ _ _ _ Ew) as (Hout & _).
    repeat split. cbn. rewrite Hout. reflexivity.
  - intros H Hp. injection H as <- _. congruence.
Qed.

(** A run of [export_chat_records] that returns a path went through these
    steps. *)
Lemma export_chat_records_returns_path (h : host) (db_path contact_db_path : string)
    (tr : time_range) (op : option string) (w w' : world) (p : string) :
  export_chat_records h db_path contact_db_path tr op w = (Ok p, w') ->
  p <> "" ->
  exists rows w0 g c wc d w1 w2,
    get_all_messages h db_path tr w = (Ok rows, w0) /\
    rows <> [] /\
    group_by_talker rows = Ok g /\
    contacts_loop (get_contact_info contact_db_path) (dict_keys g) [] w0
      = (Ok c, wc) /\
    build_document h (convert_to_timestamp h) tr g c = Ok d /\
    resolve_output_path h (convert_to_timestamp h) tr op wc = (Ok p, w1) /\
    write_json h p d w1 = (Ok tt, w2) /\
    fs w' = fs w2.
Proof.
  unfold export_chat_records. unfold mbind at 1.
  destruct (get_all_messages h db_path tr w) as [[rows|] w0] eqn:Eq; [|discriminate].
  destruct rows as [|m rows].
  - unfold mbind, emit, ret. intros H Hp. injection H as <- _. congruence.
  - unfold mbind at 1, lift.
    destruct (group_by_talker (m :: rows)) as [g|] eqn:Eg; [|discriminate].
    unfold mbind at 1.
    destruct (contacts_loop _ _ _ w0) as [[c|] wc] eqn:Ec; [|discriminate].
    unfold mbind at 1.
    destruct (build_document _ _ _ _ _) as [d|] eqn:Ed; [|discriminate].
    unfold mbind at 1.
    destruct (resolve_output_path _ _ _ _ wc) as [[path|] w1] eqn:Ep; [|discriminate].
    intros H Hp.
    destruct (write_document_returns_path _ _ _ _ _ _ _ _ H Hp)
      as (w2 & -> & Hw & Hfs & _).
    exists (m :: rows), w0, g, c, wc, d, w1, w2.
    repeat split; try assumption. discriminate.
Qed.

Lemma resolve_output_path_keeps (h : host)
    (convert : timeval * timeval -> res (timeval * timeval))
    (tr : time_range) (op : option string) (w : world) (r : res string) (w' : world)
    (q : string) :
  resolve_output_path h convert tr op w = (r, w') ->
  q <> path_join (h_cwd h) "exports" ->
  fs w' q = fs w q.
Proof.
  intros H Hq.
  assert (Hdef : forall r0 w0, default_output_path h convert tr w = (r0, w0) ->
                               fs w0 q = fs w q).
  { unfold default_output_path, mbind, lift, path_exists, makedirs, ret.
    set (dir := path_join (h_cwd h) "exports") in *.
    intros r0 w0.
    destruct (match tr with None => _ | Some _ => _ end); [|congruence].
    destruct (fs w dir); cbn [negb]; cbv beta iota; [congruence|].
    destruct (h_mkdir_fails h dir); cbv beta iota; intros H0; inversion H0;
      [reflexivity|].
    unfold fs_put. cbn [fs]. destruct (String.eqb_spec q dir); congruence. }
  unfold resolve_output_path in H. destruct op as [p0|].
  - destruct (String.eqb p0 ""); [exact (Hdef _ _ H)|].
    unfold ret in H. congruence.
  - exact (Hdef _ _ H).
Qed.

Lemma get_contact_info_missing (db_path : string) (user : pyval) (w : world) :
  fs w db_path = None -> get_contact_info db_path user w = (Ok None, w).
Proof.
  intros H. unfold get_contact_info, mbind, path_exists, ret. rewrite H. reflexivity.
Qed.

Lemma fallback_entry_inv (k : pyval) (c : contact_summary) :
  contact_entry k None = Ok c ->
  exists s, k = PStr s /\
            c = {| username := PStr s; alias := PStr ""; contact_type := PInt (-1);
                   remark := PStr ""; nickname := PStr s;
                   is_chatroom := contains "@chatroom" s |}.
Proof.
  destruct k as [|z|f|s|b]; cbn; try discriminate.
  intros H. injection H as <-. exists s. split; reflexivity.
Qed.

(** X13: When [export_chat_records] runs with no contact database at the given
    path (as when the command line falls back to ":memory:") and returns a
    path, every contact of the written document is the fallback summary of
    its conversation: type -1, empty alias and remark, the identifier as
    username and nickname. *)
Theorem missing_contact_database_gives_fallbacks (h : host)
    (db_path contact_db_path : string) (tr : time_range) (op : option string)
    (w w' : world) (p : string) :
  fs w contact_db_path = None ->
  export_chat_records h db_path contact_db_path tr op w = (Ok p, w') ->
  p <> "" ->
  exists d,
    fs w' p = Some (File (Json d)) /\
    forall k c, In (k, c) (contacts d) ->
      exists s,
        k = PStr s /\
        c = {| username := PStr s; alias := PStr ""; contact_type := PInt (-1);
               remark := PStr ""; nickname := PStr s;
               is_chatroom := contains "@chatroom" s |}.
Proof.
  intros Hmissing Hrun Hp.
  destruct (export_chat_records_returns_path _ _ _ _ _ _ _ _ Hrun Hp)
    as (rows & w0 & g & c & wc & d & w1 & w2 & Hq & _ & Hg & Hc & Hd & _ & Hw & Hfs).
  destruct (write_json_returns _ _ _ _ _ Hw) as (_ & Hfile & _).
  exists d. rewrite Hfs. split; [exact Hfile|].
  assert (Hcd : contacts d = c).
  { unfold build_document in Hd.
    destruct (describe_bound _ _ tr false _); [|discriminate].
    destruct (describe_bound _ _ tr true _); [|discriminate]. cbn [rbind] in Hd.
    destruct (messages_loop g []); [|discriminate]. cbn [rbind] in Hd.
    injection Hd as <-. reflexivity. }
  rewrite Hcd.
  destruct (get_all_messages_frame _ _ _ _ _ _ Hq) as [Hfs0 _].
  refine (proj2 (contacts_loop_entries _
                   (fun w => fs w contact_db_path = None)
                   (fun k c => exists s, k = PStr s /\ c = _)
                   _ _ g [] [] w0 _ wc (group_by_talker_distinct _ _ Hg)
                   eq_refl _ _ Hc)).
  - intros k w3 r w3' H3 Hl. rewrite (get_contact_info_missing _ _ _ H3) in Hl.
    injection Hl as _ <-. exact H3.
  - intros k w3 info w3' c0 H3 Hl He.
    rewrite (get_contact_info_missing _ _ _ H3) in Hl. injection Hl as <- _.
    exact (fallback_entry_inv k c0 He).
  - rewrite Hfs0. exact Hmissing.
  - intros k e [].
Qed.

Lemma missing_contact_database_gives_fallbacks_witness :
  exists d,
    fs (snd (export_chat_records utc_host "MSG.db" ":memory:" None None sample_world))
       "/home/user/exports/wechat_records_all_to_all.json"
    = Some (File (Json d)) /\
    forall k c, In (k, c) (contacts d) -> exists s, k = PStr s /\ username c = PStr s.
Proof.
  destruct (missing_contact_database_gives_fallbacks utc_host "MSG.db" ":memory:"
              None None sample_world
              (snd (export_chat_records utc_host "MSG.db" ":memory:" None None
                      sample_world))
              "/home/user/exports/wechat_records_all_to_all.json")
    as (d & Hd & Hall).
  - reflexivity.
  - vm_compute. reflexivity.
  - discriminate.
  - exists d. split; [exact Hd|]. intros k c Hin.
    destruct (Hall k c Hin) as (s & -> & ->). exists s. split; reflexivity.
Defined.

(** ** What the exporter of export_chat_records.py touches *)

Lemma write_json_frame (h : host) (path : string) (d : document)
    (w : world) (r : res unit) (w' : world) :
  write_json h path d w = (r, w') ->
  out w' = out w /\ forall q, q <> path -> fs w' q = fs w q.
Proof.
  destruct r as [[]|e]; intros H.
  - destruct (write_json_returns _ _ _ _ _ H) as (A & _ & _ & B). split; assumption.
  - destruct (write_json_raises _ _ _ _ _ _ H) as (A & _ & B). split; assumption.
Qed.

Lemma write_document_frame (h : host) (done : string -> event) (failed : event)
    (path : string) (d : document) (w : world) (r : res string) (w' : world) :
  write_document h done failed path d w = (r, w') ->
  (forall q, q <> path -> fs w' q = fs w q) /\
  (r = Ok path \/ r = Ok "").
Proof.
  unfold write_document, try_catch, mbind, emit, ret.
  destruct (write_json h path d w) as [[[]|e] w2] eqn:Ew;
    destruct (write_json_frame _ _ _ _ _ _ Ew) as [_ Hrest];
    intros H; injection H as <- <-; split; auto.
Qed.

Lemma before_write_frame (h : host) (db : database_layer) (tr : time_range)
    (op : option string) (w : world) (r : res (option (string * document)))
    (w' : world) (q : string) :
  before_write h db tr op w = (r, w') ->
  q <> path_join (h_cwd h) "exports" ->
  fs w' q = fs w q.
Proof.
  unfold before_write, mbind, lift, ret. intros H Hq. revert H.
  destruct (get_all_chat_records_by_time db tr) as [[|kv g]|]; try congruence.
  destruct (contacts_loop _ _ _ w) as [[c|] w1] eqn:Ec;
    pose proof (contacts_loop_pure _ _ _ _ _ _ Ec) as ->; [|congruence].
  destruct (build_document _ _ _ _ _); [|congruence].
  destruct (resolve_output_path _ _ _ _ w) as [[p|] w2] eqn:Ep;
    pose proof (resolve_output_path_keeps _ _ _ _ _ _ _ q Ep Hq) as Hk;
    intros H; injection H as _ <-; exact Hk.
Qed.

(** X14: Called with an output path, [export_chat_records_to_json] changes no
    file but the one at that path, whatever happens (it does not make the
    [exports] directory either), and what it returns is that path or the
    empty path, unless it raises. *)
Theorem explicit_output_path_is_the_only_file_touched (h : host)
    (db : database_layer) (tr : time_range) (p0 : string) (w : world)
    (r : res string) (w' : world) :
  p0 <> "" ->
  export_chat_records_to_json h db tr (Some p0) w = (r, w') ->
  (forall q, q <> p0 -> fs w' q = fs w q) /\
  (forall p, r = Ok p -> p = p0 \/ p = "").
Proof.
  intros Hp0. rewrite export_to_json_split.
  destruct (before_write h db tr (Some p0) w) as [[[[path d]|]|e] w1] eqn:Eb.
  - assert (Hw1 : path = p0 /\ w1 = w).
    { revert Eb. unfold before_write, mbind, lift, ret.
      destruct (get_all_chat_records_by_time db tr) as [[|kv g]|]; try discriminate.
      destruct (contacts_loop _ _ _ w) as [[c|] w0] eqn:Ec;
        pose proof (contacts_loop_pure _ _ _ _ _ _ Ec) as ->; [|discriminate].
      destruct (build_document _ _ _ _ _); [|discriminate].
      unfold resolve_output_path.
      destruct (String.eqb_spec p0 ""); [contradiction|].
      unfold ret. intros H. injection H as <- _ <-. split; reflexivity. }
    destruct Hw1 as [-> ->]. intros H.
    destruct (write_document_frame _ _ _ _ _ _ _ _ H) as [Hrest Hres].
    split; [exact Hrest|]. intros p ->.
    destruct Hres as [Hres|Hres]; injection Hres as ->; auto.
  - assert (Hw1 : forall q, fs w1 q = fs w q).
    { revert Eb. unfold before_write, mbind, lift, ret.
      destruct (get_all_chat_records_by_time db tr) as [[|kv g]|]; try discriminate.
      - intros H. injection H as <-. reflexivity.
      - destruct (contacts_loop _ _ _ w) as [[c|] w0]; [|discriminate].
        destruct (build_document _ _ _ _ _); [|discriminate].
        destruct (resolve_output_path _ _ _ _ w0) as [[p|] w2]; discriminate. }
    intros H. injection H as <- <-. split; [intros; apply Hw1|].
    intros p Hp. injection Hp as <-. auto.
  - assert (Hw1 : w1 = w).
    { revert Eb. unfold before_write, mbind, lift, ret.
      destruct (get_all_chat_records_by_time db tr) as [[|kv g]|]; try congruence.
      destruct (contacts_loop _ _ _ w) as [[c|] w0] eqn:Ec;
        pose proof (contacts_loop_pure _ _ _ _ _ _ Ec) as ->; [|congruence].
      destruct (build_document _ _ _ _ _); [|congruence].
      unfold resolve_output_path.
      destruct (String.eqb_spec p0 ""); [contradiction|].
      unfold ret. discriminate. }
    subst w1. intros H. injection H as <- <-. split; [reflexivity | discriminate].
Qed.

Lemma explicit_output_path_is_the_only_file_touched_witness :
  fst (export_chat_records_to_json utc_host sample_layer None (Some "out.json")
         sample_world) = Ok "out.json" /\
  forall q, q <> "out.json" ->
    fs (snd (export_chat_records_to_json utc_host sample_layer None
               (Some "out.json") sample_world)) q
    = fs sample_world q.
Proof.
  split; [vm_compute; reflexivity|].
  refine (proj1 (explicit_output_path_is_the_only_file_touched utc_host sample_layer
                   None "out.json" sample_world
                   (fst (export_chat_records_to_json utc_host sample_layer None
                           (Some "out.json") sample_world))
                   (snd (export_chat_records_to_json utc_host sample_layer None
                           (Some "out.json") sample_world)) _ _)).
  - discriminate.
  - apply surjective_pairing.
Defined.

(** X15: With the default path, the only paths that may change are the
    [exports] directory and a file [wechat_records_<a>_to_<b>.json] in it;
    every other path is left as it was, whatever happens. *)
Theorem default_path_run_stays_in_exports (h : host) (db : database_layer)
    (tr : time_range) (w : world) (r : res string) (w' : world) (q : string) :
  export_chat_records_to_json h db tr None w = (r, w') ->
  q <> path_join (h_cwd h) "exports" ->
  (forall a b, q <> path_join (path_join (h_cwd h) "exports")
                      ("wechat_records_" +++ a +++ "_to_" +++ b +++ ".json")) ->
  fs w' q = fs w q.
Proof.
  rewrite export_to_json_split. intros H Hq Hname.
  destruct (before_write h db tr None w) as [[[[path d]|]|e] w1] eqn:Eb;
    pose proof (before_write_frame _ _ _ _ _ _ _ q Eb Hq) as Hk.
  - destruct (before_write_steps _ _ _ _ _ _ _ _ Eb)
      as (g & _ & _ & _ & _ & _ & _ & _ & Hpath).
    cbn [resolve_output_path] in Hpath.
    destruct (default_output_path_returns _ _ _ _ _ _ Hpath)
      as (a & b & Hp & _).
    destruct (write_document_frame _ _ _ _ _ _ _ _ H) as [Hrest _].
    rewrite Hrest; [exact Hk|]. rewrite Hp. apply Hname.
  - injection H as _ <-. exact Hk.
  - injection H as _ <-. exact Hk.
Qed.

Lemma default_path_run_stays_in_exports_witness :
  fs (snd (export_chat_records_to_json utc_host sample_layer None None sample_world))
     "MSG.db"
  = fs sample_world "MSG.db".
Proof.
  apply (default_path_run_stays_in_exports utc_host sample_layer None sample_world
           (fst (export_chat_records_to_json utc_host sample_layer None None
                   sample_world))).
  - apply surjective_pairing.
  - intros H. vm_compute in H. discriminate H.
  - intros a b H. cbn in H. discriminate H.
Defined.

(** ** The messages of the document *)

Lemma format_messages_Forall2 (l : list row) :
  forall fl, format_messages l = Ok fl ->
             Forall2 (fun m f => format_message_for_json m = Ok f) l fl.
Proof.
  induction l as [|m l IH]; cbn; intros fl.
  - intros H. injection H as <-. constructor.
  - destruct (format_message_for_json m) as [f|] eqn:Ef; [|discriminate]. cbn.
    destruct (format_messages l) as [fl'|]; [|discriminate]. cbn.
    intros H. injection H as <-. constructor; [exact Ef | exact (IH _ eq_refl)].
Qed.

Lemma messages_loop_groups (todo : dict (list row)) :
  forall (done : dict (list row)) (acc m : dict (list formatted_message)),
    keys_distinct (done ++ todo) ->
    dict_keys acc = dict_keys done ->
    Forall2 (fun kv kf =>
               fst kf = fst kv /\
               Forall2 (fun r f => format_message_for_json r = Ok f)
                 (snd kv) (snd kf)) done acc ->
    messages_loop todo acc = Ok m ->
    Forall2 (fun kv kf =>
               fst kf = fst kv /\
               Forall2 (fun r f => format_message_for_json r = Ok f)
                 (snd kv) (snd kf)) (done ++ todo) m.
Proof.
  induction todo as [|[k v] todo IH]; intros done acc m Hkd Hacc HR; cbn.
  - intros H. injection H as <-. rewrite app_nil_r. exact HR.
  - destruct (format_messages v) as [fm|] eqn:Ef; [|discriminate]. cbn. intros H.
    replace (done ++ (k, v) :: todo) with ((done ++ [(k, v)]) ++ todo) in *
      by (rewrite <- app_assoc; reflexivity).
    assert (Hnone : dict_get acc k = None).
    { apply (dict_get_None_keys done acc k (eq_sym Hacc)).
      rewrite <- app_assoc in Hkd. cbn in Hkd.
      exact (keys_distinct_app_get _ _ _ _ Hkd). }
    rewrite (dict_keys_set_new acc k fm Hnone) in H.
    eapply (IH (done ++ [(k, v)])); [exact Hkd | | | exact H].
    + rewrite !dict_keys_app, Hacc. reflexivity.
    + apply Forall2_app; [exact HR|]. constructor; [|constructor].
      split; [reflexivity|]. exact (format_messages_Forall2 v fm Ef).
Qed.

(** X16: In the document [export_chat_records_to_json] writes, ["messages"] lists
    the conversations in the order of the groups, and under each
    conversation one record per message of the group, in the order of the
    group, each being that message formatted: no message is dropped or
    moved. *)
Theorem document_messages_are_the_formatted_groups (h : host) (db : database_layer)
    (tr : time_range) (op : option string) (w w' : world) (p : string) :
  export_chat_records_to_json h db tr op w = (Ok p, w') ->
  p <> "" ->
  exists d g,
    fs w' p = Some (File (Json d)) /\
    get_all_chat_records_by_time db tr = Ok g /\
    Forall2 (fun kv kf =>
               fst kf = fst kv /\
               Forall2 (fun r f => format_message_for_json r = Ok f)
                 (snd kv) (snd kf)) g (messages d).
Proof.
  intros Hrun Hp.
  destruct (export_to_json_returns_path _ _ _ _ _ _ _ Hrun Hp)
    as (d & w1 & w2 & Hb & Hw & Hfs & _).
  destruct (before_write_steps _ _ _ _ _ _ _ _ Hb)
    as (g & Hg & _ & Hkd & _ & Hm & _).
  destruct (write_json_returns _ _ _ _ _ Hw) as (_ & Hfile & _).
  exists d, g. rewrite Hfs. split; [exact Hfile|]. split; [exact Hg|].
  exact (messages_loop_groups g [] [] _ Hkd eq_refl (Forall2_nil _) Hm).
Qed.

Lemma document_messages_are_the_formatted_groups_witness :
  exists d g,
    fs (snd (export_chat_records_to_json utc_host sample_layer None None sample_world))
       "/home/user/exports/wechat_records_all_to_all.json"
    = Some (File (Json d)) /\
    get_all_chat_records_by_time sample_layer None = Ok g /\
    List.length (messages d) = List.length g.
Proof.
  destruct (document_messages_are_the_formatted_groups utc_host sample_layer None
              None sample_world
              (snd (export_chat_records_to_json utc_host sample_layer None None
                      sample_world))
              "/home/user/exports/wechat_records_all_to_all.json")
    as (d & g & H1 & H2 & H3).
  - vm_compute. reflexivity.
  - discriminate.
  - exists d, g. split; [exact H1|]. split; [exact H2|].
    symmetry. exact (Forall2_length H3).
Defined.

(** ** Values [json.dump] refuses *)

Lemma format_message_content (m : row) (f : formatted_message) :
  format_message_for_json m = Ok f -> content f = nth 7 m PNone.
Proof.
  intros Hf.
  assert (Hlen : has_talker m).
  { destruct (Nat.lt_ge_cases 11 (List.length m)) as [H|H]; [exact H|].
    rewrite format_message_short in Hf; [discriminate|].
    unfold has_talker. lia. }
  unfold has_talker in Hlen.
  do 12 (destruct m as [|? m]; [cbn in Hlen; lia|]).
  destruct m as [|v12 [|v13 m]]; cbn in Hf; injection Hf as <-; reflexivity.
Qed.

Lemma Forall2_In_left {A B : Type} (R : A -> B -> Prop) (l : list A) (l' : list B)
    (x : A) :
  Forall2 R l l' -> In x l -> exists y, In y l' /\ R x y.
Proof.
  induction 1 as [|a b l l' Hab Hl IH]; cbn; [contradiction|].
  intros [<-|Hin].
  - exists b. split; [left; reflexivity | exact Hab].
  - destruct (IH Hin) as (y & Hy & HR). exists y. split; [right|]; assumption.
Qed.

(** X17: A single message whose content column is a BLOB keeps
    [export_chat_records_to_json] from ever returning a path for a range
    that includes it: the document cannot be encoded, so the run ends with
    the empty path (or an exception), never with a complete file. *)
Theorem blob_content_blocks_the_export (h : host) (db : database_layer)
    (tr : time_range) (op : option string) (w w' : world) (p : string)
    (msgs : list row) (m : row) (b : list Byte.byte) :
  get_messages_all db tr = Ok msgs ->
  In m msgs ->
  nth_error m 7 = Some (PBytes b) ->
  export_chat_records_to_json h db tr op w = (Ok p, w') ->
  p = "".
Proof.
  intros Hmsgs Hin Hblob Hrun.
  destruct (String.eqb_spec p "") as [|Hp]; [assumption|]. exfalso.
  destruct (export_to_json_returns_path _ _ _ _ _ _ _ Hrun Hp)
    as (d & w1 & w2 & Hb & Hw & _).
  destruct (before_write_steps _ _ _ _ _ _ _ _ Hb)
    as (g & Hg & _ & Hkd & _ & Hm & _).
  destruct (write_json_returns _ _ _ _ _ Hw) as (_ & _ & Hser & _).
  pose proof (messages_loop_groups g [] [] _ Hkd eq_refl (Forall2_nil _) Hm) as HR.
  cbn [app] in HR.
  unfold get_all_chat_records_by_time in Hg. rewrite Hmsgs in Hg. cbn in Hg.
  destruct msgs as [|m0 msgs]; [contradiction|].
  pose proof (group_loop_has_talker _ _ _ Hg) as Hall.
  destruct (group_loop_ok _ Hall []) as (g' & Hg' & _ & _ & Hperm).
  assert (g' = g) by (unfold group_by_talker in Hg; congruence). subst g'.
  cbn [map List.concat app] in Hperm.
  apply (Permutation_in m (Permutation_sym Hperm)) in Hin.
  apply in_concat in Hin as (ms & Hms & Hin).
  apply in_map_iff in Hms as ([k ms'] & <- & Hkv). cbn [snd] in Hin.
  destruct (Forall2_In_left _ _ _ _ HR Hkv) as ([k' fl] & Hkf & _ & Hfl).
  cbn [snd] in Hfl.
  destruct (Forall2_In_left _ _ _ _ Hfl Hin) as (f & Hf & Hfm).
  pose proof (format_message_content m f Hfm) as Hc.
  rewrite (nth_error_nth m 7 PNone Hblob) in Hc.
  unfold json_serializable in Hser. apply andb_prop in Hser as [_ Hser].
  rewrite forallb_forall in Hser. specialize (Hser _ Hkf).
  apply andb_prop in Hser as [_ Hser]. cbn [snd] in Hser.
  rewrite forallb_forall in Hser. specialize (Hser _ Hf).
  unfold json_message_ok in Hser. rewrite Hc in Hser. cbn in Hser.
  rewrite !andb_false_r in Hser. cbn in Hser.
  repeat (rewrite ?andb_false_r, ?andb_false_l in Hser; cbn in Hser).
  discriminate.
Qed.

Lemma blob_content_blocks_the_export_witness :
  fst (export_chat_records_to_json utc_host blob_content_layer None None sample_world)
  = Ok "".
Proof.
  assert (H : "" = "").
  { eapply (blob_content_blocks_the_export utc_host blob_content_layer None None
              sample_world
              (snd (export_chat_records_to_json utc_host blob_content_layer None
                      None sample_world)) "");
      [reflexivity | left; reflexivity | reflexivity | vm_compute; reflexivity]. }
  vm_compute. reflexivity.
Defined.

(** ** A conversation identifier that is not a string *)

Lemma contacts_loop_type_error (find : pyval -> res (option row)) (ks : list pyval) :
  (forall k, find k = Ok None) ->
  Exists (fun k => forall s, k <> PStr s) ks ->
  forall acc w,
    contacts_loop (fun talker => lift (find talker)) ks acc w = (Raise TypeError, w).
Proof.
  intros Hfind. induction ks as [|k ks IH]; intros Hex acc w.
  - inversion Hex.
  - cbn [contacts_loop]. unfold mbind at 1, lift at 1. rewrite Hfind.
    unfold mbind at 1, lift at 1.
    destruct k as [|z|f|s|b]; try reflexivity.
    cbn. apply IH. inversion Hex as [? ? Hk|? ? Htl]; subst; [|exact Htl].
    exfalso. exact (Hk s eq_refl).
Qed.

(** X18: When no contact row is found and some conversation identifier among the
    groups is not a string (a NULL talker, a number, a BLOB),
    [export_chat_records_to_json] raises [TypeError]: the test
    ["@chatroom" in talker] is outside every [try].  Nothing is written and
    nothing is logged. *)
Theorem non_string_talker_raises_TypeError (h : host) (db : database_layer)
    (tr : time_range) (op : option string) (w : world) (g : dict (list row)) :
  get_all_chat_records_by_time db tr = Ok g ->
  (forall k, get_contact_by_username db k = Ok None) ->
  Exists (fun k => forall s, k <> PStr s) (dict_keys g) ->
  export_chat_records_to_json h db tr op w = (Raise TypeError, w).
Proof.
  intros Hg Hfind Hex.
  unfold export_chat_records_to_json. unfold mbind at 1, lift at 1. rewrite Hg.
  destruct g as [|kv g]; [inversion Hex|].
  unfold mbind at 1.
  rewrite (contacts_loop_type_error _ _ Hfind Hex). reflexivity.
Qed.

Lemma non_string_talker_raises_TypeError_witness :
  export_chat_records_to_json utc_host
    {| get_messages_all := fun _ =>
         Ok [[PInt 1; PInt 1; PInt 1; PInt 0; PInt 1; PInt 1700000001; PInt 0;
              PStr "hi"; PStr "2023-11-14 22:13:21"; PInt 7; PNone; PNone;
              PInt 0; PNone]];
       get_contact_by_username := fun _ => Ok None;
       db_convert_to_timestamp := convert_to_timestamp utc_host |}
    None None sample_world
  = (Raise TypeError, sample_world).
Proof.
  eapply non_string_talker_raises_TypeError.
  - reflexivity.
  - reflexivity.
  - apply Exists_cons_hd. discriminate.
Defined.

(** ** The two exporters side by side *)

Lemma contacts_loop_readable (contact_db_path : string)
    (find : pyval -> option row) (ks : list pyval) :
  forall acc w,
    fs w contact_db_path = Some (File (ContactDb find)) ->
    contacts_loop (get_contact_info contact_db_path) ks acc w
    = contacts_loop (fun talker => lift (Ok (find talker))) ks acc w.
Proof.
  induction ks as [|k ks IH]; intros acc w Hdb; [reflexivity|].
  cbn [contacts_loop]. unfold mbind at 1 3.
  assert (Hl : get_contact_info contact_db_path k w = (Ok (find k), w)).
  { unfold get_contact_info, mbind, path_exists, try_catch, fetch_contact.
    rewrite Hdb. cbn. rewrite Hdb. reflexivity. }
  rewrite Hl. unfold lift at 2. unfold mbind at 1 2.
  destruct (lift (contact_entry k (find k)) w) as [[entry|] w1] eqn:E;
    unfold lift in E; injection E as E <-; [|reflexivity].
  apply IH. exact Hdb.
Qed.

Lemma group_by_talker_nonempty (m : row) (l : list row) (g : dict (list row)) :
  group_by_talker (m :: l) = Ok g -> g <> [].
Proof.
  intros Hg ->.
  pose proof (group_loop_has_talker _ _ _ Hg) as Hall.
  destruct (group_loop_ok _ Hall []) as (g' & Hg' & _ & _ & Hperm).
  assert (g' = []) by (unfold group_by_talker in Hg; congruence). subst g'.
  cbn in Hperm. apply Permutation_nil in Hperm. discriminate.
Qed.

Lemma write_document_same (h : host) (done done' : string -> event)
    (failed failed' : event) (path : string) (d : document) (w : world) :
  fst (write_document h done failed path d w)
  = fst (write_document h done' failed' path d w) /\
  fs (snd (write_document h done failed path d w))
  = fs (snd (write_document h done' failed' path d w)).
Proof.
  unfold write_document, try_catch, mbind, emit, ret.
  destruct (write_json h path d w) as [[[]|e] w2]; split; reflexivity.
Qed.

(** X19: On a readable message database and a readable contact database, the
    self-contained exporter of simple_export.py and the exporter of
    export_chat_records.py, given a database layer that answers from the
    same two files, return the same value (the same path, the empty path or
    the same exception) and leave the same files. *)
Theorem the_two_exporters_agree (h : host) (db_path contact_db_path : string)
    (table : list msg_record) (find : pyval -> option row)
    (tr : time_range) (op : option string) (w : world) :
  fs w db_path = Some (File (MsgDb table)) ->
  fs w contact_db_path = Some (File (ContactDb find)) ->
  let layer :=
    {| get_messages_all := fun t => fst (get_all_messages h db_path t w);
       get_contact_by_username := fun k => Ok (find k);
       db_convert_to_timestamp := convert_to_timestamp h |} in
  fst (export_chat_records h db_path contact_db_path tr op w)
  = fst (export_chat_records_to_json h layer tr op w) /\
  fs (snd (export_chat_records h db_path contact_db_path tr op w))
  = fs (snd (export_chat_records_to_json h layer tr op w)).
Proof.
  intros Hdb Hcdb layer.
  assert (Hq : exists r, get_all_messages h db_path tr w = (r, w)).
  { rewrite (get_all_messages_present h db_path tr w _ Hdb).
    destruct tr as [rg|]; [|eexists; reflexivity].
    destruct (convert_to_timestamp h rg) as [c|e] eqn:Ec; cbn [rbind];
      [|eexists; reflexivity].
    destruct (convert_to_timestamp_ints h rg c Ec) as (s & e & ->).
    cbn. eexists. reflexivity. }
  destruct Hq as [r Hq].
  unfold export_chat_records, export_chat_records_to_json,
    get_all_chat_records_by_time, mbind, lift.
  cbn [get_messages_all layer get_contact_by_username db_convert_to_timestamp].
  rewrite Hq. cbn [fst rbind].
  destruct r as [[|m rows]|e]; cbn [rbind];
    [split; reflexivity | | split; reflexivity].
  destruct (group_by_talker (m :: rows)) as [g|e] eqn:Eg;
    [|split; reflexivity].
  pose proof (group_by_talker_nonempty _ _ _ Eg) as Hne.
  destruct g as [|kv g]; [congruence|].
  rewrite (contacts_loop_readable contact_db_path find _ _ _ Hcdb).
  unfold lift.
  destruct (contacts_loop _ (dict_keys (kv :: g)) [] w) as [[c|e] w1];
    [|split; reflexivity].
  destruct (build_document h (convert_to_timestamp h) tr (kv :: g) c) as [d|e];
    [|split; reflexivity].
  destruct (resolve_output_path h (convert_to_timestamp h) tr op w1)
    as [[path|e] w2]; [|split; reflexivity].
  apply write_document_same.
Qed.

Lemma the_two_exporters_agree_witness :
  fst (export_chat_records utc_host "MSG.db" "MicroMsg.db" None None
         {| fs := fun p => if String.eqb p "MicroMsg.db"
                           then Some (File (ContactDb (fun _ => None)))
                           else fs sample_world p;
            out := [] |})
  = Ok "/home/user/exports/wechat_records_all_to_all.json".
Proof.
  rewrite (proj1 (the_two_exporters_agree utc_host "MSG.db" "MicroMsg.db"
                    sample_table (fun _ => None) None None
                    {| fs := fun p => if String.eqb p "MicroMsg.db"
                                      then Some (File (ContactDb (fun _ => None)))
                                      else fs sample_world p;
                       out := [] |} eq_refl eq_refl)).
  vm_compute. reflexivity.
Defined.

(** ** export_records.py: the command line *)

(** X20: A date that neither format parses ends [main] at once with
    [sys.exit(1)] and the invalid-format line: the database is not
    initialised, the exporter is not called, the world is untouched.  This
    holds for [--start], and for [--end] when [--start] is absent or fine. *)
Theorem invalid_date_exits_before_any_work (h : host) (db : database_layer)
    (init_db : M unit) (args : cli_args) (w : world) (s : string) :
  s <> "" ->
  parse_date h s = None ->
  (arg_start args = Some s \/
   (arg_end args = Some s /\
    match arg_start args with
    | Some s0 => s0 = "" \/ parse_date h s0 <> None
    | None => True
    end)) ->
  main h db init_db args w = (Exited 1, [InvalidDateFormat s], w).
Proof.
  intros Hs Hbad Hargs.
  assert (Hgiven : given (Some s) = true).
  { cbn. destruct (String.eqb_spec s ""); [contradiction | reflexivity]. }
  unfold main.
  assert (Hr : cli_time_range h args = inr s).
  { unfold cli_time_range. destruct Hargs as [Hst | [Hen Hst]].
    - rewrite Hst, Hgiven, Hbad. reflexivity.
    - rewrite Hen, Hgiven, orb_true_r, Hbad.
      destruct (arg_start args) as [s0|]; [|reflexivity].
      destruct (given (Some s0)) eqn:Eg; [|reflexivity].
      destruct Hst as [-> | Hst]; [discriminate|].
      destruct (parse_date h s0); [reflexivity | congruence]. }
  rewrite Hr. reflexivity.
Qed.

Lemma invalid_date_exits_before_any_work_witness :
  main utc_host sample_layer (ret tt)
    {| arg_start := Some "2023-01-01"; arg_end := Some "tomorrow";
       arg_output := None; arg_debug := false |} sample_world
  = (Exited 1, [InvalidDateFormat "tomorrow"], sample_world).
Proof.
  apply invalid_date_exits_before_any_work.
  - discriminate.
  - reflexivity.
  - right. split; [reflexivity|]. right. discriminate.
Defined.

(** X21: The range [main] hands to the exporter is never made of strings: it is
    [None] when neither date is given, and otherwise two [datetime] objects,
    with 1970-01-01 00:00:00 standing for a missing start and the current
    time for a missing end; [convert_to_timestamp] then only has the two
    timestamps to take. *)
Theorem cli_range_is_made_of_datetimes (h : host) (args : cli_args) (tr : time_range) :
  cli_time_range h args = inl tr ->
  (given (arg_start args) = false -> given (arg_end args) = false -> tr = None) /\
  (given (arg_start args) = true \/ given (arg_end args) = true ->
   exists ds de,
     tr = Some (TDatetime ds, TDatetime de) /\
     (given (arg_start args) = false -> ds = mkDatetime 1970 1 1 0 0 0 0) /\
     (given (arg_end args) = false -> de = h_now h) /\
     convert_to_timestamp h (TDatetime ds, TDatetime de)
     = (s <- h_timestamp h ds ;; e <- h_timestamp h de ;; Ok (TInt s, TInt e))).
Proof.
  unfold cli_time_range. intros H. split.
  - intros Hs He. rewrite Hs, He in H. cbn in H. congruence.
  - intros Hany.
    assert (Hor : given (arg_start args) || given (arg_end args) = true).
    { destruct Hany as [-> | ->]; [reflexivity | apply orb_true_r]. }
    rewrite Hor in H.
    assert (Hconv : forall ds de,
              convert_to_timestamp h (TDatetime ds, TDatetime de)
              = (s <- h_timestamp h ds ;; e <- h_timestamp h de ;; Ok (TInt s, TInt e))).
    { intros ds de. unfold convert_to_timestamp. cbn.
      destruct (h_timestamp h ds); cbn; [|reflexivity].
      destruct (h_timestamp h de); reflexivity. }
    destruct (arg_start args) as [s0|];
      [destruct (given (Some s0)) eqn:Es;
       [destruct (parse_date h s0) as [ds|]; [|discriminate]|]|];
      (destruct (arg_end args) as [s1|];
       [destruct (given (Some s1)) eqn:Ee;
        [destruct (parse_date h s1) as [de|]; [|discriminate]|]|]);
      injection H as <-; do 2 eexists; (split; [reflexivity|]);
      (split; [try discriminate; reflexivity|]);
      (split; [try discriminate; reflexivity|]); apply Hconv.
Qed.

Lemma cli_range_is_made_of_datetimes_witness :
  cli_time_range utc_host
    {| arg_start := None; arg_end := Some "2023-01-31";
       arg_output := None; arg_debug := false |}
  = inl (Some (TDatetime (mkDatetime 1970 1 1 0 0 0 0),
               TDatetime (mkDatetime 2023 1 31 0 0 0 0))).
Proof.
  destruct (proj2 (cli_range_is_made_of_datetimes utc_host
                     {| arg_start := None; arg_end := Some "2023-01-31";
                        arg_output := None; arg_debug := false |}
                     _ eq_refl) (or_intror eq_refl))
    as (ds & de & Htr & _).
  reflexivity.
Defined.

(** X22: The command line and the library read a date string alike: a pair of
    strings that [parse_date] accepts is converted by
    [convert_to_timestamp] to the same result as the two [datetime] objects
    [parse_date] returns for them. *)
Theorem parse_date_agrees_with_convert_to_timestamp (h : host) (a b : string)
    (da db : datetime) :
  parse_date h a = Some da ->
  parse_date h b = Some db ->
  convert_to_timestamp h (TStr a, TStr b)
  = convert_to_timestamp h (TDatetime da, TDatetime db).
Proof.
  intros Ha Hb.
  assert (Hp : forall s d, parse_date h s = Some d ->
                           parse_time h (TStr s) = Ok (TDatetime d)).
  { intros s d. unfold parse_date, parse_time.
    destruct (h_strptime h s "%Y-%m-%d %H:%M:%S"); [congruence|].
    destruct (h_strptime h s "%Y-%m-%d"); [congruence | discriminate]. }
  unfold convert_to_timestamp. rewrite (Hp a da Ha), (Hp b db Hb). reflexivity.
Qed.

Lemma parse_date_agrees_with_convert_to_timestamp_witness :
  convert_to_timestamp utc_host (TStr "2023-01-01", TStr "2023-01-31 08:30:00")
  = convert_to_timestamp utc_host
      (TDatetime (mkDatetime 2023 1 1 0 0 0 0),
       TDatetime (mkDatetime 2023 1 31 8 30 0 0)).
Proof.
  apply parse_date_agrees_with_convert_to_timestamp; reflexivity.
Defined.

(** X23: When the query matches nothing, [main] prints that the export failed
    and returns normally: it does not call [sys.exit], so the exit status of
    the script is the same as after a successful export.  No file is
    written. *)
Theorem empty_export_still_returns_normally (h : host) (db : database_layer)
    (init_db : M unit) (args : cli_args) (w w1 : world) (tr : time_range) (u : unit) :
  cli_time_range h args = inl tr ->
  init_db w = (Ok u, w1) ->
  get_messages_all db tr = Ok [] ->
  main h db init_db args w
  = (Returned,
     [InitializingDatabase; ExportingRecords; ExportFailedSeeLog],
     {| fs := fs w1; out := out w1 ++ [LogWarning NoRecordsFound] |}).
Proof.
  intros Htr Hinit Hq. unfold main. rewrite Htr, Hinit.
  unfold export_chat_records_to_json, get_all_chat_records_by_time, mbind, lift.
  rewrite Hq. reflexivity.
Qed.

Lemma empty_export_still_returns_normally_witness :
  main utc_host empty_layer (ret tt) (mkArgs None None None false) sample_world
  = (Returned,
     [InitializingDatabase; ExportingRecords; ExportFailedSeeLog],
     {| fs := fs sample_world; out := [LogWarning NoRecordsFound] |}).
Proof.
  exact (empty_export_still_returns_normally utc_host empty_layer (ret tt)
           (mkArgs None None None false) sample_world sample_world None tt
           eq_refl eq_refl eq_refl).
Defined.


(** ** Data that is exported *)

Lemma hex_or_none_json (v : pyval) : json_value_ok (hex_or_none v) = true.
Proof.
  destruct (hex_or_none_kind v) as [-> | [s ->]]; reflexivity.
Qed.

Lemma format_message_exportable (m : row) :
  exportable m = true ->
  exists f, format_message_for_json m = Ok f /\ json_message_ok f = true.
Proof.
  unfold exportable. intros H.
  apply andb_prop in H as [H Hcols]. apply andb_prop in H as [Hlen Ht].
  apply Nat.ltb_lt in Hlen.
  do 12 (destruct m as [|? m]; [cbn in Hlen; lia|]). clear Hlen.
  cbn in Ht. unfold forallb, column_ok in Hcols. cbn [nth_error] in Hcols.
  repeat (apply andb_prop in Hcols as [? Hcols]).
  destruct m as [|v12 [|v13 m]]; eexists; (split; [reflexivity|]);
    unfold json_message_ok; cbn [message_id talker_id type_ sub_type timestamp
      formatted_time content msg_svr_id bytes_extra talker reserved1
      compress_content];
    rewrite ?hex_or_none_json;
    repeat match goal with
           | Hv : json_value_ok _ = true |- _ => rewrite Hv; clear Hv
           end;
    cbn [andb];
    destruct p10; try discriminate; reflexivity.
Qed.

Lemma format_messages_exportable (l : list row) :
  Forall (fun m => exportable m = true) l ->
  exists fl, format_messages l = Ok fl /\ forallb json_message_ok fl = true.
Proof.
  induction 1 as [|m l Hm Hl IH]; cbn.
  - exists []. split; reflexivity.
  - destruct (format_message_exportable m Hm) as (f & Hf & Hok).
    destruct IH as (fl & Hfl & Hall).
    exists (f :: fl). rewrite Hf, Hfl. cbn. rewrite Hok, Hall.
    split; reflexivity.
Qed.

Lemma dict_set_forallb {V : Type} (okv : V -> bool) (d : dict V) (k : pyval) (v : V) :
  forallb (fun kv => json_value_ok (fst kv) && okv (snd kv)) d = true ->
  json_value_ok k = true ->
  okv v = true ->
  forallb (fun kv => json_value_ok (fst kv) && okv (snd kv)) (dict_set d k v) = true.
Proof.
  intros Hd Hk Hv. induction d as [|[k' v'] d IH]; cbn.
  - rewrite Hk, Hv. reflexivity.
  - cbn in Hd. apply andb_prop in Hd as [Hkv Hd].
    apply andb_prop in Hkv as [Hk' Hv'].
    destruct (py_eqb k' k); cbn.
    + rewrite Hk', Hv, Hd. reflexivity.
    + rewrite Hk', Hv', (IH Hd). reflexivity.
Qed.

Lemma contact_entry_ok (s : string) (info : option row) :
  contact_row_ok info = true ->
  exists c, contact_entry (PStr s) info = Ok c /\ json_contact_ok c = true.
Proof.
  destruct info as [[|c0 [|c1 [|c2 [|c3 [|c4 rest]]]]]|]; cbn;
    try discriminate; try (intros _; eexists; split; reflexivity).
  intros H. repeat (apply andb_prop in H as [H ?]).
  destruct c0 as [| | |s0|]; try discriminate. cbn.
  eexists. split; [reflexivity|]. unfold json_contact_ok. cbn.
  repeat match goal with
         | Hv : json_value_ok _ = true |- _ => rewrite Hv; clear Hv
         end.
  reflexivity.
Qed.

Lemma contacts_loop_succeeds (find : pyval -> res (option row)) (ks : list pyval) :
  (forall s, exists info, find (PStr s) = Ok info /\ contact_row_ok info = true) ->
  Forall (fun k => exists s, k = PStr s) ks ->
  forall acc w,
    forallb (fun kv => json_value_ok (fst kv) && json_contact_ok (snd kv)) acc = true ->
    exists c,
      contacts_loop (fun talker => lift (find talker)) ks acc w = (Ok c, w) /\
      forallb (fun kv => json_value_ok (fst kv) && json_contact_ok (snd kv)) c = true.
Proof.
  intros Hfind. induction 1 as [|k ks [s ->] Hks IH]; intros acc w Hacc.
  - exists acc. split; [reflexivity | exact Hacc].
  - destruct (Hfind s) as (info & Hinfo & Hok).
    destruct (contact_entry_ok s info Hok) as (c & Hc & Hcok).
    cbn [contacts_loop]. unfold mbind at 1, lift at 1. rewrite Hinfo.
    unfold mbind at 1, lift at 1. rewrite Hc.
    apply IH. apply dict_set_forallb; [exact Hacc | reflexivity | exact Hcok].
Qed.

Lemma messages_loop_succeeds (items : dict (list row)) :
  Forall (fun kv => json_value_ok (fst kv) = true /\
                    Forall (fun m => exportable m = true) (snd kv)) items ->
  forall acc,
    forallb (fun kv => json_value_ok (fst kv) && forallb json_message_ok (snd kv)) acc
    = true ->
    exists fm,
      messages_loop items acc = Ok fm /\
      forallb (fun kv => json_value_ok (fst kv) && forallb json_message_ok (snd kv)) fm
      = true.
Proof.
  induction 1 as [|[k ms] items [Hk Hms] Hitems IH]; intros acc Hacc.
  - exists acc. split; [reflexivity | exact Hacc].
  - cbn [fst snd] in Hk, Hms.
    destruct (format_messages_exportable ms Hms) as (fl & Hfl & Hok).
    cbn [messages_loop]. rewrite Hfl. cbn [rbind].
    apply IH. apply dict_set_forallb; assumption.
Qed.

(** The groups of rows that are all exportable: they are there, not empty,
    under text keys, and made of rows of the input. *)
Lemma group_by_talker_exportable (msgs : list row) :
  Forall (fun m => exportable m = true) msgs ->
  exists g,
    group_by_talker msgs = Ok g /\
    (msgs <> [] -> g <> []) /\
    Forall (fun kv => (exists s, fst kv = PStr s) /\
                      Forall (fun m => exportable m = true) (snd kv)) g.
Proof.
  intros Hall.
  assert (Htalk : Forall has_talker msgs).
  { eapply Forall_impl; [|exact Hall]. intros m Hm. unfold exportable in Hm.
    apply andb_prop in Hm as [Hm _]. apply andb_prop in Hm as [Hm _].
    apply Nat.ltb_lt in Hm. exact Hm. }
  destruct (group_loop_ok msgs Htalk []) as (g & Hloop & Hget & Hkd & Hperm).
  exists g. split; [exact Hloop|]. split.
  - intros Hne ->. cbn in Hperm. apply Permutation_nil in Hperm. congruence.
  - apply Forall_forall. intros [k ms] Hin. cbn [fst snd].
    pose proof (keys_distinct_get g k ms (Hkd kd_nil) Hin) as Hk.
    rewrite Hget in Hk. cbn in Hk.
    destruct (filter (talker_is k) msgs) as [|x f] eqn:Ef; [discriminate|].
    injection Hk as <-.
    assert (Hsub : forall m, In m (x :: f) -> In m msgs /\ talker_is k m = true).
    { intros m Hm. rewrite <- Ef in Hm. apply filter_In in Hm. exact Hm. }
    split.
    + destruct (Hsub x (or_introl eq_refl)) as [Hx Hkx].
      rewrite Forall_forall in Hall. specialize (Hall x Hx).
      unfold exportable in Hall. apply andb_prop in Hall as [Hall _].
      apply andb_prop in Hall as [_ Ht]. unfold talker_is in Hkx.
      destruct (nth_error x 11) as [[| | |s|]|]; try discriminate.
      exists s. apply py_eqb_str. exact Hkx.
    + apply Forall_forall. intros m Hm. rewrite Forall_forall in Hall.
      apply Hall. exact (proj1 (Hsub m Hm)).
Qed.

Lemma describe_bound_ok (h : host)
    (convert : timeval * timeval -> res (timeval * timeval))
    (tr : time_range) (pick_end : bool) (format : string) :
  range_ok h convert tr ->
  exists s, describe_bound h convert tr pick_end format = Ok s.
Proof.
  destruct tr as [r|]; cbn; [|intros _; eexists; reflexivity].
  intros (s & e & ds & de & -> & Hs & He). cbn.
  destruct pick_end; cbn; [rewrite He | rewrite Hs]; eexists; reflexivity.
Qed.

(** What [export_chat_records_to_json] does on data it can write, to a path
    it can write. *)
Lemma export_to_json_succeeds (h : host) (db : database_layer)
    (tr : time_range) (p : string) (w : world) (msgs : list row) :
  get_messages_all db tr = Ok msgs ->
  msgs <> [] ->
  Forall (fun m => exportable m = true) msgs ->
  (forall s, exists info,
     get_contact_by_username db (PStr s) = Ok info /\ contact_row_ok info = true) ->
  range_ok h (db_convert_to_timestamp db) tr ->
  p <> "" ->
  fs w p <> Some Dir ->
  h_open_fails h p = false ->
  h_write_fails h p = false ->
  exists d,
    json_serializable d = true /\
    export_chat_records_to_json h db tr (Some p) w
    = (Ok p,
       {| fs := fun q => if String.eqb q p then Some (File (Json d)) else fs w q;
          out := out w ++ [LogInfo (ExportedTo p)] |}).
Proof.
  intros Hq Hne Hall Hfind Hrange Hp Hdir Hopen Hwrite.
  destruct (group_by_talker_exportable msgs Hall) as (g & Hg & Hgne & Hgroups).
  specialize (Hgne Hne).
  assert (Hkeys : Forall (fun k => exists s, k = PStr s) (dict_keys g)).
  { unfold dict_keys. apply Forall_map.
    eapply Forall_impl; [|exact Hgroups]. intros kv [Hk _]. exact Hk. }
  destruct (contacts_loop_succeeds _ _ Hfind Hkeys [] w eq_refl) as (c & Hc & Hcok).
  assert (Hitems : Forall (fun kv => json_value_ok (fst kv) = true /\
                                     Forall (fun m => exportable m = true) (snd kv)) g).
  { eapply Forall_impl; [|exact Hgroups]. intros kv [[s Hs] Hms].
    rewrite Hs. split; [reflexivity | exact Hms]. }
  destruct (messages_loop_succeeds g Hitems [] eq_refl) as (fm & Hfm & Hfmok).
  destruct (describe_bound_ok h _ tr false "%Y-%m-%d %H:%M:%S" Hrange) as (a & Ha).
  destruct (describe_bound_ok h _ tr true "%Y-%m-%d %H:%M:%S" Hrange) as (b & Hb).
  exists {| export_time := h_strftime h (h_now h) "%Y-%m-%d %H:%M:%S";
            time_range_start := a; time_range_end := b;
            contacts := c; messages := fm |}.
  split.
  - unfold json_serializable. cbn [contacts messages]. rewrite Hcok, Hfmok.
    reflexivity.
  - unfold export_chat_records_to_json, get_all_chat_records_by_time.
    rewrite Hq. unfold mbind at 1, lift at 1.
    destruct msgs as [|m0 msgs]; [congruence|]. cbn [rbind]. rewrite Hg.
    destruct g as [|kv g]; [congruence|].
    unfold mbind at 1. rewrite Hc.
    unfold build_document. rewrite Ha, Hb. cbn [rbind]. rewrite Hfm. cbn [rbind].
    unfold mbind at 1, lift at 1.
    unfold resolve_output_path.
    destruct (String.eqb_spec p "") as [|_]; [contradiction|].
    unfold mbind at 1, ret at 1.
    unfold write_document, try_catch, mbind, emit, ret, write_json.
    destruct (fs w p) as [[|fc]|] eqn:Efs; [congruence| |];
      rewrite Hopen; unfold json_serializable;
      cbn [contacts messages]; rewrite Hcok, Hfmok; cbn [andb negb];
      rewrite Hwrite; reflexivity.
Qed.

(** X25: When every fetched row is exportable (twelve columns or more, a text
    talker, no BLOB in the columns copied as they are), every contact lookup
    answers with nothing or with a well-formed row, the time range (if any)
    converts, and the given output path can be opened and written,
    [export_chat_records_to_json] returns that path: the file holds the
    complete document, one line is logged, and no other path changes. *)
Theorem well_formed_data_is_exported (h : host) (db : database_layer)
    (tr : time_range) (p : string) (w : world) (msgs : list row) :
  get_messages_all db tr = Ok msgs ->
  msgs <> [] ->
  Forall (fun m => exportable m = true) msgs ->
  (forall s, exists info,
     get_contact_by_username db (PStr s) = Ok info /\ contact_row_ok info = true) ->
  range_ok h (db_convert_to_timestamp db) tr ->
  p <> "" ->
  fs w p <> Some Dir ->
  h_open_fails h p = false ->
  h_write_fails h p = false ->
  exists d,
    json_serializable d = true /\
    export_chat_records_to_json h db tr (Some p) w
    = (Ok p,
       {| fs := fun q => if String.eqb q p then Some (File (Json d)) else fs w q;
          out := out w ++ [LogInfo (ExportedTo p)] |}).
Proof. exact (export_to_json_succeeds h db tr p w msgs). Qed.

Lemma well_formed_data_is_exported_witness :
  exists d,
    json_serializable d = true /\
    export_chat_records_to_json utc_host sample_layer
      (Some (TStr "2023-11-01", TStr "2023-12-01")) (Some "/tmp/out.json") sample_world
    = (Ok "/tmp/out.json",
       {| fs := fun q => if String.eqb q "/tmp/out.json"
                         then Some (File (Json d)) else fs sample_world q;
          out := [LogInfo (ExportedTo "/tmp/out.json")] |}).
Proof.
  apply (well_formed_data_is_exported utc_host sample_layer
           (Some (TStr "2023-11-01", TStr "2023-12-01")) "/tmp/out.json" sample_world
           [sample_row 1 "alice"; sample_row 2 "g@chatroom";
            sample_row 3 "alice"; sample_row 4 "alice"]).
  - reflexivity.
  - discriminate.
  - repeat constructor.
  - intros s. eexists. split; [reflexivity|].
    destruct (py_eqb (PStr s) (PStr "alice")); reflexivity.
  - cbn. do 4 eexists. split; [vm_compute; reflexivity|].
    split; vm_compute; reflexivity.
  - discriminate.
  - discriminate.
  - reflexivity.
  - reflexivity.
Defined.

(** ** The summary of a contact that was found *)

(** X26: When the lookup returns a row, the contact summary is made of the row
    alone: it returns exactly when the row has five columns or more and its
    first column is text, and then username, alias, type, remark and
    nickname are the columns 0 to 4 as they are and the chatroom flag says
    whether "@chatroom" occurs in column 0; the conversation identifier the
    row was looked up with plays no part.  A non-empty row of fewer than
    five columns raises [IndexError]; a first column that is not text raises
    [TypeError]. *)
Theorem found_contact_summary (talker : pyval) (info : row) :
  info <> [] ->
  (forall c,
     contact_entry talker (Some info) = Ok c <->
     exists s c1 c2 c3 c4 rest,
       info = PStr s :: c1 :: c2 :: c3 :: c4 :: rest /\
       c = {| username := PStr s; alias := c1; contact_type := c2; remark := c3;
              nickname := c4; is_chatroom := contains "@chatroom" s |}) /\
  ((List.length info < 5)%nat -> contact_entry talker (Some info) = Raise IndexError) /\
  ((5 <= List.length info)%nat ->
   (forall s, nth_error info 0 <> Some (PStr s)) ->
   contact_entry talker (Some info) = Raise TypeError).
Proof.
  intros Hne.
  destruct info as [|c0 [|c1 [|c2 [|c3 [|c4 rest]]]]]; [congruence| | | | |];
    try (split; [|split];
         [ intros c; split;
           [ discriminate
           | intros (s & a1 & a2 & a3 & a4 & r & Hi & _); discriminate ]
         | intros _; reflexivity
         | cbn [List.length]; lia ]).
  split; [|split].
  - intros c. destruct c0 as [|z|f|s|b]; cbn; split;
      try discriminate;
      try (intros (s' & a1 & a2 & a3 & a4 & r & Hi & _); discriminate).
    + intros H. injection H as <-. exists s, c1, c2, c3, c4, rest.
      split; reflexivity.
    + intros (s' & a1 & a2 & a3 & a4 & r & Hi & ->).
      injection Hi as -> -> -> -> -> ->. reflexivity.
  - cbn [List.length]. lia.
  - intros _ Hnot. destruct c0 as [|z|f|s|b]; try reflexivity.
    exfalso. exact (Hnot s eq_refl).
Qed.

Lemma found_contact_summary_witness :
  contact_entry (PStr "wxid_1")
    (Some [PStr "g@chatroom"; PStr "al"; PInt 3; PStr "Ali"; PStr "Alice";
           PStr "A"; PStr "A"; PStr ""; PStr ""; PNone; PStr "None"])
  = Ok {| username := PStr "g@chatroom"; alias := PStr "al"; contact_type := PInt 3;
          remark := PStr "Ali"; nickname := PStr "Alice"; is_chatroom := true |}.
Proof.
  destruct (found_contact_summary (PStr "wxid_1")
              [PStr "g@chatroom"; PStr "al"; PInt 3; PStr "Ali"; PStr "Alice";
               PStr "A"; PStr "A"; PStr ""; PStr ""; PNone; PStr "None"])
    as [H _].
  - discriminate.
  - apply H. do 6 eexists. split; reflexivity.
Defined.
